(** * ServiceNowScheduler: ticket templates and the ServiceNow clients

    A shallow embedding of [src/template.py] (class [TicketTemplate]) and of
    the parts of [src/servicenow.py] it drives ([ServiceNowClient] and
    [ServiceNowIntegrationClient]), followed by the properties of the
    scheduling, validation and ticket-creation workflow.

    Python values are dynamically typed, so the embedding works over one
    universe of values ([pyval]) with Python's truthiness, [isinstance],
    [in], [==] and subscripting written out, including the exceptions they
    raise.  Effects (log records, HTTP requests, client method calls) are
    collected as a list of events; the remote server and the local file
    system are an explicit environment. *)

From Stdlib Require Import String Ascii List ZArith QArith Bool Lia.
From Stdlib Require Import DecimalString.
Import ListNotations.
Set Warnings "-register-all".
Local Open Scope string_scope.
Local Open Scope list_scope.
Local Open Scope Z_scope.

(** ** Python values *)

(** A Python [float], by the number it denotes. *)
Inductive pyfloat : Type :=
| FNan
| FInf (negative : bool)
| FFinite (q : Q).

(** The values a TOML document or a JSON response can hold once parsed:
    [None], [bool], [int], [float], [str], date and time objects (kept
    opaque), [list] and [dict] with string keys (insertion ordered).  A
    [str] is held as its UTF-8 encoding: one character is one to four
    bytes. *)
Inductive pyval : Type :=
| VNone
| VBool (b : bool)
| VInt (z : Z)
| VFloat (f : pyfloat)
| VStr (s : string)
| VDate (iso : string)
| VList (items : list pyval)
| VDict (entries : list (string * pyval)).

(** The exceptions that occur in the modelled code. *)
Inductive pyexn : Type :=
| AttributeError
| TypeError
| KeyError (key : string)
| ValueError (msg : string)
| FileNotFoundError (path : string)
| OSError (what : string)
| OtherException (what : string).

(** [isinstance(e, OSError)]; [IOError] is an alias of [OSError]. *)
Definition is_oserror (e : pyexn) : bool :=
  match e with
  | FileNotFoundError _ | OSError _ => true
  | _ => false
  end.

(** Outcome of evaluating a Python expression or call. *)
Inductive result (A : Type) : Type :=
| Returned (a : A)
| Raised (e : pyexn).
Arguments Returned {A} a.
Arguments Raised {A} e.

(** [bool(v)] *)
Definition py_truthy (v : pyval) : bool :=
  match v with
  | VNone => false
  | VBool b => b
  | VInt z => negb (z =? 0)
  | VFloat (FFinite q) => negb (Qeq_bool q 0)
  | VFloat _ => true
  | VStr s => negb (s =? "")%string
  | VDate _ => true
  | VList l => match l with [] => false | _ => true end
  | VDict d => match d with [] => false | _ => true end
  end.

Definition is_none (v : pyval) : bool :=
  match v with VNone => true | _ => false end.

(** [isinstance(v, str)], [isinstance(v, bool)], [isinstance(v, list)],
    [isinstance(v, dict)]. *)
Definition isinstance_str (v : pyval) : bool :=
  match v with VStr _ => true | _ => false end.
Definition isinstance_bool (v : pyval) : bool :=
  match v with VBool _ => true | _ => false end.
Definition isinstance_list (v : pyval) : bool :=
  match v with VList _ => true | _ => false end.
Definition isinstance_dict (v : pyval) : bool :=
  match v with VDict _ => true | _ => false end.

(** [isinstance(v, int)]: in Python [bool] is a subclass of [int]. *)
Definition isinstance_int (v : pyval) : bool :=
  match v with VInt _ | VBool _ => true | _ => false end.

(** [n == v] for an [int] [n]: [True] and [False] compare as 1 and 0, a
    float compares by its numeric value, every other type is unequal. *)
Definition py_eq_int (n : Z) (v : pyval) : bool :=
  match v with
  | VInt z => n =? z
  | VBool b => n =? (if b then 1 else 0)
  | VFloat (FFinite q) => Qeq_bool (inject_Z n) q
  | _ => false
  end.

(** [s == v] for a [str] [s]. *)
Definition py_eq_str (s : string) (v : pyval) : bool :=
  match v with
  | VStr s' => (s =? s')%string
  | _ => false
  end.

(** [v is True] *)
Definition is_True (v : pyval) : bool :=
  match v with VBool true => true | _ => false end.

(** *** Dictionaries *)

Fixpoint lookup (k : string) (d : list (string * pyval)) : option pyval :=
  match d with
  | [] => None
  | (k', v) :: rest => if (k =? k')%string then Some v else lookup k rest
  end.

(** [d.get(k)] and [d.get(k, default)] on a dict. *)
Definition dict_get (d : list (string * pyval)) (k : string)
  (default : pyval) : pyval :=
  match lookup k d with
  | Some v => v
  | None => default
  end.

(** [v.get(k, default)]: only a dict has the method. *)
Definition py_get (v : pyval) (k : string) (default : pyval) : result pyval :=
  match v with
  | VDict d => Returned (dict_get d k default)
  | _ => Raised AttributeError
  end.

Fixpoint prefixb (p s : string) : bool :=
  match p, s with
  | EmptyString, _ => true
  | String a p', String b s' => Ascii.eqb a b && prefixb p' s'
  | String _ _, EmptyString => false
  end.

Fixpoint substringb (p s : string) : bool :=
  prefixb p s ||
  match s with
  | EmptyString => false
  | String _ s' => substringb p s'
  end.

(** [k in v] for a [str] [k]: key membership in a dict, element equality in
    a list, substring test in a str, [TypeError] on the other types. *)
Definition py_contains_str (k : string) (v : pyval) : result bool :=
  match v with
  | VDict d => Returned (match lookup k d with Some _ => true | None => false end)
  | VList l => Returned (existsb (py_eq_str k) l)
  | VStr s => Returned (substringb k s)
  | _ => Raised TypeError
  end.

(** [v[k]] for a [str] [k]. *)
Definition py_getitem_str (v : pyval) (k : string) : result pyval :=
  match v with
  | VDict d =>
      match lookup k d with
      | Some x => Returned x
      | None => Raised (KeyError k)
      end
  | _ => Raised TypeError
  end.

(** A byte that continues a UTF-8 character: [10xxxxxx]. *)
Definition is_continuation_byte (c : ascii) : bool :=
  let n := N_of_ascii c in ((128 <=? n) && (n <? 192))%N.

(** The characters of a [str]: each byte that is not a continuation byte
    starts a character, and the continuation bytes after it belong to it. *)
Fixpoint characters (s : string) : list string :=
  match s with
  | EmptyString => []
  | String c r =>
      match r with
      | String c' _ =>
          if is_continuation_byte c' then
            match characters r with
            | first :: rest => String c first :: rest
            | [] => [String c EmptyString]
            end
          else String c EmptyString :: characters r
      | EmptyString => [String c EmptyString]
      end
  end.

(** [iter(v)]: the items a [for] loop visits; a [str] gives its
    characters. *)
Definition py_iter (v : pyval) : result (list pyval) :=
  match v with
  | VList l => Returned l
  | VDict d => Returned (map (fun kv => VStr (fst kv)) d)
  | VStr s => Returned (map VStr (characters s))
  | _ => Raised TypeError
  end.

(** [len(v)]; the length of a [str] is its number of characters. *)
Definition py_len (v : pyval) : result Z :=
  match v with
  | VList l => Returned (Z.of_nat (List.length l))
  | VDict d => Returned (Z.of_nat (List.length d))
  | VStr s => Returned (Z.of_nat (List.length (characters s)))
  | _ => Raised TypeError
  end.

(** ** Formatted strings

    An f-string is kept as its parts: the literal text and the interpolated
    values, not rendered. *)
Inductive fpart : Type :=
| Lit (text : string)
| Val (v : pyval)
| TypeOf (v : pyval)
| Opaque (what : string).

Definition fstring : Type := list fpart.

(** ** Events and the environment *)

Inductive level : Type := DEBUG | INFO | WARNING | ERROR.

(** The arguments of [requests.Session.request]. *)
Record request : Type := {
  method : string;
  req_url : fstring;
  params : option (list (string * fstring));
  json_payload : pyval;
  data : option string;
  headers : option (list (string * string))
}.

(** Calls of the client methods that [TicketTemplate] uses, recorded when
    the method is entered, with the arguments it receives. *)
Inductive client_call : Type :=
| CallCreateApi (assignment_group short_description description : pyval)
| CallCreateIntegration (assignment_group short_description description : pyval)
| CallUpdate (table_name : string) (sys_id : pyval) (payload : pyval)
| CallAttach (table_name : string) (sys_id : pyval) (file_path : pyval).

Inductive event : Type :=
| EvLog (lvl : level) (msg : fstring)
| EvHttp (r : request)
| EvCall (c : client_call).

(** What the body of an HTTP response holds. *)
Inductive http_body : Type :=
| BodyEmpty
| BodyJson (v : pyval)
| BodyNotJson.

(** What [session.request] does: it answers with a status and a body, or a
    [requests] exception is raised (connection, timeout, any other
    [RequestException]), or some exception outside that hierarchy. *)
Inductive http_outcome : Type :=
| Responded (status : Z) (body : http_body)
| ConnectionError
| Timeout
| RequestException
| Fault (e : pyexn).

(** An entry of the local file system: nothing, a directory, a regular
    file, or another kind of file (a device, a FIFO, a socket).  The content
    is what [open(path, "rb").read()] returns; [None] when opening or
    reading raises [OSError]. *)
Inductive fs_entry : Type :=
| Absent
| Directory
| RegularFile (content : option string)
| SpecialFile (content : option string).

(** The world outside the program: the remote server, which answers a
    request knowing the events so far, the local file system, the MIME
    type table, and the file descriptors the process has open. *)
Record env : Type := {
  respond : list event -> request -> http_outcome;
  fs : string -> fs_entry;
  guess_type : string -> option string;
  fd_open : Z -> bool
}.

(** [os.path.isfile] and [os.path.exists] *)
Definition os_path_isfile (e : env) (p : string) : bool :=
  match fs e p with RegularFile _ => true | _ => false end.
Definition os_path_exists (e : env) (p : string) : bool :=
  match fs e p with Absent => false | _ => true end.

Fixpoint has_slash (s : string) : bool :=
  match s with
  | EmptyString => false
  | String c r => Ascii.eqb c "/" || has_slash r
  end.

(** [os.path.basename] *)
Fixpoint os_path_basename (s : string) : string :=
  match s with
  | EmptyString => EmptyString
  | String c r =>
      if has_slash r then os_path_basename r
      else if Ascii.eqb c "/" then r else String c r
  end.

(** ** The monad of the embedding

    A computation reads the events emitted so far and yields its outcome
    together with the events it emits itself; an exception keeps the events
    emitted before it. *)
Definition M (A : Type) : Type := list event -> result A * list event.

Definition ret {A} (a : A) : M A := fun _ => (Returned a, []).

Definition bind {A B} (m : M A) (f : A -> M B) : M B :=
  fun h =>
    match m h with
    | (Returned a, ev1) =>
        let (r, ev2) := f a (h ++ ev1) in (r, ev1 ++ ev2)
    | (Raised x, ev1) => (Raised x, ev1)
    end.

Definition raise {A} (x : pyexn) : M A := fun _ => (Raised x, []).

Definition emit (ev : event) : M unit := fun _ => (Returned tt, [ev]).

(** [try: m except Exception as x: handler x] *)
Definition try_except {A} (m : M A) (handler : pyexn -> M A) : M A :=
  fun h =>
    match m h with
    | (Returned a, ev1) => (Returned a, ev1)
    | (Raised x, ev1) =>
        let (r, ev2) := handler x (h ++ ev1) in (r, ev1 ++ ev2)
    end.

Definition lift {A} (r : result A) : M A := fun _ => (r, []).

(** The events emitted so far. *)
Definition history : M (list event) := fun h => (Returned h, []).

Definition logging (lvl : level) (msg : fstring) : M unit :=
  emit (EvLog lvl msg).

Declare Scope py_scope.
Delimit Scope py_scope with py.
Notation "x <- m ;; k" := (bind m (fun x => k))
  (at level 61, m at next level, right associativity) : py_scope.
Notation "' pat <- m ;; k" := (bind m (fun x => match x with pat => k end))
  (at level 61, pat pattern, m at next level, right associativity) : py_scope.
Notation "m ;; k" := (bind m (fun _ => k))
  (at level 61, right associativity) : py_scope.
Local Open Scope py_scope.

(** [str(n)] for an [int] *)
Definition str_of_Z (z : Z) : string := NilZero.string_of_int (Z.to_int z).

(** Python's [x and y] on tests, where evaluating [y] may raise. *)
Definition and_then (b : bool) (m : M bool) : M bool :=
  if b then m else ret false.

(** * src/servicenow.py: ServiceNowClient *)
Module ServiceNowClient.

(** The attributes [__init__] sets: the instance URL without its trailing
    slash, the user name and the headers of the session. *)
Record t : Type := {
  url : string;
  username : string;
  session_headers : list (string * string)
}.

Definition api_path : string := "/api/now".

Fixpoint lstrip_slash (s : string) : string :=
  match s with
  | String c r => if Ascii.eqb c "/" then lstrip_slash r else s
  | EmptyString => s
  end.

(** [endpoint_segment.lstrip('/')] on an f-string that starts with
    literal text (every segment built in this module starts with
    ["table/"]). *)
Definition lstrip_segment (seg : fstring) : fstring :=
  match seg with
  | Lit s :: rest => Lit (lstrip_slash s) :: rest
  | _ => seg
  end.

Definition _build_api_url (self : t) (endpoint_segment : fstring) : fstring :=
  [Lit (url self); Lit api_path; Lit "/"] ++ lstrip_segment endpoint_segment.

(** [raise_for_status]: an [HTTPError] for a 4xx or 5xx status. *)
Definition is_error_status (status : Z) : bool :=
  (400 <=? status) && (status <? 600).

Definition _execute_http_request (e : env) (method : string)
  (request_url : fstring) (params : option (list (string * fstring)))
  (payload : pyval) (data : option string)
  (headers : option (list (string * string))) : M pyval :=
  let req := {| method := method; req_url := request_url; params := params;
                json_payload := payload; data := data; headers := headers |} in
  h <- history ;;
  emit (EvHttp req) ;;
  match respond e h req with
  | Responded status body =>
      if is_error_status status then
        logging ERROR [Lit "HTTP Error: "; Opaque "errh"] ;;
        logging ERROR [Lit "Response Content: "; Opaque "errh.response.content"] ;;
        match body with
        | BodyJson error_details =>
            logging ERROR [Lit "Error Details: "; Val error_details]
        | _ =>
            logging ERROR [Lit "Error Response (non-JSON): "; Opaque "errh.response.text"]
        end ;;
        ret VNone
      else if status =? 204 then
        ret (VDict [("status", VStr "success");
                    ("message", VStr "Operation successful with no content returned.")])
      else
        match body with
        | BodyEmpty =>
            ret (VDict [("status", VStr "success");
                        ("message", VStr ("Operation successful with status "
                                          ++ str_of_Z status ++ " and no content."))])
        | BodyJson v => ret v
        | BodyNotJson =>
            (* response.json() raises requests' JSONDecodeError, a
               RequestException *)
            logging ERROR [Lit "Request Exception: "; Opaque "err"] ;;
            ret VNone
        end
  | ConnectionError =>
      logging ERROR [Lit "Connection Error: "; Opaque "errc"] ;; ret VNone
  | Timeout =>
      logging ERROR [Lit "Timeout Error: "; Opaque "errt"] ;; ret VNone
  | RequestException =>
      logging ERROR [Lit "Request Exception: "; Opaque "err"] ;; ret VNone
  | Fault x => raise x
  end.

Definition _make_request (self : t) (e : env) (method : string)
  (endpoint_segment : fstring) (params : option (list (string * fstring)))
  (payload : pyval) : M pyval :=
  let api_url := _build_api_url self endpoint_segment in
  _execute_http_request e method api_url params payload None None.

(** Whether a rendered f-string is a non-empty [str]: only an empty
    literal or an interpolated empty [str] renders as nothing. *)
Definition fpart_nonempty (p : fpart) : bool :=
  match p with
  | Lit s => negb (s =? "")%string
  | Val (VStr s) => negb (s =? "")%string
  | _ => true
  end.

Definition fstring_truthy (f : option fstring) : bool :=
  match f with
  | Some parts => existsb fpart_nonempty parts
  | None => false
  end.

Definition _get_record (self : t) (e : env) (table_name : string)
  (sys_id : pyval) (query : option fstring) (fields : option (list string))
  (limit : option Z) : M pyval :=
  if (table_name =? "")%string then
    logging ERROR [Lit "Table name is required for _get_record."] ;;
    raise (ValueError "Table name must be provided.")
  else
    let endpoint_segment := [Lit "table/"; Lit table_name] in
    let params_for_request : list (string * fstring) := [] in
    '(endpoint_segment, params_for_request) <-
      (if py_truthy sys_id then
         ret (endpoint_segment ++ [Lit "/"; Val sys_id], params_for_request)
       else
         match query with
         | Some q =>
             if fstring_truthy query then
               ret (endpoint_segment, params_for_request ++ [("sysparm_query", q)])
             else
               logging ERROR [Lit "Neither sys_id nor query provided for _get_record."] ;;
               raise (ValueError "Either sys_id or query must be provided to _get_record.")
         | None =>
             logging ERROR [Lit "Neither sys_id nor query provided for _get_record."] ;;
             raise (ValueError "Either sys_id or query must be provided to _get_record.")
         end) ;;
    let params_for_request :=
      match fields with
      | Some (f :: fs') =>
          params_for_request ++ [("sysparm_fields", [Lit (String.concat "," (f :: fs'))])]
      | _ => params_for_request
      end in
    let params_for_request :=
      match limit with
      | Some n => params_for_request ++ [("sysparm_limit", [Val (VInt n)])]
      | None => params_for_request
      end in
    response_data <- _make_request self e "GET" endpoint_segment
                       (Some params_for_request) VNone ;;
    if py_truthy response_data then
      has_result <- lift (py_contains_str "result" response_data) ;;
      if py_truthy sys_id && negb has_result then
        logging DEBUG [Lit "Direct record data received for sys_id '"; Val sys_id;
                       Lit "' from '"; Lit table_name; Lit "'."] ;;
        ret response_data
      else if has_result then
        found <- lift (py_getitem_str response_data "result") ;;
        logging DEBUG [Lit "'result' found in response from '"; Lit table_name;
                       Lit "'. Type: "; TypeOf found] ;;
        ret found
      else
        logging WARNING ([Lit "Response received for _get_record from '"]
                         ++ endpoint_segment
                         ++ [Lit "' but structure is unexpected: "; Val response_data]) ;;
        ret response_data
    else
      logging DEBUG ([Lit "No data returned or error occurred in _get_record for '"]
                     ++ endpoint_segment ++ [Lit "' with params "; Opaque "params_for_request"]) ;;
      ret VNone.

Definition _find_record (self : t) (e : env) (table_name : string)
  (sys_id : pyval) (number : pyval) (fields : option (list string)) : M pyval :=
  if negb (py_truthy sys_id) && negb (py_truthy number) then
    logging ERROR [Lit "Either sys_id or number must be provided to _find_record."] ;;
    raise (ValueError "Either sys_id or number must be provided to find a record.")
  else
    record_data <-
      (if py_truthy sys_id then
         logging DEBUG [Lit "Fetching record from '"; Lit table_name;
                        Lit "' by sys_id: '"; Val sys_id; Lit "'"] ;;
         _get_record self e table_name sys_id None fields None
       else
         logging DEBUG [Lit "Fetching record from '"; Lit table_name;
                        Lit "' by number: '"; Val number; Lit "'"] ;;
         let query := [Lit "number="; Val number] in
         records_list <- _get_record self e table_name VNone (Some query) fields (Some 1) ;;
         match records_list with
         | VList (first :: _) => ret first
         | _ =>
             if py_truthy records_list then
               logging WARNING [Lit "Expected list from _get_record for number '"; Val number;
                                Lit "' in '"; Lit table_name; Lit "', received ";
                                TypeOf records_list; Lit "."] ;;
               ret VNone
             else ret VNone
         end) ;;
    (if py_truthy record_data then
       logging DEBUG [Lit "Record found in '"; Lit table_name; Lit "'"]
     else
       logging DEBUG [Lit "No record found in '"; Lit table_name; Lit "'"]) ;;
    ret record_data.

(** [create_requested_item] with the six optional keyword arguments
    ([area], [business_service], [organization], [subcategory],
    [service_group], [category]) at their default [None], as
    [TicketTemplate] calls it. *)
Definition create_requested_item (self : t) (e : env)
  (assignment_group description short_description : pyval) : M pyval :=
  emit (EvCall (CallCreateApi assignment_group short_description description)) ;;
  let endpoint_segment := [Lit "table/sc_req_item"] in
  let payload := VDict [
    ("caller_id", VStr (username self));
    ("contact_type", VStr "Interface");
    ("requested_for", VStr (username self));
    ("u_kot_organization", VNone);
    ("u_area", VNone);
    ("u_service_group", VNone);
    ("business_service", VNone);
    ("category", VNone);
    ("subcategory", VNone);
    ("assignment_group", assignment_group);
    ("short_description", short_description);
    ("description", description)] in
  logging INFO [Lit "Attempting to create ritm"] ;;
  logging DEBUG [Lit "Payload: "; Val payload] ;;
  response_data <- _make_request self e "POST" endpoint_segment None payload ;;
  is_record <-
    and_then (py_truthy response_data)
      (has_result <- lift (py_contains_str "result" response_data) ;;
       and_then has_result
         (r <- lift (py_getitem_str response_data "result") ;;
          ret (isinstance_dict r))) ;;
  if is_record then
    created_record <- lift (py_getitem_str response_data "result") ;;
    number <- lift (py_get created_record "number" (VStr "N/A")) ;;
    record_identifier <- lift (py_get created_record "sys_id" number) ;;
    logging INFO [Lit "Successfully created ritm.";
                  Lit "Identifier (sys_id/number): "; Val record_identifier] ;;
    ret created_record
  else if py_truthy response_data then
    logging WARNING [Lit "ServiceNow record creation in table 'ritm' returned an unexpected response format. ";
                     Lit "Expected 'result' key with a dictionary. Response: ";
                     Val response_data] ;;
    ret VNone
  else
    logging ERROR [Lit "Failed to create ServiceNow record in table 'sc_req_item'. ";
                   Lit "The API request did not yield expected data (likely an API or connection error)."] ;;
    ret VNone.

Definition get_requested_item (self : t) (e : env)
  (number sys_id : pyval) (fields : option (list string)) : M pyval :=
  _find_record self e "sc_req_item" sys_id number fields.

Definition update_ticket (self : t) (e : env) (table_name : string)
  (sys_id : pyval) (payload : pyval) : M pyval :=
  emit (EvCall (CallUpdate table_name sys_id payload)) ;;
  if (table_name =? "")%string then
    logging ERROR [Lit "Table name must be provided for updating a ticket."] ;;
    raise (ValueError "Table name must be provided for updating a ticket.")
  else if negb (py_truthy sys_id) then
    logging ERROR [Lit "Sys ID must be provided for updating a ticket."] ;;
    raise (ValueError "Sys ID must be provided for updating a ticket.")
  else
    logging INFO [Lit "Attempting to update ticket in table '"; Lit table_name;
                  Lit "', sys_id: '"; Val sys_id; Lit "'."] ;;
    logging DEBUG [Lit "Payload: "; Val payload] ;;
    let endpoint_segment := [Lit "table/"; Lit table_name; Lit "/"; Val sys_id] in
    response_data <- _make_request self e "PUT" endpoint_segment None payload ;;
    has_result <- and_then (py_truthy response_data)
                    (lift (py_contains_str "result" response_data)) ;;
    if has_result then
      updated_record <- lift (py_getitem_str response_data "result") ;;
      updated_sys_id <- lift (py_get updated_record "sys_id" VNone) ;;
      logging INFO [Lit "Successfully updated ticket sys_id: "; Val updated_sys_id;
                    Lit " in '"; Lit table_name; Lit "'."] ;;
      ret updated_record
    else if py_truthy response_data then
      logging WARNING [Lit "Update for ticket sys_id: "; Val sys_id; Lit " in '";
                       Lit table_name;
                       Lit "' returned an unexpected response structure: ";
                       Val response_data] ;;
      ret response_data
    else
      logging ERROR [Lit "Failed to update ticket sys_id: "; Val sys_id; Lit " in '";
                     Lit table_name;
                     Lit "'. No valid response data from API call."] ;;
      ret VNone.

Fixpoint set_header (k v : string) (hs : list (string * string))
  : list (string * string) :=
  match hs with
  | [] => [(k, v)]
  | (k', v') :: rest =>
      if (k =? k')%string then (k, v) :: rest else (k', v') :: set_header k v rest
  end.

(** [open(file_path, "rb").read()] *)
Definition read_file (e : env) (file_path : string) : M string :=
  match fs e file_path with
  | RegularFile (Some content) => ret content
  | RegularFile None => raise (OSError "PermissionError")
  | SpecialFile (Some content) => ret content
  | SpecialFile None => raise (OSError "OSError")
  | Directory => raise (OSError "IsADirectoryError")
  | Absent => raise (FileNotFoundError file_path)
  end.

(** [str(v)] for an [int] or a [bool] *)
Definition str_of_index (v : pyval) : string :=
  match v with
  | VInt z => str_of_Z z
  | VBool true => "True"
  | VBool false => "False"
  | _ => ""
  end.

(** [add_attachment] on a [file_path] that is an [int] (a [bool] counts as
    1 or 0): [os.path.exists] takes it for a file descriptor.  Outside the
    range of a C [int] (32 bits) [os.stat] raises [OverflowError], which
    [os.path.exists] does not catch; a descriptor that is not open does not
    exist; for one that is open [os.path.basename] raises [TypeError]. *)
Definition add_attachment_descriptor (e : env) (file_path : pyval) (fd : Z)
  : M pyval :=
  if (fd <? -2147483648) || (2147483647 <? fd) then
    raise (OtherException "OverflowError")
  else if negb ((0 <=? fd) && fd_open e fd) then
    logging ERROR [Lit "File not found at path for attachment: "; Val file_path] ;;
    raise (FileNotFoundError (str_of_index file_path))
  else
    raise TypeError.

(** [add_attachment] with [file_name] at its default [None].  A
    [file_path] that is neither a [str] nor an [int] makes [os.path.exists]
    raise [TypeError]. *)
Definition add_attachment (self : t) (e : env) (table_name : string)
  (sys_id : pyval) (file_path : pyval) : M pyval :=
  emit (EvCall (CallAttach table_name sys_id file_path)) ;;
  if (table_name =? "")%string || negb (py_truthy sys_id) then
    logging ERROR [Lit "Table name and sys_id are required for adding an attachment."] ;;
    raise (ValueError "Table name and sys_id must be provided.")
  else
    match file_path with
    | VStr path =>
        if negb (os_path_exists e path) then
          logging ERROR [Lit "File not found at path for attachment: "; Lit path] ;;
          raise (FileNotFoundError path)
        else
          let attachment_name := os_path_basename path in
          logging INFO [Lit "Attempting to attach file '"; Lit attachment_name;
                        Lit "' from path '"; Lit path; Lit "' to record '"; Val sys_id;
                        Lit "' in table '"; Lit table_name; Lit "'."] ;;
          let attachment_api_url :=
            [Lit (url self); Lit api_path; Lit "/attachment/file"] in
          let params := [("table_name", [Lit table_name]);
                         ("table_sys_id", [Val sys_id]);
                         ("file_name", [Lit attachment_name])] in
          let content_type :=
            match guess_type e path with
            | Some ct => ct
            | None => "application/octet-stream"
            end in
          let request_headers :=
            set_header "Accept" "application/json"
              (set_header "Content-Type" content_type (session_headers self)) in
          response_data <-
            try_except
              (file_content <- read_file e path ;;
               _execute_http_request e "POST" attachment_api_url (Some params)
                 VNone (Some file_content) (Some request_headers))
              (fun x =>
                 if is_oserror x then
                   logging ERROR [Lit "IOError reading file for attachment "; Lit path;
                                  Lit ": "; Opaque "e"] ;;
                   ret VNone
                 else
                   logging ERROR [Lit "Unexpected error preparing or sending attachment for ";
                                  Lit path; Lit ": "; Opaque "e"] ;;
                   ret VNone) ;;
          if py_truthy response_data then
            match response_data with
            | VDict d =>
                match lookup "result" d with
                | Some attachment_meta =>
                    logging INFO [Lit "Successfully attached file. Attachment sys_id: ";
                                  Val (match attachment_meta with
                                       | VDict m => dict_get m "sys_id" VNone
                                       | _ => VStr "N/A"
                                       end)] ;;
                    ret attachment_meta
                | None =>
                    logging WARNING [Lit "File attachment successful, but response format was unexpected: ";
                                     Val response_data] ;;
                    ret response_data
                end
            | _ =>
                logging WARNING [Lit "File attachment successful, but response format was unexpected: ";
                                 Val response_data] ;;
                ret response_data
            end
          else
            logging ERROR [Lit "Failed to attach file '"; Lit attachment_name;
                           Lit "' to "; Val sys_id; Lit " in "; Lit table_name; Lit "."] ;;
            ret VNone
    | VInt fd => add_attachment_descriptor e file_path fd
    | VBool b => add_attachment_descriptor e file_path (if b then 1 else 0)
    | _ => raise TypeError
    end.

(** [str.rstrip("/")] *)
Fixpoint rstrip_slash (s : string) : string :=
  match s with
  | EmptyString => EmptyString
  | String c r =>
      match rstrip_slash r with
      | EmptyString => if Ascii.eqb c "/" then EmptyString else String c EmptyString
      | r' => String c r'
      end
  end.

(** [__init__].  [requests_headers] stands for the headers a new
    [requests.Session] starts with; [url] is whatever the configuration
    holds for [instance_url], the credentials are the strings read from the
    process environment.  [url.rstrip] raises [AttributeError] on a truthy
    value that is not a [str]. *)
Definition __init__ (requests_headers : list (string * string))
  (url : pyval) (username password : string) : M t :=
  if negb (py_truthy url) then
    logging ERROR [Lit "ServiceNow instance URL cannot be empty."] ;;
    raise (ValueError "ServiceNow instance URL cannot be empty.")
  else if (username =? "")%string || (password =? "")%string then
    logging ERROR [Lit "ServiceNow username and password cannot be empty."] ;;
    raise (ValueError "ServiceNow username and password cannot be empty.")
  else
    match url with
    | VStr u =>
        let self :=
          {| url := rstrip_slash u;
             username := username;
             session_headers :=
               set_header "Accept" "application/json"
                 (set_header "Content-Type" "application/json" requests_headers) |} in
        logging INFO [Lit "ServiceNowClient initialized for instance: ";
                      Lit (rstrip_slash u)] ;;
        ret self
    | _ => raise AttributeError
    end.

Definition get_catalog_task (self : t) (e : env)
  (number sys_id : pyval) (fields : option (list string)) : M pyval :=
  _find_record self e "sc_task" sys_id number fields.

Definition get_incident (self : t) (e : env)
  (number sys_id : pyval) (fields : option (list string)) : M pyval :=
  _find_record self e "incident" sys_id number fields.

Definition get_service_request (self : t) (e : env)
  (number sys_id : pyval) (fields : option (list string)) : M pyval :=
  _find_record self e "sc_request" sys_id number fields.

Definition create_incident (self : t) (e : env)
  (area assignment_group business_service category description organization
     service_group short_description subcategory impact urgency : pyval) : M pyval :=
  let endpoint_segment := [Lit "table/incident"] in
  let payload := VDict [
    ("caller_id", VStr (username self));
    ("contact_type", VStr "Interface");
    ("requested_for", VStr (username self));
    ("u_kot_organization", organization);
    ("u_area", area);
    ("u_service_group", service_group);
    ("business_service", business_service);
    ("category", category);
    ("subcategory", subcategory);
    ("assignment_group", assignment_group);
    ("impact", impact);
    ("urgency", urgency);
    ("short_description", short_description);
    ("description", description)] in
  logging INFO [Lit "Attempting to create incident"] ;;
  logging DEBUG [Lit "Payload: "; Val payload] ;;
  response_data <- _make_request self e "POST" endpoint_segment None payload ;;
  is_record <-
    and_then (py_truthy response_data)
      (has_result <- lift (py_contains_str "result" response_data) ;;
       and_then has_result
         (r <- lift (py_getitem_str response_data "result") ;;
          ret (isinstance_dict r))) ;;
  if is_record then
    created_record <- lift (py_getitem_str response_data "result") ;;
    number <- lift (py_get created_record "number" (VStr "N/A")) ;;
    record_identifier <- lift (py_get created_record "sys_id" number) ;;
    logging INFO [Lit "Successfully created incident.";
                  Lit "Identifier (sys_id/number): "; Val record_identifier] ;;
    ret created_record
  else if py_truthy response_data then
    logging WARNING [Lit "ServiceNow record creation in table 'incident' returned an unexpected response format. ";
                     Lit "Expected 'result' key with a dictionary. Response: ";
                     Val response_data] ;;
    ret VNone
  else
    logging ERROR [Lit "Failed to create ServiceNow record in table 'incident'. ";
                   Lit "The API request did not yield expected data (likely an API or connection error)."] ;;
    ret VNone.

(** The fields [get_ticket_journal_entries] asks for. *)
Definition journal_fields : list string :=
  ["sys_id"; "element_id"; "element"; "value"; "sys_created_on"; "sys_created_by";
   "name"].

(** ["^".join(query_parts)] *)
Definition journal_query (sys_id : pyval) (order_by_desc : bool) : fstring :=
  [Lit "element_id="; Val sys_id; Lit "^"; Lit "elementINcomments,work_notes"; Lit "^";
   Lit (if order_by_desc then "ORDERBYDESCsys_created_on" else "ORDERBYsys_created_on")].

Definition get_ticket_journal_entries (self : t) (e : env) (sys_id : pyval)
  (order_by_desc : bool) (limit : option Z) : M pyval :=
  if negb (py_truthy sys_id) then
    raise (ValueError "Ticket sys_id must be provided.")
  else
    let final_query := journal_query sys_id order_by_desc in
    logging DEBUG ([Lit "Fetching journal entries for ticket sys_id '"; Val sys_id;
                    Lit "' using query: '"] ++ final_query ++ [Lit "'"]) ;;
    journal_entries_result <-
      _get_record self e "sys_journal_field" VNone (Some final_query)
        (Some journal_fields) limit ;;
    if is_none journal_entries_result then
      logging ERROR [Lit "Failed to retrieve journal entries for ticket '"; Val sys_id;
                     Lit "'."] ;;
      ret VNone
    else if negb (isinstance_list journal_entries_result) then
      logging WARNING [Lit "Expected a list of journal entries from _get_record, but received type ";
                       TypeOf journal_entries_result; Lit ". Data: ";
                       Val journal_entries_result] ;;
      ret (VList [])
    else
      (if negb (py_truthy journal_entries_result) then
         logging INFO [Lit "No journal entries found for ticket '"; Val sys_id;
                       Lit "' matching the criteria."]
       else ret tt) ;;
      ret journal_entries_result.

End ServiceNowClient.

(** * src/servicenow.py: ServiceNowIntegrationClient *)
Module ServiceNowIntegrationClient.

(** A [ServiceNowClient] (the parent class) with the path of the
    integration endpoint. *)
Record t : Type := {
  base : ServiceNowClient.t;
  integration_base_path : string
}.

Definition _build_integration_url (self : t) : fstring :=
  [Lit (ServiceNowClient.url (base self)); Lit "/"; Lit (integration_base_path self)].

Definition _make_integration_request (self : t) (e : env) (method : string)
  (payload : pyval) : M pyval :=
  let integration_url := _build_integration_url self in
  ServiceNowClient._execute_http_request e method integration_url None payload
    None None.

Definition create_requested_item (self : t) (e : env)
  (assignment_group short_description description : pyval) : M pyval :=
  emit (EvCall (CallCreateIntegration assignment_group short_description description)) ;;
  let payload := VDict [("requested_for", assignment_group);
                        ("summary", short_description);
                        ("description", description)] in
  attempt <-
    try_except
      (response <- _make_integration_request self e "POST" payload ;;
       ret (Some response))
      (fun x =>
         logging ERROR [Lit "Error creating RITM via integration helper: "; Opaque "e"] ;;
         ret None) ;;
  match attempt with
  | None => ret VNone
  | Some response =>
      has_result <- and_then (py_truthy response)
                      (lift (py_contains_str "result" response)) ;;
      if has_result then
        result_obj <- lift (py_getitem_str response "result") ;;
        created_ritm <- lift (py_getitem_str result_obj "requestItemNumber") ;;
        logging INFO [Lit "Successfully created RITM via integration helper. RITM number: ";
                      Val created_ritm] ;;
        result <- ServiceNowClient.get_requested_item (base self) e created_ritm VNone None ;;
        ret result
      else
        ret VNone
  end.

(** [__init__]: the parent's [__init__], then the check of
    [integration_path].  The value [lstrip] produces is overwritten by the
    next assignment, which strips the original [integration_path] on the
    right only. *)
Definition __init__ (requests_headers : list (string * string))
  (url : pyval) (username password : string) (integration_path : string) : M t :=
  parent <- ServiceNowClient.__init__ requests_headers url username password ;;
  if (integration_path =? "")%string then
    raise (ValueError "Integration base path cannot be empty for ServiceNowIntegrationClient.")
  else
    let integration_base_path := ServiceNowClient.lstrip_slash integration_path in
    let integration_base_path := ServiceNowClient.rstrip_slash integration_path in
    ret {| base := parent; integration_base_path := integration_base_path |}.

End ServiceNowIntegrationClient.

(** * datetime

    The three components of [today] that [is_due] reads.  [weekday]
    follows CPython's [datetime]: the proleptic Gregorian ordinal of the
    date, shifted so that Monday is 0. *)
Module datetime.

Record t : Type := { year : Z; month : Z; day : Z }.

Definition _is_leap (y : Z) : bool :=
  (y mod 4 =? 0) && (negb (y mod 100 =? 0) || (y mod 400 =? 0)).

Definition _days_before_year (y : Z) : Z :=
  let y := y - 1 in
  y * 365 + y / 4 - y / 100 + y / 400.

Definition _DAYS_BEFORE_MONTH : list Z :=
  [-1; 0; 31; 59; 90; 120; 151; 181; 212; 243; 273; 304; 334].

Definition _days_before_month (y m : Z) : Z :=
  nth (Z.to_nat m) _DAYS_BEFORE_MONTH 0
  + (if (2 <? m) && _is_leap y then 1 else 0).

Definition toordinal (d : t) : Z :=
  _days_before_year (year d) + _days_before_month (year d) (month d) + day d.

Definition weekday (d : t) : Z := (toordinal d + 6) mod 7.

End datetime.

(** What opening and parsing the template file gives: the exceptions
    [load] distinguishes, or the parsed document (a dict). *)
Inductive toml_outcome : Type :=
| TomlFileNotFound
| TomlDecodeError (detail : string)
| TomlOtherError (detail : string)
| TomlDocument (doc : list (string * pyval)).

(** * src/template.py: TicketTemplate *)
Module TicketTemplate.

Record t : Type := {
  template_path : string;
  assignment_group : pyval;
  short_description : pyval;
  description : pyval;
  integration_helper : pyval;
  schedule : pyval;
  attachments : pyval;
  validation_errors : list fstring
}.

(** [__init__] *)
Definition new (template_path : string) : t :=
  {| template_path := template_path;
     assignment_group := VNone;
     short_description := VNone;
     description := VNone;
     integration_helper := VNone;
     schedule := VDict [];
     attachments := VList [];
     validation_errors := [] |}.

Definition set_attachments (self : t) (v : pyval) : t :=
  {| template_path := template_path self;
     assignment_group := assignment_group self;
     short_description := short_description self;
     description := description self;
     integration_helper := integration_helper self;
     schedule := schedule self;
     attachments := v;
     validation_errors := validation_errors self |}.

(** [self.validation_errors.append(msg)] and [.extend(msgs)] *)
Definition extend_errors (self : t) (msgs : list fstring) : t :=
  {| template_path := template_path self;
     assignment_group := assignment_group self;
     short_description := short_description self;
     description := description self;
     integration_helper := integration_helper self;
     schedule := schedule self;
     attachments := attachments self;
     validation_errors := validation_errors self ++ msgs |}.

(** The five assignments of [load] that read [ticket_data]. *)
Definition set_ticket_fields (self : t) (ticket_data : list (string * pyval)) : t :=
  {| template_path := template_path self;
     assignment_group := dict_get ticket_data "assignment_group" VNone;
     short_description := dict_get ticket_data "short_description" VNone;
     description := dict_get ticket_data "description" VNone;
     integration_helper := dict_get ticket_data "integration_helper" VNone;
     schedule := dict_get ticket_data "schedule" (VDict []);
     attachments := attachments self;
     validation_errors := validation_errors self |}.

(** The handler [except Exception as e] of [load]. *)
Definition load_unexpected (self : t) : M (bool * t) :=
  logging ERROR [Lit "Unexpected error while loading template ";
                 Lit (template_path self); Lit ": "; Opaque "e"] ;;
  ret (false, extend_errors self [[Lit "Unexpected loading error: "; Opaque "e"]]).

(** [load], given what [open] and [tomllib.load] produce for
    [template_path].  It returns the boolean and the template as the
    call leaves it. *)
Definition load (src : toml_outcome) (self : t) : M (bool * t) :=
  match src with
  | TomlDocument template =>
      match lookup "ticket" template with
      | None =>
          let msg := [Lit "'ticket' section not found in template ";
                      Lit (template_path self); Lit "."] in
          logging ERROR (Lit "Error: " :: msg) ;;
          ret (false, extend_errors self [msg])
      | Some (VDict ticket_data) =>
          let self := set_ticket_fields self ticket_data in
          match dict_get ticket_data "attachments" (VDict []) with
          | VDict attachments_data =>
              let self := set_attachments self
                            (dict_get attachments_data "files" (VList [])) in
              logging DEBUG [Opaque "self.__dict__"] ;;
              ret (true, self)
          | _ => (* attachments_data.get raises AttributeError *)
              load_unexpected self
          end
      | Some _ => (* ticket_data.get raises AttributeError *)
          load_unexpected self
      end
  | TomlFileNotFound =>
      logging ERROR [Lit "Error: Template file "; Lit (template_path self);
                     Lit " not found."] ;;
      ret (false, extend_errors self [[Lit "File not found: "; Lit (template_path self)]])
  | TomlDecodeError detail =>
      logging ERROR [Lit "Error decoding TOML from "; Lit (template_path self);
                     Lit ": "; Lit detail] ;;
      ret (false, extend_errors self [[Lit "TOML decode error: "; Lit detail]])
  | TomlOtherError detail =>
      logging ERROR [Lit "Unexpected error while loading template ";
                     Lit (template_path self); Lit ": "; Lit detail] ;;
      ret (false, extend_errors self [[Lit "Unexpected loading error: "; Lit detail]])
  end.

(** The loop over [required_fields_map.items()]. *)
Fixpoint validate_fields (required_fields_map : list (string * pyval))
  (current_errors : list fstring) : list fstring :=
  match required_fields_map with
  | [] => current_errors
  | (field_name, field_value) :: rest =>
      let current_errors :=
        if is_none field_value then
          current_errors ++ [[Lit "'"; Lit field_name; Lit "' is missing or null."]]
        else if negb (isinstance_str field_value) then
          current_errors ++ [[Lit "'"; Lit field_name;
                              Lit "' must be a string (found: "; TypeOf field_value;
                              Lit ")."]]
        else current_errors in
      validate_fields rest current_errors
  end.

Definition validate_integration_helper (integration_helper : pyval)
  (current_errors : list fstring) : list fstring :=
  if negb (is_none integration_helper) && negb (isinstance_bool integration_helper) then
    current_errors ++
      [[Lit "'integration_helper' must be a boolean when provided. Found type: ";
        TypeOf integration_helper; Lit " for value: '"; Val integration_helper;
        Lit "'."]]
  else current_errors.

Definition allowed_frequencies : list string :=
  ["daily"; "weekly"; "monthly"; "quarterly"].

(** The section "Validate 'schedule'"; [self.schedule.get] raises
    [AttributeError] when [schedule] is truthy and not a dict. *)
Definition validate_schedule (schedule : pyval)
  (current_errors : list fstring) : result (list fstring) :=
  if negb (py_truthy schedule) then
    Returned (current_errors ++ [[Lit "'schedule' dictionary is empty or was missing."]])
  else
    match schedule with
    | VDict sched =>
        let frequency := dict_get sched "frequency" VNone in
        if is_none frequency then
          Returned (current_errors ++ [[Lit "'frequency' is missing in [ticket.schedule]."]])
        else
          let current_errors :=
            if negb (existsb (fun a => py_eq_str a frequency) allowed_frequencies) then
              current_errors ++
                [[Lit "Invalid 'frequency' value '"; Val frequency;
                  Lit "'. Allowed: "; Val (VList (map VStr allowed_frequencies))]]
            else current_errors in
          if py_eq_str "weekly" frequency
             && is_none (dict_get sched "day_of_week" VNone) then
            Returned (current_errors ++
                      [[Lit "'day_of_week' (integer) is missing for weekly frequency."]])
          else if py_eq_str "monthly" frequency
                  && is_none (dict_get sched "day_of_month" VNone) then
            Returned (current_errors ++
                      [[Lit "'day_of_month' (integer) is missing for monthly frequency."]])
          else if py_eq_str "quarterly" frequency
                  && (is_none (dict_get sched "months" VNone)
                      || is_none (dict_get sched "day_of_month" VNone)) then
            Returned (current_errors ++
                      [[Lit "'months' (list of int) or 'day_of_month' (int) is missing for quarterly frequency."]])
          else Returned current_errors
    | _ => Raised AttributeError
    end.

(** One iteration of the loop over [enumerate(self.attachments)]. *)
Definition validate_attachment (e : env) (self : t) (index : nat)
  (file_item : pyval) (current_errors : list fstring)
  (processed_attachments : list pyval) : M (list fstring * list pyval) :=
  let idx := Val (VInt (Z.of_nat index)) in
  match file_item with
  | VDict item =>
      let file_path := dict_get item "path" VNone in
      let is_file_required := dict_get item "required" VNone in
      let valid_file_path_str := isinstance_str file_path && py_truthy file_path in
      let valid_is_file_required_bool := isinstance_bool is_file_required in
      let current_errors :=
        if is_none file_path then
          current_errors ++
            [[Lit "'path' is missing or null in attachment item at index "; idx; Lit "."]]
        else if negb valid_file_path_str then
          current_errors ++
            [[Lit "'path' in attachment item at index "; idx;
              Lit " must be a non-empty string."]]
        else current_errors in
      let current_errors :=
        if is_none is_file_required then
          current_errors ++
            [[Lit "'required' is missing or null in attachment item at index "; idx; Lit "."]]
        else if negb valid_is_file_required_bool then
          current_errors ++
            [[Lit "'required' in attachment item at index "; idx;
              Lit " must be a boolean (true/false)."]]
        else current_errors in
      if negb (valid_file_path_str && valid_is_file_required_bool) then
        ret (current_errors, processed_attachments)
      else
        match file_path with
        | VStr path =>
            let file_exists := os_path_isfile e path in
            if is_True is_file_required then
              if negb file_exists then
                ret (current_errors ++
                       [[Lit "Required attachment file '"; Lit path;
                         Lit "' (item at index "; idx; Lit ") does not exist."]],
                     processed_attachments)
              else
                ret (current_errors, processed_attachments ++ [file_item])
            else
              if negb file_exists then
                logging WARNING [Lit "Optional attachment file '"; Lit path;
                                 Lit "' (item at index "; idx;
                                 Lit ") does not exist for template '";
                                 Lit (template_path self);
                                 Lit "'. It will be skipped."] ;;
                ret (current_errors, processed_attachments)
              else
                ret (current_errors, processed_attachments ++ [file_item])
        | _ => ret (current_errors, processed_attachments)
        end
  | _ =>
      ret (current_errors ++
             [[Lit "Attachment item at index "; idx; Lit " is not a dictionary."]],
           processed_attachments)
  end.

Fixpoint validate_attachments (e : env) (self : t) (index : nat)
  (items : list pyval) (current_errors : list fstring)
  (processed_attachments : list pyval) : M (list fstring * list pyval) :=
  match items with
  | [] => ret (current_errors, processed_attachments)
  | file_item :: rest =>
      '(current_errors, processed_attachments) <-
        validate_attachment e self index file_item current_errors
          processed_attachments ;;
      validate_attachments e self (S index) rest current_errors
        processed_attachments
  end.

Fixpoint log_errors (self : t) (errs : list fstring) : M unit :=
  match errs with
  | [] => ret tt
  | err :: rest =>
      logging ERROR ([Lit "Validation error in "; Lit (template_path self); Lit ": "]
                     ++ err) ;;
      log_errors self rest
  end.

(** [validate_structure]: the boolean it returns and the template as the
    call leaves it.  An exception leaves the template as it was. *)
Definition validate_structure (e : env) (self : t) : M (bool * t) :=
  let current_errors : list fstring := [] in
  let required_fields_map :=
    [("short_description", short_description self);
     ("description", description self);
     ("assignment_group", assignment_group self)] in
  let current_errors := validate_fields required_fields_map current_errors in
  let current_errors :=
    validate_integration_helper (integration_helper self) current_errors in
  current_errors <- lift (validate_schedule (schedule self) current_errors) ;;
  items <- lift (py_iter (attachments self)) ;;
  '(current_errors, processed_attachments) <-
    validate_attachments e self 0 items current_errors [] ;;
  let self := set_attachments self (VList processed_attachments) in
  match current_errors with
  | _ :: _ =>
      let self := extend_errors self current_errors in
      log_errors self current_errors ;;
      ret (false, self)
  | [] =>
      logging DEBUG [Lit "Template structure validation successful for ";
                     Lit (template_path self); Lit "."] ;;
      ret (true, self)
  end.

(** [is_due]; [self.schedule.get] raises [AttributeError] when
    [schedule] is not a dict. *)
Definition is_due (self : t) (today : datetime.t) : result bool :=
  match schedule self with
  | VDict sched =>
      let frequency := dict_get sched "frequency" VNone in
      if py_eq_str "daily" frequency then
        Returned (datetime.weekday today <? 5)
      else if py_eq_str "weekly" frequency then
        let day_of_week := dict_get sched "day_of_week" VNone in
        Returned (isinstance_int day_of_week
                  && py_eq_int (datetime.weekday today) day_of_week)
      else if py_eq_str "monthly" frequency then
        let day_of_month := dict_get sched "day_of_month" VNone in
        Returned (isinstance_int day_of_month
                  && py_eq_int (datetime.day today) day_of_month)
      else if py_eq_str "quarterly" frequency then
        let months := dict_get sched "months" VNone in
        let day_of_month := dict_get sched "day_of_month" VNone in
        Returned (isinstance_list months
                  && isinstance_int day_of_month
                  && match months with
                     | VList ms => existsb (py_eq_int (datetime.month today)) ms
                     | _ => false
                     end
                  && py_eq_int (datetime.day today) day_of_month)
      else Returned false
  | _ => Raised AttributeError
  end.

Definition _create_via_integration_helper (self : t) (e : env)
  (sn_integration_client : ServiceNowIntegrationClient.t) : M pyval :=
  logging INFO [Lit "Attempting RITM creation via integration helper for template '";
                Lit (template_path self); Lit "'."] ;;
  ritm_data <- ServiceNowIntegrationClient.create_requested_item
                 sn_integration_client e (assignment_group self)
                 (VStr "Scheduled ticket") (VStr "Scheduled ticket") ;;
  if negb (py_truthy ritm_data) then
    logging ERROR [Lit "RITM creation via integration helper FAILED for template '";
                   Lit (template_path self); Lit "'."] ;;
    ret VNone
  else
    sys_id <- lift (py_get ritm_data "sys_id" VNone) ;;
    ritm_number <- lift (py_get ritm_data "number" (VStr "N/A")) ;;
    logging INFO [Lit "Base RITM "; Val ritm_number; Lit " (SysID: "; Val sys_id;
                  Lit ") created via integration helper for '";
                  Lit (template_path self); Lit "'."] ;;
    ret ritm_data.

Definition _create_via_api (self : t) (e : env)
  (sn_api_client : ServiceNowClient.t) : M pyval :=
  logging INFO [Lit "Attempting RITM creation via primary API for template '";
                Lit (template_path self); Lit "'."] ;;
  ritm_data <- ServiceNowClient.create_requested_item sn_api_client e
                 (assignment_group self)
                 (VStr "Scheduled ticket") (VStr "Scheduled ticket") ;;
  if negb (py_truthy ritm_data) then
    logging ERROR [Lit "RITM creation via primary API FAILED for template '";
                   Lit (template_path self); Lit "'."] ;;
    ret VNone
  else
    sys_id <- lift (py_get ritm_data "sys_id" VNone) ;;
    ritm_number <- lift (py_get ritm_data "number" (VStr "N/A")) ;;
    logging INFO [Lit "Base RITM "; Val ritm_number; Lit " (SysID: "; Val sys_id;
                  Lit ") created via primary API for '";
                  Lit (template_path self); Lit "'."] ;;
    ret ritm_data.

(** The loop [for attachment_info in self.attachments] of
    [_finalize_details]; the value [add_attachment] returns is dropped. *)
Fixpoint add_attachments (e : env) (sn_api_client : ServiceNowClient.t)
  (ticket_sys_id : pyval) (items : list pyval) : M unit :=
  match items with
  | [] => ret tt
  | attachment_info :: rest =>
      file_path <- lift (py_get attachment_info "path" VNone) ;;
      ServiceNowClient.add_attachment sn_api_client e "sc_req_item"
        ticket_sys_id file_path ;;
      add_attachments e sn_api_client ticket_sys_id rest
  end.

(** [_finalize_details] has no [return] statement: it yields [None]. *)
Definition _finalize_details (self : t) (e : env)
  (sn_api_client : ServiceNowClient.t) (ticket_sys_id : pyval) : M pyval :=
  let payload := VDict [("short_description", short_description self);
                        ("description", description self)] in
  ServiceNowClient.update_ticket sn_api_client e "sc_req_item" ticket_sys_id
    payload ;;
  (if py_truthy (attachments self) then
     n <- lift (py_len (attachments self)) ;;
     logging INFO [Lit "Adding "; Val (VInt n); Lit " attachment(s)."] ;;
     items <- lift (py_iter (attachments self)) ;;
     add_attachments e sn_api_client ticket_sys_id items
   else ret tt) ;;
  ret VNone.

(** Lines 295 to 299 of [create_ticket], once [ticket_base] is bound. *)
Definition create_ticket_finish (self : t) (e : env)
  (sn_api_client : ServiceNowClient.t) (ticket_base : pyval) : M pyval :=
  if negb (py_truthy ticket_base) then
    ret (VBool false)
  else
    ticket_sys_id <- lift (py_get ticket_base "sys_id" VNone) ;;
    _finalize_details self e sn_api_client ticket_sys_id.

Definition create_ticket (self : t) (e : env)
  (sn_api_client : ServiceNowClient.t)
  (sn_integration_client : option ServiceNowIntegrationClient.t) : M pyval :=
  if py_truthy (integration_helper self) then
    match sn_integration_client with
    | Some client =>
        ticket_base <- _create_via_integration_helper self e client ;;
        create_ticket_finish self e sn_api_client ticket_base
    | None =>
        logging ERROR [Lit "Template '"; Lit (template_path self);
                       Lit "' requires an integration client (integration_helper is true), but no integration client is configured/available. Skipping ticket creation."] ;;
        ret (VBool false)
    end
  else
    ticket_base <- _create_via_api self e sn_api_client ;;
    create_ticket_finish self e sn_api_client ticket_base.

End TicketTemplate.

(** * main.py

    [load_app_config], and the two parts of [main] that decide what is
    done: the credentials read from the process environment (lines 105 to
    119) and the loop over the template files (lines 158 to 169).  What
    [print] writes is returned as a list of lines; [sys.exit] is the
    outcome [Exit]. *)
Module Main.

Inductive exit_or (A : Type) : Type :=
| Exit (code : Z)
| Continue (a : A).
Arguments Exit {A} code.
Arguments Continue {A} a.

Definition has_key (k : string) (d : list (string * pyval)) : bool :=
  match lookup k d with Some _ => true | None => false end.

(** [load_app_config], given what [open] and [tomllib.load] produce for
    [config_path].  [sys.exit] raises [SystemExit], which the handler
    [except Exception] does not catch. *)
Definition load_app_config (config_path : string) (src : toml_outcome)
  : list fstring * exit_or (list (string * pyval)) :=
  match src with
  | TomlDocument app_config =>
      let printed :=
        if negb (has_key "log" app_config) then
          [[Lit "WARNING: Log configuration ('log' section) not found in ";
            Lit config_path; Lit " - Using default logging settings."]]
        else [] in
      if negb (has_key "templates" app_config) then
        (printed ++
           [[Lit "ERROR: Templates configuration ('templates' section) not found in ";
             Lit config_path; Lit " - Exiting."]],
         Exit 1)
      else if negb (has_key "servicenow" app_config) then
        (printed ++
           [[Lit "ERROR: ServiceNow configuration ('servicenow' section) not found in ";
             Lit config_path; Lit " - Exiting."]],
         Exit 1)
      else (printed, Continue app_config)
  | TomlFileNotFound =>
      ([[Lit "ERROR: Configuration file "; Lit config_path; Lit " not found - Exiting."]],
       Exit 1)
  | TomlDecodeError detail =>
      ([[Lit "ERROR: Error decoding TOML from "; Lit config_path; Lit ": "; Lit detail;
         Lit " - Exiting."]],
       Exit 1)
  | TomlOtherError detail =>
      ([[Lit "ERROR: An unexpected error occurred while loading configuration from ";
         Lit config_path; Lit ": "; Lit detail; Lit " - Exiting."]],
       Exit 1)
  end.

(** [not os.environ.get(name)]: the variable is unset or empty. *)
Definition unset (v : option string) : bool :=
  match v with
  | Some s => (s =? "")%string
  | None => true
  end.

Definition value_of (v : option string) : string :=
  match v with Some s => s | None => "" end.

(** The credentials [main] works with. *)
Record credentials : Type := {
  sn_api_user : string;
  sn_api_pass : string;
  sn_integration_user : string;
  sn_integration_pass : string
}.

(** Lines 105 to 119 of [main]. *)
Definition main_credentials (environ : string -> option string)
  : list fstring * exit_or credentials :=
  let sn_api_user := environ "SN_API_USER" in
  let sn_api_pass := environ "SN_API_PASSWORD" in
  if unset sn_api_user || unset sn_api_pass then
    ([[Lit "ERROR: SN_API_USER or SN_API_PASSWORD environment variables not set. Exiting."]],
     Exit 1)
  else
    let sn_integration_user := environ "SN_INTEGRATION_USER" in
    let sn_integration_pass := environ "SN_INTEGRATION_PASSWORD" in
    if unset sn_integration_user || unset sn_integration_pass then
      ([[Lit "WARNING: SN_INTEGRATION_USER or SN_INTEGRATION_PASSWORD not set. The ServiceNow integration will use the primary API credentials (SN_API_USER/SN_API_PASSWORD) as a fallback."]],
       Continue {| sn_api_user := value_of sn_api_user;
                   sn_api_pass := value_of sn_api_pass;
                   sn_integration_user := value_of sn_api_user;
                   sn_integration_pass := value_of sn_api_pass |})
    else
      ([],
       Continue {| sn_api_user := value_of sn_api_user;
                   sn_api_pass := value_of sn_api_pass;
                   sn_integration_user := value_of sn_integration_user;
                   sn_integration_pass := value_of sn_integration_pass |}).

(** The body of the loop of [main] for one template file; [src] is what
    opening and parsing the file gives.  The value [create_ticket] returns
    is dropped, and nothing catches an exception. *)
Definition process_template (src : toml_outcome) (e : env) (today : datetime.t)
  (sn_client : ServiceNowClient.t)
  (sn_integration_client : option ServiceNowIntegrationClient.t)
  (file : string) : M unit :=
  logging DEBUG [Lit "Processing template: "; Lit file] ;;
  let template := TicketTemplate.new file in
  '(loaded, template) <- TicketTemplate.load src template ;;
  if negb loaded then
    ret tt
  else
    '(valid, template) <- TicketTemplate.validate_structure e template ;;
    if valid then
      due <- lift (TicketTemplate.is_due template today) ;;
      if due then
        logging INFO [Lit "Creating ticket based on template "; Lit file; Lit "."] ;;
        TicketTemplate.create_ticket template e sn_client sn_integration_client ;;
        ret tt
      else
        logging DEBUG [Lit "Schedule conditions not met for template. No ticket created."]
    else
      ret tt.

(** Lines 158 to 169 of [main]: the loop over the template files, in the
    order [glob] lists them; [files] gives the content of each. *)
Fixpoint process_templates (files : string -> toml_outcome) (e : env)
  (today : datetime.t) (sn_client : ServiceNowClient.t)
  (sn_integration_client : option ServiceNowIntegrationClient.t)
  (templates : list string) : M unit :=
  match templates with
  | [] => ret tt
  | file :: rest =>
      process_template (files file) e today sn_client sn_integration_client file ;;
      process_templates files e today sn_client sn_integration_client rest
  end.

End Main.

(** * Observing runs *)

(** The client method calls among some events, in order. *)
Fixpoint client_calls (evs : list event) : list client_call :=
  match evs with
  | [] => []
  | EvCall c :: rest => c :: client_calls rest
  | _ :: rest => client_calls rest
  end.

(** The HTTP requests among some events, in order. *)
Fixpoint http_requests (evs : list event) : list request :=
  match evs with
  | [] => []
  | EvHttp r :: rest => r :: http_requests rest
  | _ :: rest => http_requests rest
  end.

Definition is_call (ev : event) : bool :=
  match ev with EvCall _ => true | _ => false end.

Definition not_call (ev : event) : bool := negb (is_call ev).

(** The two values [create_ticket] can return. *)
Definition False_or_None (v : pyval) : Prop := v = VBool false \/ v = VNone.

(** [emits P m]: every event [m] emits, from any history, satisfies [P]. *)
Definition emits {A} (P : event -> bool) (m : M A) : Prop :=
  forall h, forallb P (snd (m h)) = true.

(** [yields Q m]: every value [m] returns, from any history, satisfies [Q]. *)
Definition yields {A} (Q : A -> Prop) (m : M A) : Prop :=
  forall h a, fst (m h) = Returned a -> Q a.

(** [total m]: [m] returns, from any history; it never raises. *)
Definition total {A} (m : M A) : Prop :=
  forall h, exists a, fst (m h) = Returned a.

(** A tuesday and a saturday used in the examples. *)
Definition tuesday : datetime.t :=
  {| datetime.year := 2026; datetime.month := 11; datetime.day := 3 |}.
Definition saturday : datetime.t :=
  {| datetime.year := 2026; datetime.month := 11; datetime.day := 7 |}.

(** The creation path that [create_ticket] chooses in phase 1: the
    integration helper when [integration_helper] is truthy (none if no
    integration client was passed), the standard API otherwise. *)
Definition phase1 (self : TicketTemplate.t) (e : env)
  (sn_api_client : ServiceNowClient.t)
  (sn_integration_client : option ServiceNowIntegrationClient.t)
  : option (M pyval) :=
  if py_truthy (TicketTemplate.integration_helper self) then
    option_map (TicketTemplate._create_via_integration_helper self e)
      sn_integration_client
  else Some (TicketTemplate._create_via_api self e sn_api_client).

(** The client call of that path. *)
Definition phase1_call (self : TicketTemplate.t) : client_call :=
  if py_truthy (TicketTemplate.integration_helper self) then
    CallCreateIntegration (TicketTemplate.assignment_group self)
      (VStr "Scheduled ticket") (VStr "Scheduled ticket")
  else
    CallCreateApi (TicketTemplate.assignment_group self)
      (VStr "Scheduled ticket") (VStr "Scheduled ticket").

(** The [payload] of phase 2. *)
Definition details_payload (self : TicketTemplate.t) : pyval :=
  VDict [("short_description", TicketTemplate.short_description self);
         ("description", TicketTemplate.description self)].

(** ** The rule groups of validate_structure, each run on its own *)

(** The violations of the three required fields: the check of each field
    run on its own, one after the other. *)
Definition field_errors (self : TicketTemplate.t) : list fstring :=
  flat_map (fun field => TicketTemplate.validate_fields [field] [])
    [("short_description", TicketTemplate.short_description self);
     ("description", TicketTemplate.description self);
     ("assignment_group", TicketTemplate.assignment_group self)].

(** The violation of [integration_helper], if any. *)
Definition helper_errors (self : TicketTemplate.t) : list fstring :=
  TicketTemplate.validate_integration_helper (TicketTemplate.integration_helper self) [].

(** What one iteration of the attachment loop does when it starts from
    empty lists: the errors it adds, the entries it retains, the events it
    emits. *)
Definition attachment_run (e : env) (self : TicketTemplate.t) (index : nat)
  (file_item : pyval) : (list fstring * list pyval) * list event :=
  match TicketTemplate.validate_attachment e self index file_item [] [] [] with
  | (Returned acc, evs) => (acc, evs)
  | (Raised _, evs) => (([], []), evs)
  end.

Definition attachment_errors (e : env) (self : TicketTemplate.t) (index : nat)
  (file_item : pyval) : list fstring :=
  fst (fst (attachment_run e self index file_item)).

Definition attachment_events (e : env) (self : TicketTemplate.t) (index : nat)
  (file_item : pyval) : list event :=
  snd (attachment_run e self index file_item).

(** The violations of the attachment entries, entry by entry, the first
    entry having the given index. *)
Fixpoint attachments_errors (e : env) (self : TicketTemplate.t) (index : nat)
  (items : list pyval) : list fstring :=
  match items with
  | [] => []
  | file_item :: rest =>
      attachment_errors e self index file_item
      ++ attachments_errors e self (S index) rest
  end.

Fixpoint attachments_events (e : env) (self : TicketTemplate.t) (index : nat)
  (items : list pyval) : list event :=
  match items with
  | [] => []
  | file_item :: rest =>
      attachment_events e self index file_item
      ++ attachments_events e self (S index) rest
  end.

(** An attachment entry is structurally valid: a dict whose [path] is a
    non-empty [str] and whose [required] is a [bool]. *)
Definition structurally_valid (file_item : pyval) : bool :=
  match file_item with
  | VDict item =>
      match dict_get item "path" VNone, dict_get item "required" VNone with
      | VStr path, VBool _ => negb (path =? "")%string
      | _, _ => false
      end
  | _ => false
  end.

(** The entry is structurally valid and its file exists. *)
Definition retained (e : env) (file_item : pyval) : bool :=
  match file_item with
  | VDict item =>
      match dict_get item "path" VNone, dict_get item "required" VNone with
      | VStr path, VBool _ => negb (path =? "")%string && os_path_isfile e path
      | _, _ => false
      end
  | _ => false
  end.

(** The error recorded for a required file that does not exist. *)
Definition required_missing_error (path : string) (index : nat) : fstring :=
  [Lit "Required attachment file '"; Lit path; Lit "' (item at index ";
   Val (VInt (Z.of_nat index)); Lit ") does not exist."].

(** The warning logged for an optional file that does not exist. *)
Definition optional_missing_warning (self : TicketTemplate.t) (path : string)
  (index : nat) : event :=
  EvLog WARNING
    [Lit "Optional attachment file '"; Lit path; Lit "' (item at index ";
     Val (VInt (Z.of_nat index)); Lit ") does not exist for template '";
     Lit (TicketTemplate.template_path self); Lit "'. It will be skipped."].

Definition is_empty {A} (l : list A) : bool :=
  match l with [] => true | _ :: _ => false end.

(** The record [logging.error] emits for a validation error. *)
Definition validation_error_record (self : TicketTemplate.t) (err : fstring) : event :=
  EvLog ERROR ([Lit "Validation error in "; Lit (TicketTemplate.template_path self);
                Lit ": "] ++ err).

(** The entry is structurally valid, required, and its file is missing. *)
Definition required_and_missing (e : env) (file_item : pyval) : bool :=
  match file_item with
  | VDict item =>
      match dict_get item "path" VNone, dict_get item "required" VNone with
      | VStr path, VBool required =>
          negb (path =? "")%string && required && negb (os_path_isfile e path)
      | _, _ => false
      end
  | _ => false
  end.

(** ** Sequences of operations on one template *)

(** The four operations of a [TicketTemplate], with what each receives from
    outside. *)
Inductive operation : Type :=
| OpLoad (src : toml_outcome)
| OpValidate (e : env)
| OpIsDue (today : datetime.t)
| OpCreate (e : env) (sn_api_client : ServiceNowClient.t)
    (sn_integration_client : option ServiceNowIntegrationClient.t).

(** The template a mutating method leaves behind: the one it returns with
    its value, or the unchanged one if it raised. *)
Definition template_after {A} (self : TicketTemplate.t)
  (r : result (A * TicketTemplate.t)) : TicketTemplate.t :=
  match r with
  | Returned (_, self') => self'
  | Raised _ => self
  end.

(** One operation: the template afterwards and the events emitted.
    [is_due] and [create_ticket] assign no attribute of the template. *)
Definition perform (op : operation) (self : TicketTemplate.t) (h : list event)
  : TicketTemplate.t * list event :=
  match op with
  | OpLoad src =>
      let run := TicketTemplate.load src self h in
      (template_after self (fst run), snd run)
  | OpValidate e =>
      let run := TicketTemplate.validate_structure e self h in
      (template_after self (fst run), snd run)
  | OpIsDue today => (self, [])
  | OpCreate e sn_api_client sn_integration_client =>
      (self, snd (TicketTemplate.create_ticket self e sn_api_client
                    sn_integration_client h))
  end.

Fixpoint perform_all (ops : list operation) (self : TicketTemplate.t)
  (h : list event) : TicketTemplate.t * list event :=
  match ops with
  | [] => (self, [])
  | op :: rest =>
      let (self1, ev1) := perform op self h in
      let (self2, ev2) := perform_all rest self1 (h ++ ev1) in
      (self2, ev1 ++ ev2)
  end.

(** [l1] is a prefix of [l2]. *)
Definition prefix_of {A} (l1 l2 : list A) : Prop := exists added, l2 = l1 ++ added.

(** ** Phase 3 *)

(** The path of an attachment entry, when it is a dict whose [path] is a
    [str]. *)
Definition entry_path (attachment_info : pyval) : option string :=
  match attachment_info with
  | VDict item =>
      match dict_get item "path" VNone with
      | VStr path => Some path
      | _ => None
      end
  | _ => None
  end.

(** The entry names a file that exists when it is uploaded. *)
Definition uploadable (e : env) (attachment_info : pyval) : bool :=
  match entry_path attachment_info with
  | Some path => os_path_exists e path
  | None => false
  end.

(** The upload call [_finalize_details] makes for an entry. *)
Definition attach_call (ticket_sys_id : pyval) (attachment_info : pyval) : client_call :=
  CallAttach "sc_req_item" ticket_sys_id
    (match attachment_info with
     | VDict item => dict_get item "path" VNone
     | _ => VNone
     end).

(** The request is a POST to the attachment endpoint of the client. *)
Definition is_upload_request (self : ServiceNowClient.t) (r : request) : bool :=
  (method r =? "POST")%string
  && match req_url r with
     | [Lit a; Lit b; Lit c] =>
         (a =? ServiceNowClient.url self)%string
         && (b =? ServiceNowClient.api_path)%string
         && (c =? "/attachment/file")%string
     | _ => false
     end.

(** The events of phase 3: log records, upload calls and upload requests. *)
Definition phase3_event (self : ServiceNowClient.t) (ev : event) : bool :=
  match ev with
  | EvLog _ _ => true
  | EvCall (CallAttach _ _ _) => true
  | EvCall _ => false
  | EvHttp r => is_upload_request self r
  end.

(** The request [add_attachment] sends for the file at [path]. *)
Definition upload_request (self : ServiceNowClient.t) (e : env) (table_name : string)
  (sys_id : pyval) (path content : string) : request :=
  {| method := "POST";
     req_url := [Lit (ServiceNowClient.url self); Lit ServiceNowClient.api_path;
                 Lit "/attachment/file"];
     params := Some [("table_name", [Lit table_name]);
                     ("table_sys_id", [Val sys_id]);
                     ("file_name", [Lit (os_path_basename path)])];
     json_payload := VNone;
     data := Some content;
     headers :=
       Some (ServiceNowClient.set_header "Accept" "application/json"
               (ServiceNowClient.set_header "Content-Type"
                  (match guess_type e path with
                   | Some ct => ct
                   | None => "application/octet-stream"
                   end)
                  (ServiceNowClient.session_headers self))) |}.

(** The events [add_attachment] has emitted when it sends that request. *)
Definition upload_preamble (table_name : string) (sys_id : pyval) (path : string)
  : list event :=
  [EvCall (CallAttach table_name sys_id (VStr path));
   EvLog INFO [Lit "Attempting to attach file '"; Lit (os_path_basename path);
               Lit "' from path '"; Lit path; Lit "' to record '"; Val sys_id;
               Lit "' in table '"; Lit table_name; Lit "'."]].

(** The request fails: an error status, a body that is not JSON or is a
    falsy JSON value, a transport error, or any other exception. *)
Definition failed_outcome (o : http_outcome) : bool :=
  match o with
  | Responded status body =>
      ServiceNowClient.is_error_status status
      || (negb (status =? 204)
          && match body with
             | BodyEmpty => false
             | BodyJson v => negb (py_truthy v)
             | BodyNotJson => true
             end)
  | _ => true
  end.

(** The upload of the file at [path] fails: the file cannot be read, or the
    request fails. *)
Definition upload_fails (self : ServiceNowClient.t) (e : env) (table_name : string)
  (sys_id : pyval) (path : string) (h : list event) : bool :=
  match fs e path with
  | RegularFile (Some content) | SpecialFile (Some content) =>
      failed_outcome
        (respond e (h ++ upload_preamble table_name sys_id path)
           (upload_request self e table_name sys_id path content))
  | _ => true
  end.

(** The error record [add_attachment] logs for a failed upload. *)
Definition upload_failure_record (table_name : string) (sys_id : pyval)
  (path : string) : event :=
  EvLog ERROR [Lit "Failed to attach file '"; Lit (os_path_basename path);
               Lit "' to "; Val sys_id; Lit " in "; Lit table_name; Lit "."].

(** ** Example data *)

Definition example_client : ServiceNowClient.t :=
  {| ServiceNowClient.url := "https://example.service-now.com";
     ServiceNowClient.username := "scheduler";
     ServiceNowClient.session_headers :=
       [("Content-Type", "application/json"); ("Accept", "application/json")] |}.

Definition example_integration_client : ServiceNowIntegrationClient.t :=
  {| ServiceNowIntegrationClient.base := example_client;
     ServiceNowIntegrationClient.integration_base_path := "api/x_helper/create" |}.

(** A template as [load] leaves it. *)
Definition make_template (integration_helper schedule attachments : pyval)
  : TicketTemplate.t :=
  {| TicketTemplate.template_path := "templates/backup.toml";
     TicketTemplate.assignment_group := VStr "Operations";
     TicketTemplate.short_description := VStr "Check the backups";
     TicketTemplate.description := VStr "Verify that last night's backups completed.";
     TicketTemplate.integration_helper := integration_helper;
     TicketTemplate.schedule := schedule;
     TicketTemplate.attachments := attachments;
     TicketTemplate.validation_errors := [] |}.

Definition daily : pyval := VDict [("frequency", VStr "daily")].

Definition attachment (path : string) (required : bool) : pyval :=
  VDict [("path", VStr path); ("required", VBool required)].

(** [day_of_week = true] in the TOML file: a boolean where an integer is
    meant. *)
Definition weekly_on_true : TicketTemplate.t :=
  make_template VNone
    (VDict [("frequency", VStr "weekly"); ("day_of_week", VBool true)])
    (VList []).

(** A file system that holds exactly ["checklist.txt"], and a server that
    answers every request with the given function. *)
Definition env_with (server : list event -> request -> http_outcome) : env :=
  {| respond := server;
     fs := fun p => if (p =? "checklist.txt")%string
                    then RegularFile (Some "1. check") else Absent;
     guess_type := fun _ => Some "text/plain";
     fd_open := fun fd => fd <? 3 |}.

Definition record_RITM : pyval :=
  VDict [("sys_id", VStr "46d44a5dc0a8010e"); ("number", VStr "RITM0010001")].

(** A server on which every call succeeds: a lookup finds [record_RITM], the
    integration endpoint names it, every other request answers with it. *)
Definition server_ok (h : list event) (r : request) : http_outcome :=
  if (method r =? "GET")%string then
    Responded 200 (BodyJson (VDict [("result", VList [record_RITM])]))
  else
    Responded 200
      (BodyJson (VDict [("result",
         VDict [("sys_id", VStr "46d44a5dc0a8010e"); ("number", VStr "RITM0010001");
                ("requestItemNumber", VStr "RITM0010001")])])).

(** A server that is down. *)
Definition server_down (h : list event) (r : request) : http_outcome :=
  ConnectionError.


(** The integration endpoint answers with a body that has no [result]. *)
Definition server_without_result (h : list event) (r : request) : http_outcome :=
  Responded 200 (BodyJson (VDict [("error", VStr "rejected")])).

(** The payload [ServiceNowIntegrationClient.create_requested_item] posts. *)
Definition integration_payload (assignment_group short_description description : pyval)
  : pyval :=
  VDict [("requested_for", assignment_group);
         ("summary", short_description);
         ("description", description)].

(** A template with three violations: no [short_description], an unknown
    frequency and a required attachment whose file does not exist. *)
Definition broken_template : TicketTemplate.t :=
  {| TicketTemplate.template_path := "templates/broken.toml";
     TicketTemplate.assignment_group := VStr "Operations";
     TicketTemplate.short_description := VNone;
     TicketTemplate.description := VStr "Verify that last night's backups completed.";
     TicketTemplate.integration_helper := VNone;
     TicketTemplate.schedule := VDict [("frequency", VStr "hourly")];
     TicketTemplate.attachments := VList [attachment "missing.txt" true];
     TicketTemplate.validation_errors := [] |}.

Definition missing_field_error (field_name : string) : fstring :=
  [Lit "'"; Lit field_name; Lit "' is missing or null."].

Definition invalid_frequency_error (frequency : pyval) : fstring :=
  [Lit "Invalid 'frequency' value '"; Val frequency; Lit "'. Allowed: ";
   Val (VList (map VStr TicketTemplate.allowed_frequencies))].

(** A file system that holds ["checklist.txt"] and ["report.pdf"]. *)
Definition env_two_files (server : list event -> request -> http_outcome) : env :=
  {| respond := server;
     fs := fun p => if (p =? "checklist.txt")%string then RegularFile (Some "1. check")
                    else if (p =? "report.pdf")%string then RegularFile (Some "%PDF")
                    else Absent;
     guess_type := fun _ => None;
     fd_open := fun fd => fd <? 3 |}.

(** A server that creates and updates records but rejects every upload (a
    request that carries raw data) with status 500. *)
Definition server_rejects_uploads (h : list event) (r : request) : http_outcome :=
  match data r with
  | Some _ => Responded 500 BodyEmpty
  | None => server_ok h r
  end.

(** The integration endpoint creates the item and names it, but the lookup
    that follows times out. *)
Definition server_lookup_times_out (h : list event) (r : request) : http_outcome :=
  if (method r =? "GET")%string then Timeout
  else Responded 200
         (BodyJson (VDict [("result",
            VDict [("requestItemNumber", VStr "RITM0010001")])])).

(** The table API answers with a record that carries no [sys_id]. *)
Definition server_without_sys_id (h : list event) (r : request) : http_outcome :=
  Responded 201 (BodyJson (VDict [("result", VDict [("number", VStr "RITM0010001")])])).

(** ** Requests of the standard client *)

Definition is_http (ev : event) : bool :=
  match ev with EvHttp _ => true | _ => false end.

Definition not_http (ev : event) : bool := negb (is_http ev).

Definition only_log (ev : event) : bool :=
  match ev with EvLog _ _ => true | _ => false end.

(** The request [_make_request] sends. *)
Definition api_request (self : ServiceNowClient.t) (method : string)
  (endpoint_segment : fstring) (params : option (list (string * fstring)))
  (payload : pyval) : request :=
  {| method := method;
     req_url := ServiceNowClient._build_api_url self endpoint_segment;
     params := params;
     json_payload := payload;
     data := None;
     headers := None |}.

(** The [sysparm_fields] parameter, when fields are asked for. *)
Definition fields_param (fields : option (list string)) : list (string * fstring) :=
  match fields with
  | Some (f :: fs') => [("sysparm_fields", [Lit (String.concat "," (f :: fs'))])]
  | _ => []
  end.

(** The lookup of one record by its [sys_id]. *)
Definition lookup_by_sys_id (self : ServiceNowClient.t) (table_name : string)
  (sys_id : pyval) (fields : option (list string)) : request :=
  api_request self "GET" [Lit "table/"; Lit table_name; Lit "/"; Val sys_id]
    (Some (fields_param fields)) VNone.

(** The lookup of one record by its [number]. *)
Definition lookup_by_number (self : ServiceNowClient.t) (table_name : string)
  (number : pyval) (fields : option (list string)) : request :=
  api_request self "GET" [Lit "table/"; Lit table_name]
    (Some ([("sysparm_query", [Lit "number="; Val number])]
           ++ fields_param fields
           ++ [("sysparm_limit", [Val (VInt 1)])])) VNone.

(** A response that carries a JSON body: neither an error status nor 204. *)
Definition json_response (o : http_outcome) (v : pyval) : Prop :=
  exists status,
    o = Responded status (BodyJson v)
    /\ ServiceNowClient.is_error_status status = false
    /\ (status =? 204) = false.

(** The payloads the two creation methods of the standard client post. *)
Definition requested_item_payload (self : ServiceNowClient.t)
  (assignment_group description short_description : pyval) : pyval :=
  VDict [
    ("caller_id", VStr (ServiceNowClient.username self));
    ("contact_type", VStr "Interface");
    ("requested_for", VStr (ServiceNowClient.username self));
    ("u_kot_organization", VNone);
    ("u_area", VNone);
    ("u_service_group", VNone);
    ("business_service", VNone);
    ("category", VNone);
    ("subcategory", VNone);
    ("assignment_group", assignment_group);
    ("short_description", short_description);
    ("description", description)].

Definition incident_payload (self : ServiceNowClient.t)
  (area assignment_group business_service category description organization
     service_group short_description subcategory impact urgency : pyval) : pyval :=
  VDict [
    ("caller_id", VStr (ServiceNowClient.username self));
    ("contact_type", VStr "Interface");
    ("requested_for", VStr (ServiceNowClient.username self));
    ("u_kot_organization", organization);
    ("u_area", area);
    ("u_service_group", service_group);
    ("business_service", business_service);
    ("category", category);
    ("subcategory", subcategory);
    ("assignment_group", assignment_group);
    ("impact", impact);
    ("urgency", urgency);
    ("short_description", short_description);
    ("description", description)].

(** A created record, as the creation methods return it: [None] or a
    dict. *)
Definition None_or_dict (v : pyval) : Prop := v = VNone \/ isinstance_dict v = true.

(** The parameters [_get_record] sends. *)
Definition record_params (query : option fstring) (by_sys_id : bool)
  (fields : option (list string)) (limit : option Z) : list (string * fstring) :=
  (if by_sys_id then []
   else match query with Some q => [("sysparm_query", q)] | None => [] end)
  ++ fields_param fields
  ++ match limit with
     | Some n => [("sysparm_limit", [Val (VInt n)])]
     | None => []
     end.

(** The request [_get_record] sends, if its arguments allow one. *)
Definition record_request (self : ServiceNowClient.t) (table_name : string)
  (sys_id : pyval) (query : option fstring) (fields : option (list string))
  (limit : option Z) : option request :=
  if (table_name =? "")%string then None
  else if py_truthy sys_id then
    Some (api_request self "GET" [Lit "table/"; Lit table_name; Lit "/"; Val sys_id]
            (Some (record_params query true fields limit)) VNone)
  else if ServiceNowClient.fstring_truthy query then
    Some (api_request self "GET" [Lit "table/"; Lit table_name]
            (Some (record_params query false fields limit)) VNone)
  else None.

Definition option_list {A} (o : option A) : list A :=
  match o with Some a => [a] | None => [] end.

Fixpoint header_lookup (k : string) (hs : list (string * string)) : option string :=
  match hs with
  | [] => None
  | (k', v) :: rest => if (k =? k')%string then Some v else header_lookup k rest
  end.

(** The request [update_ticket] sends. *)
Definition update_request (self : ServiceNowClient.t) (table_name : string)
  (sys_id payload : pyval) : request :=
  api_request self "PUT" [Lit "table/"; Lit table_name; Lit "/"; Val sys_id] None payload.

(** The query for the comments and work notes of a ticket, newest first
    when [order_by_desc], oldest first otherwise. *)
Definition journal_query_text (sys_id : pyval) (order_by_desc : bool) : fstring :=
  [Lit "element_id="; Val sys_id; Lit "^"; Lit "elementINcomments,work_notes"; Lit "^";
   Lit (if order_by_desc then "ORDERBYDESCsys_created_on" else "ORDERBYsys_created_on")].

(** The request for the journal entries of a ticket: the GET of
    [/api/now/table/sys_journal_field] with that query, the seven fields of
    an entry and the limit, if any. *)
Definition journal_request (self : ServiceNowClient.t) (sys_id : pyval)
  (order_by_desc : bool) (limit : option Z) : request :=
  {| method := "GET";
     req_url := [Lit (ServiceNowClient.url self); Lit "/api/now"; Lit "/";
                 Lit "table/"; Lit "sys_journal_field"];
     params :=
       Some ([("sysparm_query", journal_query_text sys_id order_by_desc);
              ("sysparm_fields",
               [Lit "sys_id,element_id,element,value,sys_created_on,sys_created_by,name"])]
             ++ match limit with
                | Some n => [("sysparm_limit", [Val (VInt n)])]
                | None => []
                end);
     json_payload := VNone;
     data := None;
     headers := None |}.

Definition None_or_list (v : pyval) : Prop := v = VNone \/ isinstance_list v = true.

(** The request to the integration endpoint: the POST of the three fields
    to the integration path of the instance. *)
Definition integration_request (self : ServiceNowIntegrationClient.t)
  (assignment_group short_description description : pyval) : request :=
  {| method := "POST";
     req_url := [Lit (ServiceNowClient.url (ServiceNowIntegrationClient.base self));
                 Lit "/";
                 Lit (ServiceNowIntegrationClient.integration_base_path self)];
     params := None;
     json_payload := VDict [("requested_for", assignment_group);
                            ("summary", short_description);
                            ("description", description)];
     data := None;
     headers := None |}.


(** A transport that breaks outside the [requests] hierarchy. *)
Definition server_crashes (h : list event) (r : request) : http_outcome :=
  Fault (OtherException "RuntimeError").

(** The integration endpoint answers with an empty item number. *)
Definition server_with_empty_number (h : list event) (r : request) : http_outcome :=
  Responded 200
    (BodyJson (VDict [("result", VDict [("requestItemNumber", VStr "")])])).

(** ** Slashes at the ends of a string *)

(** [n] slashes. *)
Fixpoint slashes (n : nat) : string :=
  match n with
  | O => EmptyString
  | S n' => String "/" (slashes n')
  end.

(** [s.endswith("/")] *)
Fixpoint ends_with_slash (s : string) : bool :=
  match s with
  | EmptyString => false
  | String c EmptyString => Ascii.eqb c "/"
  | String _ r => ends_with_slash r
  end.

(** ** Template files *)

(** The file can be read, is valid TOML, its [ticket] is a table and the
    [attachments] of that table, if any, is a table too. *)
Definition loadable (src : toml_outcome) : bool :=
  match src with
  | TomlDocument doc =>
      match lookup "ticket" doc with
      | Some (VDict ticket_data) =>
          isinstance_dict (dict_get ticket_data "attachments" (VDict []))
      | _ => false
      end
  | _ => false
  end.

(** The error [validate_structure] records for a missing or empty
    [schedule]. *)
Definition schedule_missing_error : fstring :=
  [Lit "'schedule' dictionary is empty or was missing."].

(** A template file with a daily schedule whose only attachment is a
    required file that does not exist. *)
Definition template_missing_required : TicketTemplate.t :=
  make_template VNone daily (VList [attachment "missing.txt" true]).

(** A template file: a daily ticket without attachments. *)
Definition example_document : toml_outcome :=
  TomlDocument
    [("ticket",
      VDict [("assignment_group", VStr "Operations");
             ("short_description", VStr "Check the backups");
             ("description", VStr "Verify that last night's backups completed.");
             ("schedule", daily)])].

(** A template file whose [schedule] is a string instead of a table. *)
Definition document_with_string_schedule : toml_outcome :=
  TomlDocument
    [("ticket",
      VDict [("assignment_group", VStr "Operations");
             ("short_description", VStr "Check the backups");
             ("description", VStr "Verify that last night's backups completed.");
             ("schedule", VStr "daily")])].

(** The directory of the examples: the malformed template comes first. *)
Definition example_files (file : string) : toml_outcome :=
  if (file =? "templates/a_broken.toml")%string then document_with_string_schedule
  else if (file =? "templates/backup.toml")%string then example_document
  else TomlFileNotFound.

(** ** What main prints before logging is set up *)

(** A printed line that reports an error. *)
Definition is_error_line (line : fstring) : bool :=
  match line with
  | Lit text :: _ => prefixb "ERROR: " text
  | _ => false
  end.

(** A printed line that is a warning. *)
Definition is_warning_line (line : fstring) : bool :=
  match line with
  | Lit text :: _ => prefixb "WARNING: " text
  | _ => false
  end.

(** The configuration file parses and holds the two sections [main] cannot
    do without. *)
Definition usable_config (src : toml_outcome) : bool :=
  match src with
  | TomlDocument app_config =>
      Main.has_key "templates" app_config && Main.has_key "servicenow" app_config
  | _ => false
  end.

(** A process environment with the primary credentials and only the user
    name of the integration account. *)
Definition environ_with_half_integration (name : string) : option string :=
  if (name =? "SN_API_USER")%string then Some "scheduler"
  else if (name =? "SN_API_PASSWORD")%string then Some "secret"
  else if (name =? "SN_INTEGRATION_USER")%string then Some "helper"
  else None.

(** ** The rules of validate_structure, one by one

    Section 4.2 of the specification lists what [validate_structure]
    checks.  Each rule is written out here on its own: when it is violated,
    and the message recorded for the violation. *)















(** * Properties *)

(** ** The monad *)

Lemma client_calls_app (a b : list event) :
  client_calls (a ++ b) = client_calls a ++ client_calls b.
Proof.
  induction a as [|ev a IH]; simpl; [reflexivity|].
  destruct ev; simpl; rewrite IH; reflexivity.
Qed.

Lemma http_requests_app (a b : list event) :
  http_requests (a ++ b) = http_requests a ++ http_requests b.
Proof.
  induction a as [|ev a IH]; simpl; [reflexivity|].
  destruct ev; simpl; rewrite IH; reflexivity.
Qed.

Lemma client_calls_no_call (evs : list event) :
  forallb (fun ev => negb (is_call ev)) evs = true -> client_calls evs = [].
Proof.
  induction evs as [|ev evs IH]; simpl; [reflexivity|].
  destruct ev; simpl; intro H; try discriminate; apply IH; exact H.
Qed.

Lemma bind_returned {A B} (m : M A) (f : A -> M B) h a ev1 :
  m h = (Returned a, ev1) ->
  bind m f h = (fst (f a (h ++ ev1)), ev1 ++ snd (f a (h ++ ev1))).
Proof.
  intro H. unfold bind. rewrite H. destruct (f a (h ++ ev1)); reflexivity.
Qed.

Lemma bind_raised {A B} (m : M A) (f : A -> M B) h x ev1 :
  m h = (Raised x, ev1) -> bind m f h = (Raised x, ev1).
Proof. intro H. unfold bind. rewrite H. reflexivity. Qed.

Lemma emits_ret {A} P (a : A) : emits P (ret a).
Proof. intro h. reflexivity. Qed.

Lemma emits_raise {A} P x : emits P (@raise A x).
Proof. intro h. reflexivity. Qed.

Lemma emits_lift {A} P (r : result A) : emits P (lift r).
Proof. intro h. reflexivity. Qed.

Lemma emits_history P : emits P history.
Proof. intro h. reflexivity. Qed.

Lemma emits_emit P ev : P ev = true -> emits P (emit ev).
Proof. intros H h. simpl. rewrite H. reflexivity. Qed.

Lemma emits_bind {A B} P (m : M A) (f : A -> M B) :
  emits P m -> (forall a, emits P (f a)) -> emits P (bind m f).
Proof.
  intros Hm Hf h. unfold bind. specialize (Hm h).
  destruct (m h) as [[a|x] ev1]; simpl in *; [|exact Hm].
  specialize (Hf a (h ++ ev1)). destruct (f a (h ++ ev1)) as [r ev2]; simpl in *.
  rewrite forallb_app, Hm, Hf. reflexivity.
Qed.

Lemma emits_try_except {A} P (m : M A) (k : pyexn -> M A) :
  emits P m -> (forall x, emits P (k x)) -> emits P (try_except m k).
Proof.
  intros Hm Hk h. unfold try_except. specialize (Hm h).
  destruct (m h) as [[a|x] ev1]; simpl in *; [exact Hm|].
  specialize (Hk x (h ++ ev1)). destruct (k x (h ++ ev1)) as [r ev2]; simpl in *.
  rewrite forallb_app, Hm, Hk. reflexivity.
Qed.

Lemma emits_and_then P b (m : M bool) : emits P m -> emits P (and_then b m).
Proof. intro H. destruct b; simpl; [exact H|apply emits_ret]. Qed.

Lemma yields_ret {A} (Q : A -> Prop) a : Q a -> yields Q (ret a).
Proof. intros H h b E. simpl in E. injection E as <-. exact H. Qed.

Lemma yields_raise {A} (Q : A -> Prop) x : yields Q (@raise A x).
Proof. intros h b E. discriminate. Qed.

Lemma yields_bind {A B} (Q : B -> Prop) (m : M A) (f : A -> M B) :
  (forall a, yields Q (f a)) -> yields Q (bind m f).
Proof.
  intros Hf h b. unfold bind.
  destruct (m h) as [[a|x] ev1]; simpl; [|discriminate].
  specialize (Hf a (h ++ ev1) b). destruct (f a (h ++ ev1)); simpl in *. exact Hf.
Qed.

(** Symbolic evaluation of a computation built from the combinators:
    case analysis on every test until the events are explicit. *)
Ltac emits_step :=
  first
    [ apply emits_ret | apply emits_raise | apply emits_lift | apply emits_history
    | apply emits_emit; reflexivity
    | apply emits_bind; [|intro]
    | apply emits_try_except; [|intro]
    | apply emits_and_then
    | match goal with
      | |- emits _ (if ?b then _ else _) => destruct b
      | |- emits _ (match ?x with _ => _ end) => destruct x
      | |- emits _ (logging _ _) => apply emits_emit; reflexivity
      end ].

Ltac emits_auto := repeat emits_step.

(** ** The helpers on concrete values *)

Example weekday_examples :
  datetime.weekday tuesday = 1
  /\ datetime.weekday saturday = 5
  /\ datetime.weekday {| datetime.year := 2024; datetime.month := 2; datetime.day := 29 |} = 3
  /\ datetime.toordinal tuesday = 739923.
Proof. repeat split. Qed.

Example os_path_basename_examples :
  os_path_basename "docs/reports/q3.pdf" = "q3.pdf"
  /\ os_path_basename "checklist.txt" = "checklist.txt"
  /\ os_path_basename "docs/" = "".
Proof. repeat split. Qed.

(** The characters of a [str] held as UTF-8: a two-byte character counts
    once. *)
Example characters_examples :
  characters "abc" = ["a"; "b"; "c"]%string
  /\ characters (String (ascii_of_nat 195) (String (ascii_of_nat 169) "t"))
     = [String (ascii_of_nat 195) (String (ascii_of_nat 169) EmptyString); "t"%string]
  /\ py_len (VStr (String (ascii_of_nat 195) (String (ascii_of_nat 169) "t")))
     = Returned 2
  /\ py_iter (VStr "") = Returned [].
Proof. repeat split. Qed.

Example python_truthiness :
  py_truthy (VDict []) = false
  /\ py_truthy (VStr "") = false
  /\ py_truthy (VInt 0) = false
  /\ py_truthy (VDict [("number", VStr "RITM0010001")]) = true
  /\ isinstance_int (VBool true) = true
  /\ py_eq_int 1 (VBool true) = true
  /\ py_contains_str "result" (VInt 5) = Raised TypeError.
Proof. repeat split. Qed.

(** ** The clients: which events each method emits *)

Lemma calls_emit_then {A} (c : client_call) (m : M A) :
  emits not_call m ->
  forall h, client_calls (snd ((emit (EvCall c) ;; m) h)) = [c].
Proof.
  intros Hm h. unfold bind, emit. specialize (Hm (h ++ [EvCall c])).
  destruct (m (h ++ [EvCall c])) as [r ev2]; simpl in *.
  rewrite (client_calls_no_call ev2 Hm). reflexivity.
Qed.

Lemma _execute_http_request_no_call e method request_url params payload data headers :
  emits not_call
    (ServiceNowClient._execute_http_request e method request_url params payload
       data headers).
Proof. unfold ServiceNowClient._execute_http_request. emits_auto. Qed.

Lemma _make_request_no_call self e method seg params payload :
  emits not_call (ServiceNowClient._make_request self e method seg params payload).
Proof. apply _execute_http_request_no_call. Qed.

Lemma _get_record_no_call self e table_name sys_id query fields limit :
  emits not_call
    (ServiceNowClient._get_record self e table_name sys_id query fields limit).
Proof.
  unfold ServiceNowClient._get_record.
  repeat first [apply _make_request_no_call | emits_step].
Qed.

Lemma _find_record_no_call self e table_name sys_id number fields :
  emits not_call (ServiceNowClient._find_record self e table_name sys_id number fields).
Proof.
  unfold ServiceNowClient._find_record.
  repeat first [apply _get_record_no_call | emits_step].
Qed.

Lemma create_requested_item_calls self e ag d sd h :
  client_calls (snd (ServiceNowClient.create_requested_item self e ag d sd h))
  = [CallCreateApi ag sd d].
Proof.
  unfold ServiceNowClient.create_requested_item. apply calls_emit_then.
  repeat first [apply _make_request_no_call | emits_step].
Qed.

Lemma update_ticket_calls self e table_name sys_id payload h :
  client_calls (snd (ServiceNowClient.update_ticket self e table_name sys_id payload h))
  = [CallUpdate table_name sys_id payload].
Proof.
  unfold ServiceNowClient.update_ticket. apply calls_emit_then.
  repeat first [apply _make_request_no_call | emits_step].
Qed.

Lemma add_attachment_calls self e table_name sys_id file_path h :
  client_calls (snd (ServiceNowClient.add_attachment self e table_name sys_id file_path h))
  = [CallAttach table_name sys_id file_path].
Proof.
  unfold ServiceNowClient.add_attachment. apply calls_emit_then.
  unfold ServiceNowClient.read_file, ServiceNowClient.add_attachment_descriptor.
  repeat first [apply _execute_http_request_no_call | emits_step].
Qed.

Lemma integration_create_requested_item_calls self e ag sd d h :
  client_calls (snd (ServiceNowIntegrationClient.create_requested_item self e ag sd d h))
  = [CallCreateIntegration ag sd d].
Proof.
  unfold ServiceNowIntegrationClient.create_requested_item. apply calls_emit_then.
  unfold ServiceNowIntegrationClient._make_integration_request,
    ServiceNowClient.get_requested_item.
  repeat first [apply _execute_http_request_no_call | apply _find_record_no_call
               | emits_step].
Qed.

Lemma calls_bind {A B} (m : M A) (f : A -> M B) h :
  client_calls (snd (bind m f h))
  = client_calls (snd (m h))
    ++ match fst (m h) with
       | Returned a => client_calls (snd (f a (h ++ snd (m h))))
       | Raised _ => []
       end.
Proof.
  unfold bind. destruct (m h) as [[a|x] ev1]; simpl.
  - destruct (f a (h ++ ev1)); simpl. apply client_calls_app.
  - symmetry. apply app_nil_r.
Qed.

Lemma calls_then_no_call {A B} (m : M A) (f : A -> M B) cs :
  (forall h, client_calls (snd (m h)) = cs) ->
  (forall a, emits not_call (f a)) ->
  forall h, client_calls (snd (bind m f h)) = cs.
Proof.
  intros Hm Hf h. rewrite calls_bind, Hm.
  destruct (fst (m h)); [|apply app_nil_r].
  rewrite (client_calls_no_call _ (Hf a _)). apply app_nil_r.
Qed.

Lemma calls_log_then {A} lvl msg (m : M A) h :
  client_calls (snd ((logging lvl msg ;; m) h))
  = client_calls (snd (m (h ++ [EvLog lvl msg]))).
Proof. rewrite calls_bind. reflexivity. Qed.

Lemma _create_via_api_calls self e c h :
  client_calls (snd (TicketTemplate._create_via_api self e c h))
  = [CallCreateApi (TicketTemplate.assignment_group self)
       (VStr "Scheduled ticket") (VStr "Scheduled ticket")].
Proof.
  unfold TicketTemplate._create_via_api. rewrite calls_log_then.
  apply calls_then_no_call.
  - intro h'. apply create_requested_item_calls.
  - intro a. emits_auto.
Qed.

Lemma _create_via_integration_helper_calls self e c h :
  client_calls (snd (TicketTemplate._create_via_integration_helper self e c h))
  = [CallCreateIntegration (TicketTemplate.assignment_group self)
       (VStr "Scheduled ticket") (VStr "Scheduled ticket")].
Proof.
  unfold TicketTemplate._create_via_integration_helper. rewrite calls_log_then.
  apply calls_then_no_call.
  - intro h'. apply integration_create_requested_item_calls.
  - intro a. emits_auto.
Qed.

(** ** create_ticket without an integration client *)

(** C6: when [integration_helper] is true (truthy) and no integration client
    is supplied, [create_ticket] returns [False] and the only thing it does
    is log one error: no client method is called, no HTTP request is sent,
    so neither creation path runs and no later phase runs. *)
Theorem create_ticket_requires_integration_client self e sn_api_client h :
  py_truthy (TicketTemplate.integration_helper self) = true ->
  let run := TicketTemplate.create_ticket self e sn_api_client None h in
  fst run = Returned (VBool false)
  /\ (exists msg, snd run = [EvLog ERROR msg])
  /\ client_calls (snd run) = []
  /\ http_requests (snd run) = [].
Proof.
  intros Hh run. subst run. unfold TicketTemplate.create_ticket. rewrite Hh.
  simpl. repeat split. eexists. reflexivity.
Qed.

Lemma create_ticket_requires_integration_client_witness :
  let self := make_template (VBool true) daily (VList [attachment "checklist.txt" true]) in
  let run := TicketTemplate.create_ticket self (env_with server_ok) example_client None [] in
  fst run = Returned (VBool false)
  /\ (exists msg, snd run = [EvLog ERROR msg])
  /\ client_calls (snd run) = []
  /\ http_requests (snd run) = [].
Proof.
  apply (create_ticket_requires_integration_client
           (make_template (VBool true) daily (VList [attachment "checklist.txt" true]))).
  reflexivity.
Defined.

(** ** Phase 1 *)

Lemma phase1_calls self e c ic create h :
  phase1 self e c ic = Some create ->
  client_calls (snd (create h)) = [phase1_call self].
Proof.
  unfold phase1, phase1_call.
  destruct (py_truthy (TicketTemplate.integration_helper self)).
  - destruct ic as [client|]; simpl; [|discriminate].
    intro E. injection E as <-. apply _create_via_integration_helper_calls.
  - intro E. injection E as <-. apply _create_via_api_calls.
Qed.

Lemma create_ticket_phase1 self e c ic create :
  phase1 self e c ic = Some create ->
  TicketTemplate.create_ticket self e c ic
  = (ticket_base <- create ;; TicketTemplate.create_ticket_finish self e c ticket_base).
Proof.
  unfold phase1, TicketTemplate.create_ticket.
  destruct (py_truthy (TicketTemplate.integration_helper self)).
  - destruct ic as [client|]; simpl; [|discriminate].
    intro E. injection E as <-. reflexivity.
  - intro E. injection E as <-. reflexivity.
Qed.

(** C7: if the creation path chosen in phase 1 returns no record (a falsy
    value), [create_ticket] returns [False] having emitted exactly what the
    creation path emitted: the only client call is the creation call, so
    neither the update of phase 2 nor an upload of phase 3 is attempted. *)
Theorem create_ticket_aborts_when_creation_fails
  self e sn_api_client sn_integration_client h create ticket_base ev1 :
  phase1 self e sn_api_client sn_integration_client = Some create ->
  create h = (Returned ticket_base, ev1) ->
  py_truthy ticket_base = false ->
  TicketTemplate.create_ticket self e sn_api_client sn_integration_client h
  = (Returned (VBool false), ev1)
  /\ client_calls ev1 = [phase1_call self].
Proof.
  intros Hp Hrun Hfalsy. split.
  - rewrite (create_ticket_phase1 _ _ _ _ _ Hp).
    rewrite (bind_returned _ _ _ _ _ Hrun).
    unfold TicketTemplate.create_ticket_finish. rewrite Hfalsy. simpl.
    rewrite app_nil_r. reflexivity.
  - pose proof (phase1_calls _ _ _ _ _ h Hp) as Hc. rewrite Hrun in Hc. exact Hc.
Qed.

Lemma create_ticket_aborts_when_creation_fails_witness :
  let self := make_template VNone daily (VList [attachment "checklist.txt" true]) in
  let e := env_with server_down in
  exists ev1,
    TicketTemplate.create_ticket self e example_client None []
    = (Returned (VBool false), ev1)
    /\ client_calls ev1 = [phase1_call self].
Proof.
  intros self e.
  eexists.
  apply (create_ticket_aborts_when_creation_fails self e example_client None []
           (TicketTemplate._create_via_api self e example_client) VNone).
  - reflexivity.
  - vm_compute. reflexivity.
  - reflexivity.
Defined.

(** ** What create_ticket returns *)

Lemma _finalize_details_yields_None self e c sid :
  yields (fun v => v = VNone) (TicketTemplate._finalize_details self e c sid).
Proof.
  unfold TicketTemplate._finalize_details.
  apply yields_bind; intros _. apply yields_bind; intros _.
  apply yields_ret. reflexivity.
Qed.

Lemma create_ticket_finish_yields self e c ticket_base :
  yields False_or_None (TicketTemplate.create_ticket_finish self e c ticket_base).
Proof.
  unfold TicketTemplate.create_ticket_finish.
  destruct (negb (py_truthy ticket_base)).
  - apply yields_ret. left. reflexivity.
  - apply yields_bind; intros sid h v E. right.
    exact (_finalize_details_yields_None self e c sid h v E).
Qed.

Lemma create_ticket_yields self e c ic :
  yields False_or_None (TicketTemplate.create_ticket self e c ic).
Proof.
  unfold TicketTemplate.create_ticket.
  destruct (py_truthy (TicketTemplate.integration_helper self)).
  - destruct ic as [client|].
    + apply yields_bind; intro. apply create_ticket_finish_yields.
    + apply yields_bind; intro. apply yields_ret. left. reflexivity.
  - apply yields_bind; intro. apply create_ticket_finish_yields.
Qed.

(** C9: [create_ticket] never returns [True].  Whatever the template, the
    clients, the server and the file system, its outcome is the literal
    [False], or [None], or an exception; [_finalize_details], whose result
    [create_ticket] returns on the success path, yields [None] whenever it
    returns.  A caller that tests the result for truthiness therefore sees
    a falsy value even when all three phases succeeded. *)
Theorem create_ticket_never_returns_True self e sn_api_client sn_integration_client h :
  let r := fst (TicketTemplate.create_ticket self e sn_api_client
                  sn_integration_client h) in
  (r = Returned (VBool false) \/ r = Returned VNone \/ exists x, r = Raised x)
  /\ (forall ticket_sys_id h',
        let r' := fst (TicketTemplate._finalize_details self e sn_api_client
                         ticket_sys_id h') in
        r' = Returned VNone \/ exists x, r' = Raised x)
  /\ match r with Returned v => py_truthy v = false | Raised _ => True end.
Proof.
  intro r.
  pose proof (create_ticket_yields self e sn_api_client sn_integration_client h) as Hy.
  fold r in Hy.
  repeat split.
  - destruct r as [v|x].
    + destruct (Hy v eq_refl) as [-> | ->]; auto.
    + right; right; eexists; reflexivity.
  - intros sid h' r'.
    pose proof (_finalize_details_yields_None self e sn_api_client sid h') as Hf.
    fold r' in Hf. destruct r' as [v|x].
    + left. rewrite (Hf v eq_refl). reflexivity.
    + right. eexists; reflexivity.
  - destruct r as [v|x]; [|exact I].
    destruct (Hy v eq_refl) as [-> | ->]; reflexivity.
Qed.

(** The run in which all three phases succeed returns [None]. *)
Lemma create_ticket_never_returns_True_witness :
  let self := make_template VNone daily (VList [attachment "checklist.txt" true]) in
  let run := TicketTemplate.create_ticket self (env_with server_ok) example_client
               None [] in
  fst run = Returned VNone
  /\ client_calls (snd run)
     = [phase1_call self;
        CallUpdate "sc_req_item" (VStr "46d44a5dc0a8010e") (details_payload self);
        CallAttach "sc_req_item" (VStr "46d44a5dc0a8010e") (VStr "checklist.txt")]
  /\ match fst run with Returned v => py_truthy v = false | Raised _ => True end.
Proof.
  intros self run. split; [|split].
  - vm_compute. reflexivity.
  - vm_compute. reflexivity.
  - exact (proj2 (proj2 (create_ticket_never_returns_True self (env_with server_ok)
                           example_client None []))).
Defined.

(** ** ServiceNowIntegrationClient.create_requested_item *)



(** ** validate_structure *)

Lemma validate_fields_acc fields current_errors :
  TicketTemplate.validate_fields fields current_errors
  = current_errors ++ TicketTemplate.validate_fields fields [].
Proof.
  revert current_errors.
  induction fields as [|[name value] rest IH]; intro ce; simpl.
  - symmetry. apply app_nil_r.
  - rewrite IH. rewrite (IH (if is_none value then _ else _)).
    destruct (is_none value); [|destruct (negb (isinstance_str value))];
      simpl; rewrite <- ?app_assoc, ?app_nil_r; reflexivity.
Qed.

Lemma validate_fields_per_field fields :
  TicketTemplate.validate_fields fields []
  = flat_map (fun field => TicketTemplate.validate_fields [field] []) fields.
Proof.
  induction fields as [|[name value] rest IH]; [reflexivity|].
  change (TicketTemplate.validate_fields ((name, value) :: rest) [])
    with (TicketTemplate.validate_fields rest
            (TicketTemplate.validate_fields [(name, value)] [])).
  rewrite validate_fields_acc, IH. reflexivity.
Qed.

Lemma validate_integration_helper_acc v current_errors :
  TicketTemplate.validate_integration_helper v current_errors
  = current_errors ++ TicketTemplate.validate_integration_helper v [].
Proof.
  unfold TicketTemplate.validate_integration_helper.
  destruct (negb (is_none v) && negb (isinstance_bool v)); simpl;
    rewrite ?app_nil_r; reflexivity.
Qed.

Lemma validate_schedule_acc schedule current_errors errs :
  TicketTemplate.validate_schedule schedule [] = Returned errs ->
  TicketTemplate.validate_schedule schedule current_errors
  = Returned (current_errors ++ errs).
Proof.
  unfold TicketTemplate.validate_schedule.
  destruct (negb (py_truthy schedule)).
  - intro E. injection E as <-. reflexivity.
  - destruct schedule; try discriminate.
    destruct (is_none (dict_get entries "frequency" VNone)).
    + intro E. injection E as <-. reflexivity.
    + destruct (negb (existsb _ TicketTemplate.allowed_frequencies));
        repeat match goal with
               | |- context [if ?b then _ else _] => destruct b
               end;
        intro E; injection E as <-; simpl;
        rewrite <- ?app_assoc, ?app_nil_r; reflexivity.
Qed.

Lemma validate_schedule_dict sched :
  exists errs, TicketTemplate.validate_schedule (VDict sched) [] = Returned errs.
Proof.
  unfold TicketTemplate.validate_schedule.
  repeat match goal with
         | |- context [if ?b then _ else _] => destruct b
         end; eexists; reflexivity.
Qed.

Lemma validate_attachment_acc e self index file_item current_errors processed h :
  TicketTemplate.validate_attachment e self index file_item current_errors processed h
  = (Returned (current_errors ++ attachment_errors e self index file_item,
               processed ++ (if retained e file_item then [file_item] else [])),
     attachment_events e self index file_item).
Proof.
  unfold attachment_errors, attachment_events, attachment_run, retained,
    TicketTemplate.validate_attachment.
  destruct file_item as [| | | | | |items|item]; try reflexivity; try (simpl; rewrite app_nil_r; reflexivity).
  destruct (dict_get item "path" VNone) as [| | | |path| | |];
    destruct (dict_get item "required" VNone) as [|req| | | | | |];
    simpl; rewrite ?app_nil_r, <- ?app_assoc; try reflexivity.
  all: destruct (negb (path =? "")%string); simpl;
    rewrite ?app_nil_r, <- ?app_assoc; try reflexivity.
  all: destruct req, (os_path_isfile e path); simpl;
    rewrite ?app_nil_r, <- ?app_assoc; reflexivity.
Qed.

Lemma validate_attachments_acc e self items :
  forall index current_errors processed h,
    TicketTemplate.validate_attachments e self index items current_errors processed h
    = (Returned (current_errors ++ attachments_errors e self index items,
                 processed ++ filter (retained e) items),
       attachments_events e self index items).
Proof.
  induction items as [|file_item rest IH]; intros index ce pa h; simpl.
  - rewrite !app_nil_r. reflexivity.
  - unfold bind. rewrite validate_attachment_acc, IH.
    rewrite <- !app_assoc.
    destruct (retained e file_item); reflexivity.
Qed.

Lemma log_errors_run self errs h :
  TicketTemplate.log_errors self errs h
  = (Returned tt, map (validation_error_record self) errs).
Proof.
  revert h. induction errs as [|err rest IH]; intro h; simpl; [reflexivity|].
  unfold bind, logging, emit. rewrite IH. reflexivity.
Qed.

(** What [validate_structure] does whenever the schedule section returns and
    [attachments] can be iterated: the errors are those of the four rule
    groups, one after the other. *)
Lemma validate_structure_run e self errs_schedule items h :
  TicketTemplate.validate_schedule (TicketTemplate.schedule self) []
  = Returned errs_schedule ->
  py_iter (TicketTemplate.attachments self) = Returned items ->
  let errs := field_errors self ++ helper_errors self ++ errs_schedule
              ++ attachments_errors e self 0 items in
  let kept := TicketTemplate.set_attachments self (VList (filter (retained e) items)) in
  TicketTemplate.validate_structure e self h
  = if is_empty errs then
      (Returned (true, kept),
       attachments_events e self 0 items
       ++ [EvLog DEBUG [Lit "Template structure validation successful for ";
                        Lit (TicketTemplate.template_path self); Lit "."]])
    else
      (Returned (false, TicketTemplate.extend_errors kept errs),
       attachments_events e self 0 items
       ++ map (validation_error_record self) errs).
Proof.
  intros Hs Hi errs kept. subst errs kept.
  unfold TicketTemplate.validate_structure.
  rewrite (validate_integration_helper_acc _ (TicketTemplate.validate_fields _ _)).
  rewrite validate_fields_per_field.
  fold (field_errors self). fold (helper_errors self).
  rewrite (validate_schedule_acc _ (field_errors self ++ helper_errors self) _ Hs).
  rewrite Hi. unfold bind at 1. unfold lift at 1. cbv iota beta.
  unfold bind at 1. unfold lift at 1. cbv iota beta.
  unfold bind at 1. rewrite validate_attachments_acc.
  rewrite <- !app_assoc. simpl app at 1.
  set (errs := field_errors self ++ helper_errors self ++ errs_schedule
               ++ attachments_errors e self 0 items).
  destruct errs as [|err errs']; simpl is_empty; cbv iota beta.
  - simpl. reflexivity.
  - unfold bind. rewrite log_errors_run. simpl. rewrite ?app_nil_r. reflexivity.
Qed.

Lemma field_errors_short_description self :
  TicketTemplate.short_description self = VNone ->
  In (missing_field_error "short_description") (field_errors self).
Proof.
  intro H. unfold field_errors. simpl. rewrite H. simpl.
  repeat match goal with
         | |- context [if ?b then _ else _] => destruct b
         end; simpl; auto.
Qed.

Lemma validate_schedule_invalid_frequency sched errs :
  TicketTemplate.validate_schedule (VDict sched) [] = Returned errs ->
  is_none (dict_get sched "frequency" VNone) = false ->
  existsb (fun a => py_eq_str a (dict_get sched "frequency" VNone))
    TicketTemplate.allowed_frequencies = false ->
  In (invalid_frequency_error (dict_get sched "frequency" VNone)) errs.
Proof.
  unfold TicketTemplate.validate_schedule. intros E Hn Ha.
  assert (Ht : negb (py_truthy (VDict sched)) = false)
    by (destruct sched; [discriminate Hn|reflexivity]).
  cbv zeta in E. rewrite Ht, Hn, Ha in E. cbv iota in E.
  change (negb false) with true in E. cbv iota in E.
  repeat match type of E with
         | context [if ?b then _ else _] => destruct b
         end; injection E as <-; simpl; auto.
Qed.

(** An entry without [path] and without [required] gets both errors. *)
Example attachment_errors_empty_entry e self :
  attachment_errors e self 2 (VDict [])
  = [[Lit "'path' is missing or null in attachment item at index "; Val (VInt 2); Lit "."];
     [Lit "'required' is missing or null in attachment item at index "; Val (VInt 2);
      Lit "."]].
Proof. reflexivity. Qed.

(** The three violations of [broken_template], in the order of the rules. *)
Example validate_structure_broken_template :
  fst (TicketTemplate.validate_structure (env_with server_ok) broken_template [])
  = Returned (false,
      TicketTemplate.extend_errors
        (TicketTemplate.set_attachments broken_template (VList []))
        [missing_field_error "short_description";
         invalid_frequency_error (VStr "hourly");
         required_missing_error "missing.txt" 0]).
Proof. vm_compute. reflexivity. Qed.












(** ** Attachment entries *)



(** What the loop body does with a structurally valid entry. *)
Lemma attachment_run_valid e self index item path required :
  dict_get item "path" VNone = VStr path ->
  path <> "" ->
  dict_get item "required" VNone = VBool required ->
  attachment_run e self index (VDict item)
  = if os_path_isfile e path then (([], [VDict item]), [])
    else if required then (([required_missing_error path index], []), [])
    else (([], []), [optional_missing_warning self path index]).
Proof.
  intros Hp Hne Hr.
  unfold attachment_run, TicketTemplate.validate_attachment. rewrite Hp, Hr.
  assert (Hs : (path =? "")%string = false) by (apply String.eqb_neq; exact Hne).
  simpl. rewrite Hs. simpl.
  destruct required, (os_path_isfile e path); reflexivity.
Qed.

Lemma attachments_errors_clean e self items :
  forall index,
    (forall file_item, In file_item items ->
       structurally_valid file_item = true
       /\ required_and_missing e file_item = false) ->
    attachments_errors e self index items = [].
Proof.
  induction items as [|x rest IH]; intros index H; simpl; [reflexivity|].
  rewrite IH by (intros y Hy; apply H; right; exact Hy).
  rewrite app_nil_r.
  destruct (H x (or_introl eq_refl)) as [Hv Hm].
  unfold structurally_valid in Hv. unfold required_and_missing in Hm.
  destruct x as [| | | | | |l|item]; try discriminate.
  destruct (dict_get item "path" VNone) as [| | | |path| | |] eqn:Hp; try discriminate.
  destruct (dict_get item "required" VNone) as [|required| | | | | |] eqn:Hr;
    try discriminate.
  assert (Hne : path <> "").
  { intros ->. discriminate. }
  unfold attachment_errors.
  rewrite (attachment_run_valid e self index item path required Hp Hne Hr).
  rewrite Hv in Hm. simpl in Hm.
  destruct (os_path_isfile e path); [reflexivity|].
  destruct required; [discriminate|reflexivity].
Qed.





(** ** validation_errors only grows *)

Lemma prefix_of_refl {A} (l : list A) : prefix_of l l.
Proof. exists []. symmetry. apply app_nil_r. Qed.

Lemma prefix_of_trans {A} (l1 l2 l3 : list A) :
  prefix_of l1 l2 -> prefix_of l2 l3 -> prefix_of l1 l3.
Proof.
  intros [a ->] [b ->]. exists (a ++ b). symmetry. apply app_assoc.
Qed.

Lemma prefix_of_extend self errs :
  prefix_of (TicketTemplate.validation_errors self)
    (TicketTemplate.validation_errors (TicketTemplate.extend_errors self errs)).
Proof. exists errs. reflexivity. Qed.

Lemma load_grows src self h :
  prefix_of (TicketTemplate.validation_errors self)
    (TicketTemplate.validation_errors
       (template_after self (fst (TicketTemplate.load src self h)))).
Proof.
  unfold TicketTemplate.load, TicketTemplate.load_unexpected.
  destruct src as [| | |doc]; simpl; try apply prefix_of_extend.
  destruct (lookup "ticket" doc) as [ticket|]; simpl; [|apply prefix_of_extend].
  destruct ticket; simpl; try apply prefix_of_extend.
  destruct (dict_get entries "attachments" (VDict [])); simpl;
    first [apply prefix_of_refl | exists [[Lit "Unexpected loading error: "; Opaque "e"]]; reflexivity].
Qed.

Lemma validate_structure_grows e self :
  yields (fun p => prefix_of (TicketTemplate.validation_errors self)
                     (TicketTemplate.validation_errors (snd p)))
    (TicketTemplate.validate_structure e self).
Proof.
  unfold TicketTemplate.validate_structure.
  apply yields_bind; intro current_errors.
  apply yields_bind; intro items.
  apply yields_bind; intros [errs processed].
  destruct errs as [|err errs].
  - apply yields_bind; intros _. apply yields_ret. apply prefix_of_refl.
  - apply yields_bind; intros _. apply yields_ret. simpl.
    exists (err :: errs). reflexivity.
Qed.

Lemma perform_grows op self h :
  prefix_of (TicketTemplate.validation_errors self)
    (TicketTemplate.validation_errors (fst (perform op self h))).
Proof.
  destruct op as [src|e|today|e c ic]; simpl.
  - apply load_grows.
  - pose proof (validate_structure_grows e self h) as H.
    destruct (fst (TicketTemplate.validate_structure e self h)) as [[b self']|x]; simpl.
    + apply (H (b, self') eq_refl).
    + apply prefix_of_refl.
  - apply prefix_of_refl.
  - apply prefix_of_refl.
Qed.

Lemma perform_all_grows ops :
  forall self h,
    prefix_of (TicketTemplate.validation_errors self)
      (TicketTemplate.validation_errors (fst (perform_all ops self h))).
Proof.
  induction ops as [|op rest IH]; intros self h; simpl.
  - apply prefix_of_refl.
  - pose proof (perform_grows op self h) as H1.
    destruct (perform op self h) as [self1 ev1]. simpl in H1.
    pose proof (IH self1 (h ++ ev1)) as H2.
    destruct (perform_all rest self1 (h ++ ev1)) as [self2 ev2]. simpl in *.
    apply (prefix_of_trans _ _ _ H1 H2).
Qed.

Lemma perform_all_app ops1 :
  forall ops2 self h,
    perform_all (ops1 ++ ops2) self h
    = let (self1, ev1) := perform_all ops1 self h in
      let (self2, ev2) := perform_all ops2 self1 (h ++ ev1) in
      (self2, ev1 ++ ev2).
Proof.
  induction ops1 as [|op rest IH]; intros ops2 self h; simpl.
  - rewrite app_nil_r. destruct (perform_all ops2 self h). reflexivity.
  - destruct (perform op self h) as [self1 ev1]. rewrite IH.
    destruct (perform_all rest self1 (h ++ ev1)) as [self2 ev2].
    rewrite <- app_assoc.
    destruct (perform_all ops2 self2 (h ++ ev1 ++ ev2)) as [self3 ev3].
    rewrite app_assoc. reflexivity.
Qed.

(** A failed [load] followed by a failed validation: the first error stays
    in front. *)
Example validation_errors_grow :
  TicketTemplate.validation_errors
    (fst (perform_all [OpLoad TomlFileNotFound; OpValidate (env_with server_ok);
                       OpIsDue tuesday]
            (TicketTemplate.new "templates/none.toml") []))
  = [[Lit "File not found: "; Lit "templates/none.toml"];
     missing_field_error "short_description";
     missing_field_error "description";
     missing_field_error "assignment_group";
     [Lit "'schedule' dictionary is empty or was missing."]].
Proof. vm_compute. reflexivity. Qed.

(** C8: [validation_errors] is append-only.  Whatever sequence of [load],
    [validate_structure], [is_due] and [create_ticket] is performed on a
    template, with whatever files, file system and server, the list at any
    earlier point is a prefix of the list at any later point: each
    operation only appends. *)
Theorem validation_errors_append_only earlier later self h :
  prefix_of
    (TicketTemplate.validation_errors (fst (perform_all earlier self h)))
    (TicketTemplate.validation_errors (fst (perform_all (earlier ++ later) self h)))
  /\ prefix_of
       (TicketTemplate.validation_errors self)
       (TicketTemplate.validation_errors (fst (perform_all earlier self h))).
Proof.
  split; [|apply perform_all_grows].
  rewrite perform_all_app.
  destruct (perform_all earlier self h) as [self1 ev1].
  pose proof (perform_all_grows later self1 (h ++ ev1)) as H.
  destruct (perform_all later self1 (h ++ ev1)) as [self2 ev2]. exact H.
Qed.

(** ** Phase 3: uploads *)

Lemma total_ret {A} (a : A) : total (ret a).
Proof. intro h. exists a. reflexivity. Qed.

Lemma total_emit ev : total (emit ev).
Proof. intro h. exists tt. reflexivity. Qed.

Lemma total_bind {A B} (m : M A) (f : A -> M B) :
  total m -> (forall a, total (f a)) -> total (bind m f).
Proof.
  intros Hm Hf h. unfold bind. destruct (Hm h) as [a Ha].
  destruct (m h) as [r ev1]; simpl in Ha; subst r.
  destruct (Hf a (h ++ ev1)) as [b Hb].
  destruct (f a (h ++ ev1)) as [r ev2]; simpl in *. exists b. exact Hb.
Qed.

Lemma total_try_except {A} (m : M A) (k : pyexn -> M A) :
  (forall x, total (k x)) -> total (try_except m k).
Proof.
  intros Hk h. unfold try_except. destruct (m h) as [[a|x] ev1].
  - exists a. reflexivity.
  - destruct (Hk x (h ++ ev1)) as [b Hb].
    destruct (k x (h ++ ev1)) as [r ev2]; simpl in *. exists b. exact Hb.
Qed.

Ltac total_step :=
  first
    [ apply total_ret | apply total_emit
    | apply total_try_except; intro
    | apply total_bind; [|intro]
    | match goal with
      | |- total (if ?b then _ else _) => destruct b
      | |- total (match ?x with _ => _ end) => destruct x
      | |- total (logging _ _) => apply total_emit
      end ].

(** [add_attachment] returns whenever the record has a [sys_id] and the file
    exists: whatever happens to the upload itself is caught. *)
Lemma add_attachment_total self e sys_id path :
  py_truthy sys_id = true ->
  os_path_exists e path = true ->
  total (ServiceNowClient.add_attachment self e "sc_req_item" sys_id (VStr path)).
Proof.
  intros Hs He. unfold ServiceNowClient.add_attachment.
  rewrite Hs, He. simpl.
  repeat total_step.
Qed.

Lemma _execute_http_request_emits P e method request_url params payload data headers :
  (forall lvl msg, P (EvLog lvl msg) = true) ->
  P (EvHttp {| method := method; req_url := request_url; params := params;
               json_payload := payload; data := data; headers := headers |}) = true ->
  emits P (ServiceNowClient._execute_http_request e method request_url params payload
             data headers).
Proof.
  intros Hlog Hreq. unfold ServiceNowClient._execute_http_request, logging.
  repeat first [ apply emits_emit; first [exact Hreq | apply Hlog] | emits_step ].
Qed.

Lemma add_attachment_phase3 self e table_name sys_id file_path :
  emits (phase3_event self)
    (ServiceNowClient.add_attachment self e table_name sys_id file_path).
Proof.
  unfold ServiceNowClient.add_attachment, ServiceNowClient.read_file,
    ServiceNowClient.add_attachment_descriptor.
  repeat first
    [ apply _execute_http_request_emits;
      [ reflexivity
      | simpl; unfold is_upload_request; simpl; rewrite !String.eqb_refl; reflexivity ]
    | emits_step ].
Qed.

(** A failed upload is logged and yields [None]. *)
Lemma add_attachment_failure self e sys_id path h :
  py_truthy sys_id = true ->
  os_path_exists e path = true ->
  upload_fails self e "sc_req_item" sys_id path h = true ->
  let run := ServiceNowClient.add_attachment self e "sc_req_item" sys_id (VStr path) h in
  fst run = Returned VNone
  /\ In (upload_failure_record "sc_req_item" sys_id path) (snd run).
Proof.
  intros Hs He Hf run. subst run.
  unfold ServiceNowClient.add_attachment. rewrite Hs, He. simpl negb. simpl orb.
  cbv iota. unfold upload_fails, upload_request, upload_preamble in Hf.
  unfold ServiceNowClient.read_file, ServiceNowClient._execute_http_request, logging.
  unfold bind, emit, try_except, history, ret, raise.
  cbv beta iota zeta. simpl app.
  destruct (fs e path) as [| |[content|]|[content|]]; cbv beta iota; simpl;
    try (split; [reflexivity|repeat first [left; reflexivity | right]]);
    (rewrite ?app_nil_r, <- ?app_assoc; simpl app;
     unfold failed_outcome in Hf;
     destruct (respond e _ _) as [status body| | | |x]; simpl;
     try (split; [reflexivity|repeat first [left; reflexivity | right]]);
     [ destruct (ServiceNowClient.is_error_status status); simpl in *;
       [ destruct body; simpl;
         (split; [reflexivity|repeat first [left; reflexivity | right]])
       | destruct (status =? 204); simpl in *; [discriminate|];
         destruct body as [|v|]; simpl in *; try discriminate;
         [ apply negb_true_iff in Hf; rewrite Hf; simpl;
           split; [reflexivity|repeat first [left; reflexivity | right]]
         | split; [reflexivity|repeat first [left; reflexivity | right]] ] ]
     | destruct (is_oserror x); simpl;
       (split; [reflexivity|repeat first [left; reflexivity | right]]) ]).
Qed.

Lemma run_pair {A} (m : M A) h : m h = (fst (m h), snd (m h)).
Proof. destruct (m h); reflexivity. Qed.

Lemma uploadable_entry e attachment_info :
  uploadable e attachment_info = true ->
  exists path,
    entry_path attachment_info = Some path
    /\ py_get attachment_info "path" VNone = Returned (VStr path)
    /\ os_path_exists e path = true.
Proof.
  unfold uploadable, entry_path. destruct attachment_info; try discriminate.
  simpl. destruct (dict_get entries "path" VNone); try discriminate.
  intro H. exists s. repeat split. exact H.
Qed.

(** The loop of phase 3 visits every entry: each gets its upload call, in
    order, whatever the outcome of the uploads before it. *)
Lemma add_attachments_run e sn_api_client ticket_sys_id items :
  py_truthy ticket_sys_id = true ->
  forallb (uploadable e) items = true ->
  forall h,
    exists evs,
      TicketTemplate.add_attachments e sn_api_client ticket_sys_id items h
      = (Returned tt, evs)
      /\ client_calls evs = map (attach_call ticket_sys_id) items
      /\ forallb (phase3_event sn_api_client) evs = true.
Proof.
  intros Hs. induction items as [|info rest IH]; intros Hall h.
  - exists []. repeat split.
  - simpl in Hall. apply andb_true_iff in Hall. destruct Hall as [Hinfo Hrest].
    destruct (uploadable_entry e info Hinfo) as (path & Hpath & Hget & Hex).
    destruct (add_attachment_total sn_api_client e ticket_sys_id path Hs Hex h)
      as [v Hv].
    pose proof (add_attachment_calls sn_api_client e "sc_req_item" ticket_sys_id
                  (VStr path) h) as Hc.
    pose proof (add_attachment_phase3 sn_api_client e "sc_req_item" ticket_sys_id
                  (VStr path) h) as Hp.
    remember (snd (ServiceNowClient.add_attachment sn_api_client e "sc_req_item"
                     ticket_sys_id (VStr path) h)) as ev1 eqn:Eev1.
    assert (Hrun : ServiceNowClient.add_attachment sn_api_client e "sc_req_item"
                     ticket_sys_id (VStr path) h = (Returned v, ev1)).
    { rewrite run_pair, Hv, <- Eev1. reflexivity. }
    destruct (IH Hrest (h ++ ev1)) as (evs & Hloop & Hcalls & Hphase).
    exists (ev1 ++ evs). split; [|split].
    + simpl. rewrite Hget. unfold bind at 1. unfold lift at 1. cbv iota beta.
      rewrite app_nil_r. rewrite (bind_returned _ _ _ _ _ Hrun).
      rewrite Hloop. reflexivity.
    + rewrite client_calls_app, Hc, Hcalls. simpl.
      unfold attach_call at 2. unfold entry_path in Hpath.
      destruct info; try discriminate.
      destruct (dict_get entries "path" VNone); try discriminate.
      injection Hpath as ->. reflexivity.
    + rewrite forallb_app, Hp, Hphase. reflexivity.
Qed.

Lemma update_ticket_returned self e table_name sys_id payload h v ev :
  ServiceNowClient.update_ticket self e table_name sys_id payload h = (Returned v, ev) ->
  py_truthy sys_id = true.
Proof.
  unfold ServiceNowClient.update_ticket. unfold bind at 1. simpl.
  destruct (table_name =? "")%string; [discriminate|].
  destruct (py_truthy sys_id); [reflexivity|discriminate].
Qed.

(** Phases 2 and 3 once the update has returned. *)
Lemma _finalize_details_run self e sn_api_client ticket_sys_id items h updated ev2 :
  ServiceNowClient.update_ticket sn_api_client e "sc_req_item" ticket_sys_id
    (details_payload self) h = (Returned updated, ev2) ->
  TicketTemplate.attachments self = VList items ->
  forallb (uploadable e) items = true ->
  exists ev3,
    TicketTemplate._finalize_details self e sn_api_client ticket_sys_id h
    = (Returned VNone, ev2 ++ ev3)
    /\ client_calls ev3 = map (attach_call ticket_sys_id) items
    /\ forallb (phase3_event sn_api_client) ev3 = true.
Proof.
  intros Hu Ha Hall.
  pose proof (update_ticket_returned _ _ _ _ _ _ _ _ Hu) as Hs.
  unfold TicketTemplate._finalize_details. fold (details_payload self).
  rewrite (bind_returned _ _ _ _ _ Hu). rewrite Ha.
  destruct items as [|info rest].
  - exists []. repeat split.
  - destruct (add_attachments_run e sn_api_client ticket_sys_id (info :: rest) Hs Hall
                ((h ++ ev2) ++ [EvLog INFO [Lit "Adding ";
                                            Val (VInt (Z.of_nat (List.length (info :: rest))));
                                            Lit " attachment(s)."]]))
      as (evs & Hloop & Hcalls & Hphase).
    exists (EvLog INFO [Lit "Adding "; Val (VInt (Z.of_nat (List.length (info :: rest))));
                        Lit " attachment(s)."] :: evs).
    split; [|split].
    + unfold py_truthy, py_len, py_iter, lift, logging.
      unfold bind, emit, ret. cbv beta iota.
      rewrite ?app_nil_r. rewrite Hloop. simpl. rewrite ?app_nil_r. reflexivity.
    + exact Hcalls.
    + simpl. exact Hphase.
Qed.

Lemma phase3_requests self evs :
  forallb (phase3_event self) evs = true ->
  forall r, In r (http_requests evs) -> is_upload_request self r = true.
Proof.
  induction evs as [|ev evs IH]; simpl; intros H r Hin; [destruct Hin|].
  apply andb_true_iff in H. destruct H as [Hev Hevs].
  destruct ev as [lvl msg|req|c]; simpl in Hin.
  - apply (IH Hevs r Hin).
  - destruct Hin as [<- | Hin]; [exact Hev|apply (IH Hevs r Hin)].
  - apply (IH Hevs r Hin).
Qed.

Lemma create_ticket_finish_truthy self e c ticket_base sid h :
  py_truthy ticket_base = true ->
  py_get ticket_base "sys_id" VNone = Returned sid ->
  TicketTemplate.create_ticket_finish self e c ticket_base h
  = TicketTemplate._finalize_details self e c sid h.
Proof.
  intros Ht Hsid. unfold TicketTemplate.create_ticket_finish.
  rewrite Ht, Hsid. simpl. unfold bind at 1, lift. rewrite app_nil_r.
  destruct (TicketTemplate._finalize_details self e c sid h). reflexivity.
Qed.

Lemma create_ticket_run self e c ic h create ticket_base ev1 sid updated ev2 items :
  phase1 self e c ic = Some create ->
  create h = (Returned ticket_base, ev1) ->
  py_truthy ticket_base = true ->
  py_get ticket_base "sys_id" VNone = Returned sid ->
  ServiceNowClient.update_ticket c e "sc_req_item" sid (details_payload self)
    (h ++ ev1) = (Returned updated, ev2) ->
  TicketTemplate.attachments self = VList items ->
  forallb (uploadable e) items = true ->
  exists ev3,
    TicketTemplate.create_ticket self e c ic h = (Returned VNone, ev1 ++ ev2 ++ ev3)
    /\ client_calls (ev1 ++ ev2 ++ ev3)
       = phase1_call self
         :: CallUpdate "sc_req_item" sid (details_payload self)
         :: map (attach_call sid) items
    /\ client_calls ev3 = map (attach_call sid) items
    /\ forallb (phase3_event c) ev3 = true.
Proof.
  intros Hp Hc Ht Hsid Hu Ha Hall.
  destruct (_finalize_details_run self e c sid items (h ++ ev1) updated ev2 Hu Ha Hall)
    as (ev3 & Hfin & Hcalls & Hphase).
  exists ev3. split; [|split; [|split]].
  - rewrite (create_ticket_phase1 _ _ _ _ _ Hp).
    rewrite (bind_returned _ _ _ _ _ Hc).
    rewrite (create_ticket_finish_truthy _ _ _ _ _ _ Ht Hsid), Hfin. reflexivity.
  - rewrite !client_calls_app, Hcalls.
    pose proof (phase1_calls _ _ _ _ _ h Hp) as H1. rewrite Hc in H1. simpl in H1.
    pose proof (update_ticket_calls c e "sc_req_item" sid (details_payload self)
                  (h ++ ev1)) as H2. rewrite Hu in H2. simpl in H2.
    rewrite H1, H2. reflexivity.
  - exact Hcalls.
  - exact Hphase.
Qed.

(** C2, as amended: a failed upload does not abort the operation, provided
    the file of every entry still exists when it is uploaded.  Once phase 1
    has returned a record and the update of phase 2 has returned,
    [create_ticket] returns [None] (not [False]) whatever the server does
    with the uploads; each entry gets its upload call, in order; the only
    requests of phase 3 are uploads, so nothing undoes phases 1 and 2; and
    an upload that fails (unreadable file, error status, transport error,
    any other exception) logs the error record and yields [None], which
    [_finalize_details] ignores. *)
Theorem attachment_failures_do_not_abort
  self e sn_api_client sn_integration_client h create ticket_base ev1
  ticket_sys_id updated ev2 items :
  phase1 self e sn_api_client sn_integration_client = Some create ->
  create h = (Returned ticket_base, ev1) ->
  py_truthy ticket_base = true ->
  py_get ticket_base "sys_id" VNone = Returned ticket_sys_id ->
  ServiceNowClient.update_ticket sn_api_client e "sc_req_item" ticket_sys_id
    (details_payload self) (h ++ ev1) = (Returned updated, ev2) ->
  TicketTemplate.attachments self = VList items ->
  forallb (uploadable e) items = true ->
  (exists ev3,
      TicketTemplate.create_ticket self e sn_api_client sn_integration_client h
      = (Returned VNone, ev1 ++ ev2 ++ ev3)
      /\ client_calls ev3 = map (attach_call ticket_sys_id) items
      /\ (forall r, In r (http_requests ev3) ->
                    is_upload_request sn_api_client r = true))
  /\ (forall attachment_info path h',
        In attachment_info items ->
        entry_path attachment_info = Some path ->
        upload_fails sn_api_client e "sc_req_item" ticket_sys_id path h' = true ->
        let run := ServiceNowClient.add_attachment sn_api_client e "sc_req_item"
                     ticket_sys_id (VStr path) h' in
        fst run = Returned VNone
        /\ In (upload_failure_record "sc_req_item" ticket_sys_id path) (snd run)).
Proof.
  intros Hp Hc Ht Hsid Hu Ha Hall. split.
  - destruct (create_ticket_run self e sn_api_client sn_integration_client h create
                ticket_base ev1 ticket_sys_id updated ev2 items Hp Hc Ht Hsid Hu Ha Hall)
      as (ev3 & Hrun & _ & Hcalls & Hphase).
    exists ev3. split; [exact Hrun|]. split; [exact Hcalls|].
    apply phase3_requests. exact Hphase.
  - intros info path h' Hin Hpath Hfail.
    apply add_attachment_failure.
    + apply (update_ticket_returned _ _ _ _ _ _ _ _ Hu).
    + pose proof (proj1 (forallb_forall _ _) Hall info Hin) as Hup.
      unfold uploadable in Hup. rewrite Hpath in Hup. exact Hup.
    + exact Hfail.
Qed.

Lemma attachment_failures_do_not_abort_witness :
  let self := make_template VNone daily
                (VList [attachment "checklist.txt" true; attachment "report.pdf" false]) in
  let e := env_two_files server_rejects_uploads in
  let run := TicketTemplate.create_ticket self e example_client None [] in
  fst run = Returned VNone
  /\ client_calls (snd run)
     = [phase1_call self;
        CallUpdate "sc_req_item" (VStr "46d44a5dc0a8010e") (details_payload self);
        CallAttach "sc_req_item" (VStr "46d44a5dc0a8010e") (VStr "checklist.txt");
        CallAttach "sc_req_item" (VStr "46d44a5dc0a8010e") (VStr "report.pdf")]
  /\ In (upload_failure_record "sc_req_item" (VStr "46d44a5dc0a8010e") "checklist.txt")
       (snd run)
  /\ In (upload_failure_record "sc_req_item" (VStr "46d44a5dc0a8010e") "report.pdf")
       (snd run).
Proof.
  intros self e run.
  edestruct (attachment_failures_do_not_abort self e example_client None []
               (TicketTemplate._create_via_api self e example_client))
    as [(ev3 & Hrun & Hcalls & _) _].
  - reflexivity.
  - vm_compute. reflexivity.
  - reflexivity.
  - reflexivity.
  - vm_compute. reflexivity.
  - reflexivity.
  - reflexivity.
  - split; [subst run; rewrite Hrun; reflexivity|].
    split; [vm_compute; reflexivity|].
    split; vm_compute; repeat first [left; reflexivity | right].
Defined.

(** C2 as stated fails when the file of an entry no longer exists at upload
    time: phases 1 and 2 are performed, [add_attachment] raises
    [FileNotFoundError] for ["missing.txt"], [create_ticket] raises with it,
    and the entry after it is never uploaded. *)
Lemma attachment_failure_can_abort :
  let self := make_template VNone daily
                (VList [attachment "missing.txt" true; attachment "checklist.txt" true]) in
  let run := TicketTemplate.create_ticket self (env_with server_ok) example_client
               None [] in
  fst run = Raised (FileNotFoundError "missing.txt")
  /\ client_calls (snd run)
     = [phase1_call self;
        CallUpdate "sc_req_item" (VStr "46d44a5dc0a8010e") (details_payload self);
        CallAttach "sc_req_item" (VStr "46d44a5dc0a8010e") (VStr "missing.txt")]
  /\ List.length (http_requests (snd run)) = 2%nat.
Proof. repeat split; vm_compute; reflexivity. Qed.

(** ** The three calls of create_ticket *)

Lemma validate_schedule_from_empty schedule current_errors errs :
  TicketTemplate.validate_schedule schedule current_errors = Returned errs ->
  exists errs0, TicketTemplate.validate_schedule schedule [] = Returned errs0.
Proof.
  unfold TicketTemplate.validate_schedule.
  destruct (negb (py_truthy schedule)); [eexists; reflexivity|].
  destruct schedule; try discriminate. intros _.
  repeat match goal with
         | |- context [if ?b then _ else _] => destruct b
         end; eexists; reflexivity.
Qed.

(** A template that [validate_structure] has returned holds only retained
    attachment entries. *)
Lemma validate_structure_returned e self0 h0 b self ev0 :
  TicketTemplate.validate_structure e self0 h0 = (Returned (b, self), ev0) ->
  exists items0,
    TicketTemplate.attachments self = VList (filter (retained e) items0).
Proof.
  intro H.
  assert (Hs : exists errs0,
             TicketTemplate.validate_schedule (TicketTemplate.schedule self0) []
             = Returned errs0).
  { unfold TicketTemplate.validate_structure in H.
    match type of H with
    | context [TicketTemplate.validate_schedule ?s ?ce] =>
        destruct (TicketTemplate.validate_schedule s ce) as [errs|x] eqn:E
    end.
    - apply (validate_schedule_from_empty _ _ _ E).
    - discriminate H. }
  destruct Hs as [errs0 Hs].
  assert (Hi : exists items0,
             py_iter (TicketTemplate.attachments self0) = Returned items0).
  { unfold TicketTemplate.validate_structure in H.
    rewrite (validate_schedule_acc _ _ _ Hs) in H.
    destruct (py_iter (TicketTemplate.attachments self0)) as [items0|x].
    - exists items0. reflexivity.
    - discriminate H. }
  destruct Hi as [items0 Hi]. exists items0.
  rewrite (validate_structure_run e self0 errs0 items0 h0 Hs Hi) in H.
  destruct (is_empty _); injection H as _ <- _; reflexivity.
Qed.

Lemma retained_uploadable e attachment_info :
  retained e attachment_info = true -> uploadable e attachment_info = true.
Proof.
  unfold retained, uploadable, entry_path, os_path_isfile, os_path_exists.
  destruct attachment_info; try discriminate.
  destruct (dict_get entries "path" VNone); try discriminate.
  destruct (dict_get entries "required" VNone); try discriminate.
  destruct (negb (s =? "")%string); [|discriminate]. simpl.
  destruct (fs e s); try discriminate; reflexivity.
Qed.

(** C1, as amended: for a template that [validate_structure] accepted, that
    is due, and that retains exactly one attachment, if the creation path
    chosen in phase 1 returns a record and the update call of phase 2
    returns, then [create_ticket] makes exactly three client calls, in this
    order: the creation call of the chosen path, one update of
    [short_description] and [description] on the record's [sys_id], one
    upload of the retained file.  This holds on both creation paths, and
    [create_ticket] returns [None]. *)
Theorem create_ticket_three_calls
  e self0 h0 ev0 self today sn_api_client sn_integration_client h
  create ticket_base ev1 ticket_sys_id updated ev2 attachment_info :
  TicketTemplate.validate_structure e self0 h0 = (Returned (true, self), ev0) ->
  TicketTemplate.is_due self today = Returned true ->
  TicketTemplate.attachments self = VList [attachment_info] ->
  phase1 self e sn_api_client sn_integration_client = Some create ->
  create h = (Returned ticket_base, ev1) ->
  py_truthy ticket_base = true ->
  py_get ticket_base "sys_id" VNone = Returned ticket_sys_id ->
  ServiceNowClient.update_ticket sn_api_client e "sc_req_item" ticket_sys_id
    (details_payload self) (h ++ ev1) = (Returned updated, ev2) ->
  exists path evs,
    entry_path attachment_info = Some path
    /\ TicketTemplate.create_ticket self e sn_api_client sn_integration_client h
       = (Returned VNone, evs)
    /\ client_calls evs
       = [phase1_call self;
          CallUpdate "sc_req_item" ticket_sys_id (details_payload self);
          CallAttach "sc_req_item" ticket_sys_id (VStr path)].
Proof.
  intros Hv _ Ha Hp Hc Ht Hsid Hu.
  destruct (validate_structure_returned _ _ _ _ _ _ Hv) as [items0 Hkept].
  rewrite Ha in Hkept. injection Hkept as Hkept.
  assert (Hret : retained e attachment_info = true).
  { assert (Hin : In attachment_info (filter (retained e) items0))
      by (rewrite <- Hkept; left; reflexivity).
    apply filter_In in Hin. exact (proj2 Hin). }
  pose proof (retained_uploadable _ _ Hret) as Hup.
  assert (Hall : forallb (uploadable e) [attachment_info] = true)
    by (simpl; rewrite Hup; reflexivity).
  destruct (uploadable_entry _ _ Hup) as (path & Hpath & Hget & _).
  destruct (create_ticket_run self e sn_api_client sn_integration_client h create
              ticket_base ev1 ticket_sys_id updated ev2 [attachment_info]
              Hp Hc Ht Hsid Hu Ha Hall)
    as (ev3 & Hrun & Hcalls & _).
  exists path, (ev1 ++ ev2 ++ ev3).
  split; [exact Hpath|]. split; [exact Hrun|].
  rewrite Hcalls. simpl. unfold attach_call.
  unfold entry_path in Hpath. destruct attachment_info; try discriminate.
  destruct (dict_get entries "path" VNone); try discriminate.
  injection Hpath as ->. reflexivity.
Qed.

(** Both creation paths, on a server where every call succeeds. *)
Lemma create_ticket_three_calls_witness :
  (exists path evs,
      entry_path (attachment "checklist.txt" true) = Some path
      /\ TicketTemplate.create_ticket
           (make_template (VBool true) daily (VList [attachment "checklist.txt" true]))
           (env_with server_ok) example_client (Some example_integration_client) []
         = (Returned VNone, evs)
      /\ client_calls evs
         = [CallCreateIntegration (VStr "Operations") (VStr "Scheduled ticket")
              (VStr "Scheduled ticket");
            CallUpdate "sc_req_item" (VStr "46d44a5dc0a8010e")
              (details_payload
                 (make_template (VBool true) daily
                    (VList [attachment "checklist.txt" true])));
            CallAttach "sc_req_item" (VStr "46d44a5dc0a8010e") (VStr path)])
  /\ (exists path evs,
      entry_path (attachment "checklist.txt" true) = Some path
      /\ TicketTemplate.create_ticket
           (make_template VNone daily (VList [attachment "checklist.txt" true]))
           (env_with server_ok) example_client (Some example_integration_client) []
         = (Returned VNone, evs)
      /\ client_calls evs
         = [CallCreateApi (VStr "Operations") (VStr "Scheduled ticket")
              (VStr "Scheduled ticket");
            CallUpdate "sc_req_item" (VStr "46d44a5dc0a8010e")
              (details_payload
                 (make_template VNone daily
                    (VList [attachment "checklist.txt" true])));
            CallAttach "sc_req_item" (VStr "46d44a5dc0a8010e") (VStr path)]).
Proof.
  split.
  - eapply (create_ticket_three_calls (env_with server_ok)
              (make_template (VBool true) daily (VList [attachment "checklist.txt" true]))
              [] _
              (make_template (VBool true) daily (VList [attachment "checklist.txt" true]))
              tuesday example_client (Some example_integration_client) []
              (TicketTemplate._create_via_integration_helper
                 (make_template (VBool true) daily
                    (VList [attachment "checklist.txt" true]))
                 (env_with server_ok) example_integration_client)).
    + vm_compute. reflexivity.
    + vm_compute. reflexivity.
    + reflexivity.
    + reflexivity.
    + vm_compute. reflexivity.
    + reflexivity.
    + reflexivity.
    + vm_compute. reflexivity.
  - eapply (create_ticket_three_calls (env_with server_ok)
              (make_template VNone daily (VList [attachment "checklist.txt" true]))
              [] _
              (make_template VNone daily (VList [attachment "checklist.txt" true]))
              tuesday example_client (Some example_integration_client) []
              (TicketTemplate._create_via_api
                 (make_template VNone daily (VList [attachment "checklist.txt" true]))
                 (env_with server_ok) example_client)).
    + vm_compute. reflexivity.
    + vm_compute. reflexivity.
    + reflexivity.
    + reflexivity.
    + vm_compute. reflexivity.
    + reflexivity.
    + reflexivity.
    + vm_compute. reflexivity.
Defined.

(** C1 as stated fails.  The template is valid, due, and retains one
    attachment.  In the first run the integration helper creates the item
    on the server, the lookup that follows times out, and [create_ticket]
    returns [False] after the one creation call: no update, no upload.  In
    the second run the standard API returns a record without [sys_id]: the
    update call raises [ValueError] before sending anything and no upload
    follows. *)
Lemma create_ticket_three_calls_fails :
  let self := make_template (VBool true) daily (VList [attachment "checklist.txt" true]) in
  let self' := make_template VNone daily (VList [attachment "checklist.txt" true]) in
  let run := TicketTemplate.create_ticket self (env_with server_lookup_times_out)
               example_client (Some example_integration_client) [] in
  let run' := TicketTemplate.create_ticket self' (env_with server_without_sys_id)
                example_client None [] in
  fst (TicketTemplate.validate_structure (env_with server_lookup_times_out) self [])
  = Returned (true, self)
  /\ TicketTemplate.is_due self tuesday = Returned true
  /\ fst run = Returned (VBool false)
  /\ client_calls (snd run)
     = [CallCreateIntegration (VStr "Operations") (VStr "Scheduled ticket")
          (VStr "Scheduled ticket")]
  /\ map method (http_requests (snd run)) = ["POST"; "GET"]
  /\ fst (TicketTemplate.validate_structure (env_with server_without_sys_id) self' [])
     = Returned (true, self')
  /\ TicketTemplate.is_due self' tuesday = Returned true
  /\ fst run' = Raised (ValueError "Sys ID must be provided for updating a ticket.")
  /\ client_calls (snd run')
     = [CallCreateApi (VStr "Operations") (VStr "Scheduled ticket")
          (VStr "Scheduled ticket");
        CallUpdate "sc_req_item" VNone (details_payload self')]
  /\ map method (http_requests (snd run')) = ["POST"].
Proof. repeat split; vm_compute; reflexivity. Qed.

(** ** is_due *)

Lemma weekday_range today : 0 <= datetime.weekday today < 7.
Proof. unfold datetime.weekday. apply Z.mod_pos_bound. lia. Qed.

Lemma int_match n v :
  isinstance_bool v = false ->
  (isinstance_int v && py_eq_int n v = true <-> v = VInt n).
Proof.
  intro Hb. destruct v; simpl in *; try discriminate;
    try (split; [discriminate|discriminate]).
  rewrite Z.eqb_eq. split; [intros ->; reflexivity|intro E; injection E as ->; reflexivity].
Qed.

(** What [is_due] computes on a schedule mapping whose day fields are not
    booleans: the rule of each frequency, [False] for any other or missing
    frequency, and never an exception. *)
Lemma is_due_without_booleans self sched today :
  TicketTemplate.schedule self = VDict sched ->
  let frequency := dict_get sched "frequency" VNone in
  let day_of_week := dict_get sched "day_of_week" VNone in
  let day_of_month := dict_get sched "day_of_month" VNone in
  let months := dict_get sched "months" VNone in
  exists b,
    TicketTemplate.is_due self today = Returned b
    /\ (frequency = VStr "daily" ->
        (b = true <-> 0 <= datetime.weekday today <= 4))
    /\ (frequency = VStr "weekly" -> isinstance_bool day_of_week = false ->
        (b = true <-> day_of_week = VInt (datetime.weekday today)))
    /\ (frequency = VStr "monthly" -> isinstance_bool day_of_month = false ->
        (b = true <-> day_of_month = VInt (datetime.day today)))
    /\ (frequency = VStr "quarterly" -> isinstance_bool day_of_month = false ->
        (b = true <->
         (exists ms, months = VList ms
                     /\ existsb (py_eq_int (datetime.month today)) ms = true)
         /\ day_of_month = VInt (datetime.day today)))
    /\ (existsb (fun a => py_eq_str a frequency) TicketTemplate.allowed_frequencies
        = false -> b = false).
Proof.
  intros Hs frequency day_of_week day_of_month months.
  unfold TicketTemplate.is_due. rewrite Hs. cbv zeta.
  fold frequency day_of_week day_of_month months.
  pose proof (weekday_range today) as Hw.
  assert (Hlast : forall b : bool,
             (py_eq_str "daily" frequency || py_eq_str "weekly" frequency
              || py_eq_str "monthly" frequency || py_eq_str "quarterly" frequency = true) ->
             existsb (fun a => py_eq_str a frequency) TicketTemplate.allowed_frequencies
             = false -> b = false).
  { intros b Hor. simpl. rewrite orb_false_r, !orb_assoc, Hor. discriminate. }
  destruct (py_eq_str "daily" frequency) eqn:E1;
    [|destruct (py_eq_str "weekly" frequency) eqn:E2;
      [|destruct (py_eq_str "monthly" frequency) eqn:E3;
        [|destruct (py_eq_str "quarterly" frequency) eqn:E4]]];
    (eexists; split; [reflexivity|]);
    (split; [|split; [|split; [|split]]]);
    try (apply Hlast; reflexivity);
    try (intros Hf; rewrite Hf in *; simpl in *; discriminate);
    try (intros Hf Hb; rewrite Hf in *; simpl in *; discriminate).
  - intros _. rewrite Z.ltb_lt. lia.
  - intros _ Hb. apply int_match. exact Hb.
  - intros _ Hb. apply int_match. exact Hb.
  - intros _ Hb.
    destruct months as [| | | | | |ms|]; simpl;
      try (split; [discriminate|intros [(ms' & E & _) _]; discriminate]).
    rewrite andb_true_iff, andb_true_iff.
    pose proof (int_match (datetime.day today) day_of_month Hb) as Hi.
    rewrite andb_true_iff in Hi. split.
    + intros [[Hint Hex] Heq]. split; [exists ms; auto|]. apply Hi. auto.
    + intros [(ms' & E & Hex) Hd]. injection E as <-.
      apply Hi in Hd. destruct Hd as [Hint Heq]. auto.
  - intros _. reflexivity.
Qed.

(** The rule for [daily], for every date: Monday to Friday. *)
Lemma is_due_daily self sched today :
  TicketTemplate.schedule self = VDict sched ->
  dict_get sched "frequency" VNone = VStr "daily" ->
  TicketTemplate.is_due self today = Returned (datetime.weekday today <? 5).
Proof.
  intros Hs Hf. unfold TicketTemplate.is_due. rewrite Hs. cbv zeta. rewrite Hf.
  reflexivity.
Qed.

(** [is_due] raises when [schedule] is not a mapping. *)
Example is_due_schedule_not_a_mapping :
  TicketTemplate.is_due (make_template VNone (VStr "daily") (VList [])) tuesday
  = Raised AttributeError.
Proof. reflexivity. Qed.

(** C5 does not hold on the code: a boolean passes [isinstance(..., int)].
    The template [weekly_on_true] (frequency weekly, [day_of_week = true])
    is accepted by [validate_structure], and on a Tuesday (weekday index 1)
    [is_due] returns [True], although [day_of_week] is not an integer; the
    malformed value does not evaluate to [False]. *)
Theorem is_due_accepts_boolean_day_of_week :
  datetime.weekday tuesday = 1
  /\ TicketTemplate.schedule weekly_on_true
     = VDict [("frequency", VStr "weekly"); ("day_of_week", VBool true)]
  /\ fst (TicketTemplate.validate_structure (env_with server_ok) weekly_on_true [])
     = Returned (true, weekly_on_true)
  /\ TicketTemplate.is_due weekly_on_true tuesday = Returned true
  /\ TicketTemplate.is_due weekly_on_true saturday = Returned false.
Proof. repeat split; vm_compute; reflexivity. Qed.

(** * Further properties *)

(** ** Runs of composed computations *)

Lemma fst_bind {A B} (m : M A) (f : A -> M B) h :
  fst (bind m f h)
  = match fst (m h) with
    | Returned a => fst (f a (h ++ snd (m h)))
    | Raised x => Raised x
    end.
Proof.
  unfold bind. destruct (m h) as [[a|x] ev1]; simpl; [|reflexivity].
  destruct (f a (h ++ ev1)); reflexivity.
Qed.

Lemma requests_bind {A B} (m : M A) (f : A -> M B) h :
  http_requests (snd (bind m f h))
  = http_requests (snd (m h))
    ++ match fst (m h) with
       | Returned a => http_requests (snd (f a (h ++ snd (m h))))
       | Raised _ => []
       end.
Proof.
  unfold bind. destruct (m h) as [[a|x] ev1]; simpl.
  - destruct (f a (h ++ ev1)); simpl. apply http_requests_app.
  - symmetry. apply app_nil_r.
Qed.

Lemma requests_no_http (evs : list event) :
  forallb not_http evs = true -> http_requests evs = [].
Proof.
  induction evs as [|ev evs IH]; simpl; [reflexivity|].
  destruct ev; simpl; intro H; try discriminate; apply IH; exact H.
Qed.

Lemma requests_then_no_http {A B} (m : M A) (f : A -> M B) rs :
  (forall h, http_requests (snd (m h)) = rs) ->
  (forall a, emits not_http (f a)) ->
  forall h, http_requests (snd (bind m f h)) = rs.
Proof.
  intros Hm Hf h. rewrite requests_bind, Hm.
  destruct (fst (m h)); [|apply app_nil_r].
  rewrite (requests_no_http _ (Hf a _)). apply app_nil_r.
Qed.

Lemma requests_no_http_then {A B} (m : M A) (f : A -> M B) rs :
  emits not_http m ->
  total m ->
  (forall a h, http_requests (snd (f a h)) = rs) ->
  forall h, http_requests (snd (bind m f h)) = rs.
Proof.
  intros Hm Ht Hf h. rewrite requests_bind, (requests_no_http _ (Hm h)).
  destruct (Ht h) as [a Ha]. rewrite Ha. apply Hf.
Qed.

(** ** The request executor *)

Lemma _execute_http_request_run e method request_url params payload data headers h :
  let req := {| method := method; req_url := request_url; params := params;
                json_payload := payload; data := data; headers := headers |} in
  let run := ServiceNowClient._execute_http_request e method request_url params
               payload data headers h in
  http_requests (snd run) = [req]
  /\ match fst run with
     | Returned v => py_truthy v = negb (failed_outcome (respond e h req))
                     /\ (forall x, respond e h req <> Fault x)
     | Raised x => respond e h req = Fault x
     end.
Proof.
  intros req run. subst run.
  unfold ServiceNowClient._execute_http_request. fold req.
  unfold logging. unfold bind, history, emit, ret, raise. cbv beta iota.
  rewrite app_nil_r.
  destruct (respond e h req) as [status body| | | |x]; simpl;
    try (split; [reflexivity|split; [reflexivity|discriminate]]).
  - destruct (ServiceNowClient.is_error_status status); simpl.
    + destruct body; simpl; (split; [reflexivity|split; [reflexivity|discriminate]]).
    + destruct (status =? 204); simpl;
        [split; [reflexivity|split; [reflexivity|discriminate]]|].
      destruct body; simpl; (split; [reflexivity|split; [|discriminate]]);
        try reflexivity.
      rewrite negb_involutive. reflexivity.
  - split; reflexivity.
Qed.

(** X1: [_execute_http_request] sends exactly one request, whatever the
    outcome, and never a second one.  It raises only when the transport
    raises an exception outside the [requests] hierarchy; otherwise it
    returns, and the value is truthy exactly when the request did not fail
    (no error status, no transport error, a body that decodes to a truthy
    value, or no body at all). *)
Theorem _execute_http_request_contract e method request_url params payload data headers h :
  let req := {| method := method; req_url := request_url; params := params;
                json_payload := payload; data := data; headers := headers |} in
  let run := ServiceNowClient._execute_http_request e method request_url params
               payload data headers h in
  http_requests (snd run) = [req]
  /\ match fst run with
     | Returned v => py_truthy v = negb (failed_outcome (respond e h req))
                     /\ (forall x, respond e h req <> Fault x)
     | Raised x => respond e h req = Fault x
     end.
Proof.
  intros req run. subst run.
  unfold ServiceNowClient._execute_http_request. fold req.
  unfold logging. unfold bind, history, emit, ret, raise. cbv beta iota.
  rewrite app_nil_r.
  destruct (respond e h req) as [status body| | | |x]; simpl;
    try (split; [reflexivity|split; [reflexivity|discriminate]]).
  - destruct (ServiceNowClient.is_error_status status); simpl.
    + destruct body; simpl; (split; [reflexivity|split; [reflexivity|discriminate]]).
    + destruct (status =? 204); simpl;
        [split; [reflexivity|split; [reflexivity|discriminate]]|].
      destruct body; simpl; (split; [reflexivity|split; [|discriminate]]);
        try reflexivity.
      rewrite negb_involutive. reflexivity.
  - split; reflexivity.
Qed.

Lemma _execute_http_request_requests e method request_url params payload data headers h :
  http_requests
    (snd (ServiceNowClient._execute_http_request e method request_url params payload
            data headers h))
  = [{| method := method; req_url := request_url; params := params;
        json_payload := payload; data := data; headers := headers |}].
Proof. apply _execute_http_request_run. Qed.

Lemma _make_request_requests self e method seg params payload h :
  http_requests (snd (ServiceNowClient._make_request self e method seg params payload h))
  = [api_request self method seg params payload].
Proof. apply _execute_http_request_requests. Qed.

Lemma _execute_http_request_json e method request_url params payload data headers h v :
  json_response
    (respond e h {| method := method; req_url := request_url; params := params;
                    json_payload := payload; data := data; headers := headers |}) v ->
  ServiceNowClient._execute_http_request e method request_url params payload data
    headers h
  = (Returned v,
     [EvHttp {| method := method; req_url := request_url; params := params;
                json_payload := payload; data := data; headers := headers |}]).
Proof.
  intros (status & Ho & He & H204).
  unfold ServiceNowClient._execute_http_request.
  unfold bind, history, emit, ret. cbv beta iota. rewrite app_nil_r, Ho, He, H204.
  reflexivity.
Qed.

Ltac no_http_step :=
  first
    [ apply emits_ret | apply emits_raise | apply emits_lift | apply emits_history
    | apply emits_emit; reflexivity
    | apply emits_bind; [|intro]
    | apply emits_try_except; [|intro]
    | apply emits_and_then
    | match goal with
      | |- emits _ (if ?b then _ else _) => destruct b
      | |- emits _ (match ?x with _ => _ end) => destruct x
      | |- emits _ (logging _ _) => apply emits_emit; reflexivity
      end ].

(** ** The creation methods of the standard client *)

(** The part of a creation method that follows the request: it returns
    [None] or the dict found under ['result']. *)
Lemma creation_result_shape (response_data : pyval) (k : pyval -> M pyval)
  (warn fail : M pyval) h v :
  (forall created h' v', fst (k created h') = Returned v' -> v' = created) ->
  (forall h' v', fst (warn h') = Returned v' -> v' = VNone) ->
  (forall h' v', fst (fail h') = Returned v' -> v' = VNone) ->
  fst ((is_record <-
          and_then (py_truthy response_data)
            (has_result <- lift (py_contains_str "result" response_data) ;;
             and_then has_result
               (r <- lift (py_getitem_str response_data "result") ;;
                ret (isinstance_dict r))) ;;
        if is_record then
          created_record <- lift (py_getitem_str response_data "result") ;;
          k created_record
        else if py_truthy response_data then warn else fail) h) = Returned v ->
  None_or_dict v.
Proof.
  intros Hk Hw Hf.
  rewrite fst_bind.
  destruct (py_truthy response_data) eqn:Ht; simpl.
  - rewrite fst_bind. unfold lift at 1. cbn [fst snd].
    destruct (py_contains_str "result" response_data) as [[|]|x] eqn:Hc;
      cbn [and_then]; try discriminate.
    + rewrite fst_bind. unfold lift at 1. cbn [fst snd].
      destruct (py_getitem_str response_data "result") as [r|x] eqn:Hg;
        try discriminate.
      cbn [ret fst snd]. destruct (isinstance_dict r) eqn:Hd.
      * rewrite fst_bind. unfold lift at 1. cbn [fst snd]. intro E.
        apply Hk in E. subst v. right. exact Hd.
      * intro E. left. apply (Hw _ _ E).
    + cbn [ret fst snd]. intro E. left. apply (Hw _ _ E).
  - intro E. left. apply (Hf _ _ E).
Qed.

(** X2: the two creation methods of the standard client send exactly one
    request each, a POST of the payload to the table of the record, even
    when the answer is unusable; and whenever they return, the value is
    [None] or a dict (the object under ['result']), never another shape. *)
Theorem creation_methods_contract
  self e area assignment_group business_service category description organization
  service_group short_description subcategory impact urgency h :
  let incident := ServiceNowClient.create_incident self e area assignment_group
                    business_service category description organization service_group
                    short_description subcategory impact urgency h in
  let item := ServiceNowClient.create_requested_item self e assignment_group
                description short_description h in
  http_requests (snd incident)
  = [api_request self "POST" [Lit "table/incident"] None
       (incident_payload self area assignment_group business_service category
          description organization service_group short_description subcategory
          impact urgency)]
  /\ http_requests (snd item)
     = [api_request self "POST" [Lit "table/sc_req_item"] None
          (requested_item_payload self assignment_group description short_description)]
  /\ match fst incident with Returned v => None_or_dict v | Raised _ => True end
  /\ match fst item with Returned v => None_or_dict v | Raised _ => True end.
Proof.
  intros incident item. subst incident item.
  assert (Hk : forall created (msg1 msg2 : string) h' v',
             fst ((number <- lift (py_get created "number" (VStr "N/A")) ;;
                   record_identifier <- lift (py_get created "sys_id" number) ;;
                   logging INFO [Lit msg1; Lit msg2; Val record_identifier] ;;
                   ret created) h') = Returned v' -> v' = created).
  { intros created msg1 msg2. 
    apply (yields_bind (fun v' => v' = created)); intro.
    apply yields_bind; intro. apply yields_bind; intro.
    apply yields_ret. reflexivity. }
  assert (Hn : forall lvl msg h' v',
             fst ((logging lvl msg ;; ret VNone) h') = Returned v' -> v' = VNone).
  { intros lvl msg. apply (yields_bind (fun v' => v' = VNone)); intro.
    apply yields_ret. reflexivity. }
  split; [|split; [|split]].
  - unfold ServiceNowClient.create_incident. cbv zeta.
    fold (incident_payload self area assignment_group business_service category
            description organization service_group short_description subcategory
            impact urgency).
    rewrite requests_bind. simpl. rewrite requests_bind. simpl.
    apply requests_then_no_http.
    + intro h'. apply _make_request_requests.
    + intro rd. repeat no_http_step.
  - unfold ServiceNowClient.create_requested_item. cbv zeta.
    fold (requested_item_payload self assignment_group description short_description).
    rewrite requests_bind. simpl. rewrite requests_bind. simpl.
    rewrite requests_bind. simpl.
    apply requests_then_no_http.
    + intro h'. apply _make_request_requests.
    + intro rd. repeat no_http_step.
  - destruct (fst (ServiceNowClient.create_incident _ _ _ _ _ _ _ _ _ _ _ _ _ _)) as [v|x] eqn:E;
      [|exact I].
    unfold ServiceNowClient.create_incident in E. cbv zeta in E.
    rewrite fst_bind in E. simpl in E. rewrite fst_bind in E. simpl in E.
    rewrite fst_bind in E.
    destruct (fst (ServiceNowClient._make_request _ _ _ _ _ _ _)) as [rd|x]; [|discriminate].
    eapply creation_result_shape; [| | |exact E].
    + intros created h' v'. apply Hk.
    + apply Hn.
    + apply Hn.
  - destruct (fst (ServiceNowClient.create_requested_item _ _ _ _ _ _)) as [v|x] eqn:E;
      [|exact I].
    unfold ServiceNowClient.create_requested_item in E. cbv zeta in E.
    rewrite fst_bind in E. simpl in E. rewrite fst_bind in E. simpl in E.
    rewrite fst_bind in E. simpl in E. rewrite fst_bind in E.
    destruct (fst (ServiceNowClient._make_request _ _ _ _ _ _ _)) as [rd|x]; [|discriminate].
    eapply creation_result_shape; [| | |exact E].
    + intros created h' v'. apply Hk.
    + apply Hn.
    + apply Hn.
Qed.

(** ** Lookups *)

Lemma _get_record_requests self e table_name sys_id query fields limit h :
  http_requests
    (snd (ServiceNowClient._get_record self e table_name sys_id query fields limit h))
  = option_list (record_request self table_name sys_id query fields limit).
Proof.
  unfold ServiceNowClient._get_record, record_request, record_params.
  destruct (table_name =? "")%string; [reflexivity|].
  cbv zeta. rewrite requests_bind.
  destruct (py_truthy sys_id) eqn:Hs.
  - cbn [ret fst snd http_requests app].
    destruct fields as [[|f fs']|]; destruct limit as [n|]; cbn [fields_param app];
      (apply requests_then_no_http;
       [intro h'; apply _make_request_requests|intro rd; repeat no_http_step]).
  - destruct query as [q|]; [|reflexivity].
    destruct (ServiceNowClient.fstring_truthy (Some q)); [|reflexivity].
    cbn [ret fst snd http_requests app].
    destruct fields as [[|f fs']|]; destruct limit as [n|]; cbn [fields_param app];
      (apply requests_then_no_http;
       [intro h'; apply _make_request_requests|intro rd; repeat no_http_step]).
Qed.

Lemma lookup_by_sys_id_record self table_name sys_id fields :
  (table_name =? "")%string = false ->
  py_truthy sys_id = true ->
  record_request self table_name sys_id None fields None
  = Some (lookup_by_sys_id self table_name sys_id fields).
Proof.
  intros Ht Hs. unfold record_request, lookup_by_sys_id, record_params.
  rewrite Ht, Hs. simpl. rewrite app_nil_r. reflexivity.
Qed.

Lemma lookup_by_number_record self table_name number fields :
  (table_name =? "")%string = false ->
  record_request self table_name VNone (Some [Lit "number="; Val number]) fields (Some 1)
  = Some (lookup_by_number self table_name number fields).
Proof.
  intros Ht. unfold record_request, lookup_by_number, record_params.
  rewrite Ht. reflexivity.
Qed.

(** X3: [_find_record], which [get_incident], [get_requested_item],
    [get_catalog_task] and [get_service_request] call with their table.
    Without a [sys_id] and without a [number] it raises [ValueError] and
    sends nothing.  With a [sys_id] it sends exactly one request, the GET of
    that record, and ignores [number].  With a [number] only, it sends
    exactly one request: the query [number=...] limited to one record. *)
Theorem _find_record_requests self e table_name sys_id number fields h :
  (table_name =? "")%string = false ->
  let run := ServiceNowClient._find_record self e table_name sys_id number fields h in
  (py_truthy sys_id = false -> py_truthy number = false ->
   fst run = Raised (ValueError "Either sys_id or number must be provided to find a record.")
   /\ http_requests (snd run) = [])
  /\ (py_truthy sys_id = true ->
      http_requests (snd run) = [lookup_by_sys_id self table_name sys_id fields])
  /\ (py_truthy sys_id = false -> py_truthy number = true ->
      http_requests (snd run) = [lookup_by_number self table_name number fields]).
Proof.
  intros Ht run. subst run. unfold ServiceNowClient._find_record.
  split; [|split].
  - intros -> ->. split; reflexivity.
  - intros Hs. rewrite Hs. cbn [negb andb].
    apply requests_then_no_http; [|intro rd; repeat no_http_step].
    intro h'. rewrite requests_bind. cbn [logging emit fst snd http_requests app].
    rewrite _get_record_requests, (lookup_by_sys_id_record _ _ _ _ Ht Hs). reflexivity.
  - intros Hs Hn. rewrite Hs, Hn. cbn [negb andb].
    apply requests_then_no_http; [|intro rd; repeat no_http_step].
    intro h'. rewrite requests_bind. cbn [logging emit fst snd http_requests app].
    cbv zeta.
    apply requests_then_no_http; [|intro rd; repeat no_http_step].
    intro h''. rewrite _get_record_requests, (lookup_by_number_record _ _ _ _ Ht).
    reflexivity.
Qed.

Lemma _find_record_requests_witness :
  http_requests
    (snd (ServiceNowClient.get_incident example_client (env_with server_ok)
            (VStr "INC0010001") (VStr "46d44a5dc0a8010e") None []))
  = [lookup_by_sys_id example_client "incident" (VStr "46d44a5dc0a8010e") None]
  /\ http_requests
       (snd (ServiceNowClient.get_catalog_task example_client (env_with server_ok)
               (VStr "SCTASK0010001") VNone (Some ["number"; "state"]) []))
     = [lookup_by_number example_client "sc_task" (VStr "SCTASK0010001")
          (Some ["number"; "state"])]
  /\ fst (ServiceNowClient.get_service_request example_client (env_with server_ok)
            VNone (VStr "") None [])
     = Raised (ValueError "Either sys_id or number must be provided to find a record.").
Proof.
  split; [|split].
  - apply (_find_record_requests example_client (env_with server_ok) "incident"
             (VStr "46d44a5dc0a8010e") (VStr "INC0010001") None [] eq_refl).
    reflexivity.
  - apply (_find_record_requests example_client (env_with server_ok) "sc_task"
             VNone (VStr "SCTASK0010001") (Some ["number"; "state"]) [] eq_refl);
      reflexivity.
  - apply (_find_record_requests example_client (env_with server_ok) "sc_request"
             VNone (VStr "") None [] eq_refl); reflexivity.
Defined.

Lemma _get_record_by_query self e table_name fields limit h q :
  (table_name =? "")%string = false ->
  ServiceNowClient.fstring_truthy (Some q) = true ->
  let req := api_request self "GET" [Lit "table/"; Lit table_name]
               (Some (record_params (Some q) false fields limit)) VNone in
  let r := fst (ServiceNowClient._get_record self e table_name VNone (Some q) fields
                  limit h) in
  (forall d found,
      json_response (respond e h req) (VDict d) ->
      lookup "result" d = Some found -> r = Returned found)
  /\ (failed_outcome (respond e h req) = true ->
      (forall x, respond e h req <> Fault x) -> r = Returned VNone).
Proof.
  intros Ht Hqt req r. subst r. unfold req. clear req.
  unfold ServiceNowClient._get_record. rewrite Ht. cbv zeta.
  rewrite fst_bind. cbn [py_truthy]. cbv iota. rewrite Hqt.
  cbn [ret fst snd]. rewrite app_nil_r.
  unfold api_request, record_params, ServiceNowClient._make_request.
  destruct fields as [[|f fs']|]; destruct limit as [n|];
    cbn [fields_param app];
    (split;
     [ intros d found Hj Hres; rewrite fst_bind; unfold fstring in *;
       rewrite (_execute_http_request_json e _ _ _ _ _ _ h (VDict d) Hj);
       cbn [fst snd];
       (destruct d as [|kv d']; [discriminate Hres|]);
       cbn [py_truthy]; rewrite fst_bind; unfold lift at 1;
       cbn [fst snd py_contains_str];
       rewrite Hres; cbn [py_truthy negb andb]; cbv iota;
       rewrite fst_bind; unfold lift at 1; cbn [fst snd py_getitem_str];
       rewrite Hres; reflexivity
     | intros Hf Hnf; rewrite fst_bind; unfold fstring in *;
       match goal with
       | |- context [ServiceNowClient._execute_http_request ?e' ?m ?u ?p ?pl ?d ?hd ?h'] =>
           pose proof (_execute_http_request_run e' m u p pl d hd h') as Hc;
           cbv zeta in Hc; destruct Hc as [_ Hc];
           destruct (fst (ServiceNowClient._execute_http_request e' m u p pl d hd h'))
             as [v|x];
           [destruct Hc as [Hv _]; unfold fstring in *; rewrite Hf in Hv; simpl in Hv; rewrite Hv;
            rewrite fst_bind; reflexivity
           |exfalso; apply (Hnf x Hc)]
       end ]).
Qed.

(** X4: the lookup by [number].  When the server answers the query with a
    JSON object whose ['result'] is a non-empty list, [_find_record]
    returns the first record of that list; when the list is empty, and when
    the request fails (error status, transport error, unusable body), it
    returns [None]. *)
Theorem _find_record_by_number self e table_name sys_id number fields h :
  (table_name =? "")%string = false ->
  py_truthy sys_id = false ->
  py_truthy number = true ->
  let o := respond e
             (h ++ [EvLog DEBUG [Lit "Fetching record from '"; Lit table_name;
                                 Lit "' by number: '"; Val number; Lit "'"]])
             (lookup_by_number self table_name number fields) in
  let r := fst (ServiceNowClient._find_record self e table_name sys_id number fields h) in
  (forall d first rest,
      json_response o (VDict d) ->
      lookup "result" d = Some (VList (first :: rest)) -> r = Returned first)
  /\ (forall d,
      json_response o (VDict d) ->
      lookup "result" d = Some (VList []) -> r = Returned VNone)
  /\ (failed_outcome o = true -> (forall x, o <> Fault x) -> r = Returned VNone).
Proof.
  intros Ht Hs Hn o r. subst o r.
  unfold ServiceNowClient._find_record. rewrite Hs, Hn. cbn [negb andb].
  rewrite fst_bind, fst_bind. cbn [logging emit fst snd]. cbv zeta.
  rewrite fst_bind.
  assert (Hq : ServiceNowClient.fstring_truthy (Some [Lit "number="; Val number]) = true)
    by reflexivity.
  destruct (_get_record_by_query self e table_name fields (Some 1)
              (h ++ [EvLog DEBUG [Lit "Fetching record from '"; Lit table_name;
                                  Lit "' by number: '"; Val number; Lit "'"]])
              [Lit "number="; Val number] Ht Hq) as [Hjson Hfail].
  unfold lookup_by_number. unfold record_params in Hjson, Hfail.
  unfold fstring in *.
  split; [|split].
  - intros d first rest Hj Hres. rewrite (Hjson d _ Hj Hres). cbn [fst snd ret].
    rewrite fst_bind.
    destruct (py_truthy first); reflexivity.
  - intros d Hj Hres. rewrite (Hjson d _ Hj Hres). reflexivity.
  - intros Hf Hnf. rewrite (Hfail Hf Hnf). reflexivity.
Qed.

Lemma _find_record_by_number_witness :
  fst (ServiceNowClient.get_requested_item example_client (env_with server_ok)
         (VStr "RITM0010001") VNone None [])
  = Returned record_RITM
  /\ fst (ServiceNowClient.get_requested_item example_client (env_with server_down)
            (VStr "RITM0010001") VNone None [])
     = Returned VNone.
Proof.
  split.
  - apply (proj1 (_find_record_by_number example_client (env_with server_ok)
                    "sc_req_item" VNone (VStr "RITM0010001") None []
                    eq_refl eq_refl eq_refl)
             [("result", VList [record_RITM])] record_RITM []).
    + exists 200. repeat split.
    + reflexivity.
  - apply (proj2 (proj2 (_find_record_by_number example_client (env_with server_down)
                           "sc_req_item" VNone (VStr "RITM0010001") None []
                           eq_refl eq_refl eq_refl))).
    + reflexivity.
    + intros x. discriminate.
Defined.

(** ** update_ticket and add_attachment *)

(** X5: [update_ticket] checks its arguments before it sends anything: with
    an empty table name or without a [sys_id] it raises [ValueError] and no
    request leaves.  Otherwise exactly one request is sent, the PUT of the
    payload to the record, whatever the server answers and even if the
    answer then makes the method raise. *)
Theorem update_ticket_requests self e table_name sys_id payload h :
  let run := ServiceNowClient.update_ticket self e table_name sys_id payload h in
  if (table_name =? "")%string || negb (py_truthy sys_id) then
    http_requests (snd run) = [] /\ exists msg, fst run = Raised (ValueError msg)
  else
    http_requests (snd run) = [update_request self table_name sys_id payload].
Proof.
  intro run. subst run. unfold ServiceNowClient.update_ticket.
  rewrite requests_bind, fst_bind. cbn [emit fst snd http_requests app].
  destruct (table_name =? "")%string; cbn [orb].
  - split; [reflexivity|eexists; reflexivity].
  - destruct (py_truthy sys_id); cbn [negb].
    + rewrite requests_bind. cbn [logging emit fst snd http_requests app].
      rewrite requests_bind. cbn [logging emit fst snd http_requests app].
      cbv zeta.
      apply requests_then_no_http; [|intro rd; repeat no_http_step].
      intro h'. apply _make_request_requests.
    + split; [reflexivity|eexists; reflexivity].
Qed.

Lemma requests_try_except {A} (m : M A) (k : pyexn -> M A) h :
  http_requests (snd (try_except m k h))
  = http_requests (snd (m h))
    ++ match fst (m h) with
       | Returned _ => []
       | Raised x => http_requests (snd (k x (h ++ snd (m h))))
       end.
Proof.
  unfold try_except. destruct (m h) as [[a|x] ev1]; simpl.
  - symmetry. apply app_nil_r.
  - destruct (k x (h ++ ev1)); simpl. apply http_requests_app.
Qed.

Lemma header_lookup_set_same k v hs :
  header_lookup k (ServiceNowClient.set_header k v hs) = Some v.
Proof.
  induction hs as [|[k' v'] rest IH]; simpl.
  - rewrite String.eqb_refl. reflexivity.
  - destruct (k =? k')%string eqn:E; simpl.
    + rewrite String.eqb_refl. reflexivity.
    + rewrite E. exact IH.
Qed.

Lemma header_lookup_set_other k k' v hs :
  (k' =? k)%string = false ->
  header_lookup k' (ServiceNowClient.set_header k v hs) = header_lookup k' hs.
Proof.
  intro Hne. induction hs as [|[k0 v0] rest IH]; simpl.
  - rewrite Hne. reflexivity.
  - destruct (k =? k0)%string eqn:E; simpl.
    + apply String.eqb_eq in E. subst k0. rewrite Hne. reflexivity.
    + destruct (k' =? k0)%string; [reflexivity|exact IH].
Qed.


(** ** Journal entries *)

(** X7: [get_ticket_journal_entries].  Without a [sys_id] it raises
    [ValueError] before anything is logged or sent.  With one it sends
    exactly one request, the query of [sys_journal_field] for the comments
    and work notes of the ticket in the order asked for; what it returns is
    [None] or a list, never another shape: the list under ['result'] when
    the server answers with one, [None] when the request fails. *)
Theorem get_ticket_journal_entries_contract self e sys_id order_by_desc limit h :
  let run := ServiceNowClient.get_ticket_journal_entries self e sys_id order_by_desc
               limit h in
  let o := respond e
             (h ++ [EvLog DEBUG
                      ([Lit "Fetching journal entries for ticket sys_id '"; Val sys_id;
                        Lit "' using query: '"]
                       ++ journal_query_text sys_id order_by_desc
                       ++ [Lit "'"])])
             (journal_request self sys_id order_by_desc limit) in
  (py_truthy sys_id = false ->
   run = (Raised (ValueError "Ticket sys_id must be provided."), []))
  /\ (py_truthy sys_id = true ->
      http_requests (snd run) = [journal_request self sys_id order_by_desc limit]
      /\ match fst run with Returned v => None_or_list v | Raised _ => True end
      /\ (forall d entries,
             json_response o (VDict d) ->
             lookup "result" d = Some (VList entries) ->
             fst run = Returned (VList entries))
      /\ (failed_outcome o = true -> (forall x, o <> Fault x) ->
          fst run = Returned VNone)).
Proof.
  intros run o. subst run o. unfold ServiceNowClient.get_ticket_journal_entries.
  split; [intros ->; reflexivity|].
  intros Hs. rewrite Hs. cbn [negb]. cbv zeta.
  assert (Hq : ServiceNowClient.fstring_truthy
                 (Some (ServiceNowClient.journal_query sys_id order_by_desc)) = true)
    by reflexivity.
  destruct (_get_record_by_query self e "sys_journal_field"
              (Some ServiceNowClient.journal_fields) limit
              (h ++ [EvLog DEBUG
                       ([Lit "Fetching journal entries for ticket sys_id '"; Val sys_id;
                         Lit "' using query: '"]
                        ++ ServiceNowClient.journal_query sys_id order_by_desc
                        ++ [Lit "'"])])
              (ServiceNowClient.journal_query sys_id order_by_desc) eq_refl Hq)
    as [Hjson Hfail].
  split; [|split; [|split]].
  - rewrite requests_bind. cbn [logging emit fst snd http_requests app].
    apply requests_then_no_http; [|intro rd; repeat no_http_step].
    intro h'. rewrite _get_record_requests. reflexivity.
  - match goal with
    | |- match fst (?m h) with _ => _ end =>
        assert (Hy : yields None_or_list m)
    end.
    { apply yields_bind; intro. apply yields_bind; intro r.
      destruct (is_none r) eqn:Hn.
      - apply yields_bind; intro. apply yields_ret. left. reflexivity.
      - destruct (isinstance_list r) eqn:Hl; cbn [negb].
        + apply yields_bind; intro. apply yields_ret. right. exact Hl.
        + apply yields_bind; intro. apply yields_ret. right. reflexivity. }
    match goal with
    | |- match ?r with _ => _ end => destruct r as [v|x] eqn:E; [|exact I]
    end.
    apply (Hy _ _ E).
  - intros d entries Hj Hres.
    rewrite fst_bind. cbn [logging emit fst snd]. rewrite fst_bind.
    unfold journal_request in Hj. rewrite (Hjson d _ Hj Hres).
    cbn [is_none isinstance_list negb]. cbv iota.
    rewrite fst_bind. destruct entries; reflexivity.
  - intros Hf Hnf.
    rewrite fst_bind. cbn [logging emit fst snd]. rewrite fst_bind.
    unfold journal_request in Hf, Hnf. rewrite (Hfail Hf Hnf). reflexivity.
Qed.

Lemma get_ticket_journal_entries_contract_witness :
  ServiceNowClient.get_ticket_journal_entries example_client (env_with server_ok)
    (VStr "") true None []
  = (Raised (ValueError "Ticket sys_id must be provided."), [])
  /\ fst (ServiceNowClient.get_ticket_journal_entries example_client
            (env_with server_ok) (VStr "46d44a5dc0a8010e") false (Some 5) [])
     = Returned (VList [record_RITM])
  /\ fst (ServiceNowClient.get_ticket_journal_entries example_client
            (env_with server_down) (VStr "46d44a5dc0a8010e") true None [])
     = Returned VNone.
Proof.
  split; [|split].
  - apply (get_ticket_journal_entries_contract example_client (env_with server_ok)
             (VStr "") true None []). reflexivity.
  - apply (proj1 (proj2 (proj2 (proj2 (get_ticket_journal_entries_contract
             example_client (env_with server_ok) (VStr "46d44a5dc0a8010e") false (Some 5) [])
             eq_refl)))
             [("result", VList [record_RITM])] [record_RITM]).
    + exists 200. repeat split.
    + reflexivity.
  - apply (proj2 (proj2 (proj2 (proj2 (get_ticket_journal_entries_contract
             example_client (env_with server_down) (VStr "46d44a5dc0a8010e") true None [])
             eq_refl)))).
    + reflexivity.
    + intros x. discriminate.
Defined.

(** ** The integration client *)

Lemma _find_record_run_requests self e table_name sys_id number fields h :
  (table_name =? "")%string = false ->
  http_requests
    (snd (ServiceNowClient._find_record self e table_name sys_id number fields h))
  = if py_truthy sys_id then [lookup_by_sys_id self table_name sys_id fields]
    else if py_truthy number then [lookup_by_number self table_name number fields]
    else [].
Proof.
  intros Ht. unfold ServiceNowClient._find_record.
  destruct (py_truthy sys_id) eqn:Hs; cbn [negb andb].
  - apply requests_then_no_http; [|intro rd; repeat no_http_step].
    intro h'. rewrite requests_bind. cbn [logging emit fst snd http_requests app].
    rewrite _get_record_requests, (lookup_by_sys_id_record _ _ _ _ Ht Hs). reflexivity.
  - destruct (py_truthy number) eqn:Hn; [|reflexivity].
    apply requests_then_no_http; [|intro rd; repeat no_http_step].
    intro h'. rewrite requests_bind. cbn [logging emit fst snd http_requests app].
    cbv zeta.
    apply requests_then_no_http; [|intro rd; repeat no_http_step].
    intro h''. rewrite _get_record_requests, (lookup_by_number_record _ _ _ _ Ht).
    reflexivity.
Qed.

Lemma integration_attempt_requests self e payload h :
  http_requests
    (snd (try_except
            (response <- ServiceNowIntegrationClient._make_integration_request self e
                           "POST" payload ;;
             ret (Some response))
            (fun x =>
               logging ERROR [Lit "Error creating RITM via integration helper: ";
                              Opaque "e"] ;;
               ret None) h))
  = [{| method := "POST";
        req_url := ServiceNowIntegrationClient._build_integration_url self;
        params := None; json_payload := payload; data := None; headers := None |}].
Proof.
  rewrite requests_try_except, requests_bind.
  unfold ServiceNowIntegrationClient._make_integration_request.
  rewrite _execute_http_request_requests.
  destruct (fst (ServiceNowClient._execute_http_request _ _ _ _ _ _ _ _)) as [v|x];
    cbn [ret fst snd http_requests app].
  - rewrite fst_bind.
    destruct (fst (ServiceNowClient._execute_http_request _ _ _ _ _ _ _ _)); reflexivity.
  - rewrite fst_bind.
    destruct (fst (ServiceNowClient._execute_http_request _ _ _ _ _ _ _ _)); reflexivity.
Qed.

(** X8: [create_requested_item] of the integration client.  Its first
    request is always the POST of the three-field payload to the integration
    endpoint, and at most one request follows: the lookup of the created
    item by its number in [sc_req_item].  An exception of the transport is
    caught: the call returns [None] after the POST.  When the endpoint
    answers with a ['result'] object that names the item, the lookup follows
    if the number is truthy; if it is falsy (empty or null) the call raises
    [ValueError] after the POST, uncaught. *)
Theorem integration_create_then_lookup
  self e assignment_group short_description description h :
  let run := ServiceNowIntegrationClient.create_requested_item self e assignment_group
               short_description description h in
  let post := integration_request self assignment_group short_description description in
  let o := respond e
             (h ++ [EvCall (CallCreateIntegration assignment_group short_description
                              description)]) post in
  (exists rest,
      http_requests (snd run) = post :: rest
      /\ (rest = []
          \/ exists number,
               rest = [lookup_by_number (ServiceNowIntegrationClient.base self)
                         "sc_req_item" number None]))
  /\ (forall x, o = Fault x ->
      fst run = Returned VNone /\ http_requests (snd run) = [post])
  /\ (forall top obj number,
      json_response o (VDict top) ->
      lookup "result" top = Some (VDict obj) ->
      lookup "requestItemNumber" obj = Some number ->
      if py_truthy number then
        http_requests (snd run)
        = [post; lookup_by_number (ServiceNowIntegrationClient.base self)
                   "sc_req_item" number None]
      else
        fst run
        = Raised (ValueError "Either sys_id or number must be provided to find a record.")
        /\ http_requests (snd run) = [post]).
Proof.
  intros run post o. subst run o.
  split; [|split].
  - unfold ServiceNowIntegrationClient.create_requested_item. cbv zeta.
    fold (integration_payload assignment_group short_description description).
    rewrite requests_bind. cbn [emit fst snd http_requests app].
    rewrite requests_bind, integration_attempt_requests.
    fold (integration_request self assignment_group short_description description).
    fold post. cbn [app].
    eexists. split; [reflexivity|].
    destruct (fst (try_except _ _ _)) as [[response|]|x]; try (left; reflexivity).
    rewrite requests_bind.
    rewrite (requests_no_http (snd (and_then _ _ _)))
      by (apply emits_and_then; repeat no_http_step).
    cbn [app].
    destruct (fst (and_then _ _ _)) as [[|]|x]; try (left; reflexivity).
    rewrite requests_bind. unfold lift. cbn [fst snd http_requests app].
    destruct (py_getitem_str response "result") as [result_obj|x]; [|left; reflexivity].
    cbv beta iota. rewrite requests_bind. unfold lift. cbn [fst snd http_requests app].
    destruct (py_getitem_str result_obj "requestItemNumber") as [created_ritm|x];
      [|left; reflexivity].
    cbv beta iota. rewrite requests_bind. cbn [logging emit fst snd http_requests app].
    rewrite (requests_then_no_http _ _
               (if py_truthy created_ritm
                then [lookup_by_number (ServiceNowIntegrationClient.base self)
                        "sc_req_item" created_ritm None]
                else [])).
    + destruct (py_truthy created_ritm); [right; eexists; reflexivity|left; reflexivity].
    + intro h'. unfold ServiceNowClient.get_requested_item.
      rewrite _find_record_run_requests by reflexivity. reflexivity.
    + intro a. apply emits_ret.
  - intros x Ho.
    unfold ServiceNowIntegrationClient.create_requested_item, try_except,
      ServiceNowIntegrationClient._make_integration_request,
      ServiceNowIntegrationClient._build_integration_url,
      ServiceNowClient._execute_http_request.
    unfold logging. unfold bind, history, emit, ret, raise. cbv beta iota zeta.
    rewrite ?app_nil_r.
    unfold post, integration_request, integration_payload in Ho.
    unfold fstring in *. rewrite Ho. split; reflexivity.
  - intros top obj number Hj Hres Hnum.
    assert (Hreq : ServiceNowIntegrationClient._make_integration_request self e "POST"
                     (integration_payload assignment_group short_description description)
                     (h ++ [EvCall (CallCreateIntegration assignment_group
                                      short_description description)])
                   = (Returned (VDict top), [EvHttp post])).
    { apply _execute_http_request_json. exact Hj. }
    assert (Htry : try_except
        (response <- ServiceNowIntegrationClient._make_integration_request self e "POST"
            (integration_payload assignment_group short_description description) ;;
         ret (Some response))
        (fun x =>
           logging ERROR [Lit "Error creating RITM via integration helper: "; Opaque "e"] ;;
           ret None)
        (h ++ [EvCall (CallCreateIntegration assignment_group short_description description)])
        = (Returned (Some (VDict top)), [EvHttp post] ++ [])).
    { unfold try_except. rewrite (bind_returned _ _ _ _ _ Hreq). reflexivity. }
    unfold ServiceNowIntegrationClient.create_requested_item.
    rewrite (bind_returned _ _ h tt
               [EvCall (CallCreateIntegration assignment_group short_description description)]
               eq_refl).
    cbv zeta. fold (integration_payload assignment_group short_description description).
    rewrite (bind_returned _ _ _ _ _ Htry).
    cbn [fst snd app http_requests]. clear Htry Hreq.
    destruct top as [|kv top]; [discriminate|].
    cbn [py_truthy and_then].
    rewrite requests_bind, fst_bind.
    unfold lift. cbn [fst snd py_contains_str http_requests app].
    rewrite Hres. cbv iota.
    rewrite requests_bind, fst_bind.
    unfold lift. cbn [fst snd py_getitem_str http_requests app].
    rewrite Hres. cbv iota.
    rewrite requests_bind, fst_bind.
    unfold lift. cbn [fst snd py_getitem_str http_requests app].
    rewrite Hnum. cbv iota.
    rewrite requests_bind, fst_bind. cbn [logging emit fst snd http_requests app].
    rewrite requests_bind, fst_bind. unfold ServiceNowClient.get_requested_item.
    rewrite _find_record_run_requests by reflexivity. cbn [py_truthy].
    destruct (py_truthy number) eqn:Hn.
    + destruct (fst (ServiceNowClient._find_record _ _ _ _ _ _ _)); reflexivity.
    + unfold ServiceNowClient._find_record. cbn [py_truthy]. rewrite Hn.
      split; reflexivity.
Qed.

Lemma integration_create_then_lookup_witness :
  http_requests
    (snd (ServiceNowIntegrationClient.create_requested_item example_integration_client
            (env_with server_ok) (VStr "Operations") (VStr "Check the backups")
            (VStr "Nightly") []))
  = [integration_request example_integration_client (VStr "Operations")
       (VStr "Check the backups") (VStr "Nightly");
     lookup_by_number example_client "sc_req_item" (VStr "RITM0010001") None]
  /\ fst (ServiceNowIntegrationClient.create_requested_item example_integration_client
            (env_with server_crashes) (VStr "Operations") (VStr "Check the backups")
            (VStr "Nightly") [])
     = Returned VNone
  /\ fst (ServiceNowIntegrationClient.create_requested_item example_integration_client
            (env_with server_with_empty_number) (VStr "Operations")
            (VStr "Check the backups") (VStr "Nightly") [])
     = Raised (ValueError "Either sys_id or number must be provided to find a record.").
Proof.
  split; [|split].
  - apply (proj2 (proj2 (integration_create_then_lookup example_integration_client
             (env_with server_ok) (VStr "Operations") (VStr "Check the backups")
             (VStr "Nightly") []))
             [("result",
               VDict [("sys_id", VStr "46d44a5dc0a8010e"); ("number", VStr "RITM0010001");
                      ("requestItemNumber", VStr "RITM0010001")])]
             [("sys_id", VStr "46d44a5dc0a8010e"); ("number", VStr "RITM0010001");
              ("requestItemNumber", VStr "RITM0010001")]
             (VStr "RITM0010001")).
    + exists 200. repeat split.
    + reflexivity.
    + reflexivity.
  - apply (proj1 (proj2 (integration_create_then_lookup example_integration_client
             (env_with server_crashes) (VStr "Operations") (VStr "Check the backups")
             (VStr "Nightly") [])) (OtherException "RuntimeError")).
    reflexivity.
  - apply (proj2 (proj2 (integration_create_then_lookup example_integration_client
             (env_with server_with_empty_number) (VStr "Operations")
             (VStr "Check the backups") (VStr "Nightly") []))
             [("result", VDict [("requestItemNumber", VStr "")])]
             [("requestItemNumber", VStr "")] (VStr "")).
    + exists 200. repeat split.
    + reflexivity.
    + reflexivity.
Defined.

(** ** Construction of the clients *)

Lemma rstrip_slash_cons c r :
  ServiceNowClient.rstrip_slash r <> EmptyString ->
  ServiceNowClient.rstrip_slash (String c r)
  = String c (ServiceNowClient.rstrip_slash r).
Proof.
  intro H. simpl. destruct (ServiceNowClient.rstrip_slash r); [contradiction|reflexivity].
Qed.

Lemma rstrip_slash_spec u :
  exists n,
    u = (ServiceNowClient.rstrip_slash u ++ slashes n)%string
    /\ ends_with_slash (ServiceNowClient.rstrip_slash u) = false.
Proof.
  induction u as [|c r (n & Hr & He)].
  - exists O. split; reflexivity.
  - simpl. destruct (ServiceNowClient.rstrip_slash r) as [|c' r'] eqn:E.
    + simpl in Hr. destruct (Ascii.eqb c "/") eqn:Hc.
      * apply Ascii.eqb_eq in Hc. subst c. exists (S n). split; [|reflexivity].
        simpl. rewrite Hr. reflexivity.
      * exists n. split; [simpl; rewrite <- Hr; reflexivity|].
        simpl. exact Hc.
    + exists n. split.
      * simpl. simpl in Hr. rewrite <- Hr. reflexivity.
      * simpl in *. exact He.
Qed.

(** X9: [ServiceNowClient.__init__].  It sends no request.  With an empty
    or null URL, an empty user name or an empty password it raises
    [ValueError].  Otherwise the client keeps the user name and the URL
    without its trailing slashes (all of them, so a URL made of slashes only
    is accepted and kept as the empty string), and its session asks for and
    sends JSON whatever headers the session started with. *)
Theorem client_init_contract requests_headers url username password h :
  let run := ServiceNowClient.__init__ requests_headers url username password h in
  http_requests (snd run) = []
  /\ (py_truthy url = false \/ username = EmptyString \/ password = EmptyString ->
      exists msg, fst run = Raised (ValueError msg))
  /\ (forall u,
      url = VStr u -> u <> EmptyString -> username <> EmptyString ->
      password <> EmptyString ->
      exists self n,
        fst run = Returned self
        /\ ServiceNowClient.username self = username
        /\ u = (ServiceNowClient.url self ++ slashes n)%string
        /\ ends_with_slash (ServiceNowClient.url self) = false
        /\ header_lookup "Accept" (ServiceNowClient.session_headers self)
           = Some "application/json"
        /\ header_lookup "Content-Type" (ServiceNowClient.session_headers self)
           = Some "application/json").
Proof.
  intros run. subst run. unfold ServiceNowClient.__init__.
  split; [|split].
  - apply requests_no_http. revert h.
    change (emits not_http
              (ServiceNowClient.__init__ requests_headers url username password)).
    unfold ServiceNowClient.__init__. repeat no_http_step.
  - intros [Hu|[->| ->]].
    + rewrite Hu. eexists. reflexivity.
    + destruct (py_truthy url); eexists; reflexivity.
    + destruct (py_truthy url); [|eexists; reflexivity].
      cbn [negb]. rewrite orb_true_r. eexists. reflexivity.
  - intros u -> Hu Hn Hp.
    apply String.eqb_neq in Hu, Hn, Hp.
    cbn [py_truthy]. rewrite Hu, Hn, Hp. cbn [negb orb].
    destruct (rstrip_slash_spec u) as (n & Hr & He).
    eexists. exists n. split; [reflexivity|]. cbn [ServiceNowClient.username
      ServiceNowClient.url ServiceNowClient.session_headers].
    split; [reflexivity|]. split; [exact Hr|]. split; [exact He|]. split.
    + apply header_lookup_set_same.
    + rewrite header_lookup_set_other by reflexivity. apply header_lookup_set_same.
Qed.

Lemma client_init_contract_witness :
  (exists msg,
      fst (ServiceNowClient.__init__ [("User-Agent", "python-requests")] VNone
             "scheduler" "secret" [])
      = Raised (ValueError msg))
  /\ (exists self n,
      fst (ServiceNowClient.__init__ [("User-Agent", "python-requests")] (VStr "//")
             "scheduler" "secret" [])
      = Returned self
      /\ ServiceNowClient.username self = "scheduler"
      /\ "//"%string = (ServiceNowClient.url self ++ slashes n)%string
      /\ ends_with_slash (ServiceNowClient.url self) = false
      /\ header_lookup "Accept" (ServiceNowClient.session_headers self)
         = Some "application/json"
      /\ header_lookup "Content-Type" (ServiceNowClient.session_headers self)
         = Some "application/json").
Proof.
  split.
  - apply (client_init_contract [("User-Agent", "python-requests")] VNone
             "scheduler" "secret" []).
    left. reflexivity.
  - apply (proj2 (proj2 (client_init_contract [("User-Agent", "python-requests")]
             (VStr "//") "scheduler" "secret" [])) "//"%string eq_refl);
      discriminate.
Defined.

(** X10: [ServiceNowIntegrationClient.__init__].  The checks of the parent
    come first; then an empty integration path raises [ValueError].
    Otherwise the path is kept with its trailing slashes removed and nothing
    else: the value stripped on the left is overwritten, so a leading slash
    stays in the path. *)
Theorem integration_init_contract
  requests_headers url username password integration_path h :
  let parent := ServiceNowClient.__init__ requests_headers url username password h in
  let run := ServiceNowIntegrationClient.__init__ requests_headers url username password
               integration_path h in
  (forall x, fst parent = Raised x -> fst run = Raised x)
  /\ (forall c, fst parent = Returned c ->
      if (integration_path =? "")%string then exists msg, fst run = Raised (ValueError msg)
      else
        exists self n,
          fst run = Returned self
          /\ ServiceNowIntegrationClient.base self = c
          /\ integration_path
             = (ServiceNowIntegrationClient.integration_base_path self ++ slashes n)%string
          /\ ends_with_slash (ServiceNowIntegrationClient.integration_base_path self)
             = false
          /\ (forall r, integration_path = String "/" r ->
              ServiceNowClient.rstrip_slash r <> EmptyString ->
              ServiceNowIntegrationClient.integration_base_path self
              = String "/" (ServiceNowClient.rstrip_slash r))).
Proof.
  intros parent run. subst parent run. unfold ServiceNowIntegrationClient.__init__.
  split.
  - intros x Hx. rewrite fst_bind, Hx. reflexivity.
  - intros c Hc. rewrite fst_bind, Hc.
    destruct (integration_path =? "")%string; [eexists; reflexivity|].
    cbv zeta. destruct (rstrip_slash_spec integration_path) as (n & Hr & He).
    eexists. exists n. split; [reflexivity|].
    cbn [ServiceNowIntegrationClient.base ServiceNowIntegrationClient.integration_base_path].
    split; [reflexivity|]. split; [exact Hr|]. split; [exact He|].
    intros r -> Hne. apply rstrip_slash_cons. exact Hne.
Qed.

Lemma integration_init_contract_witness :
  exists self n,
    fst (ServiceNowIntegrationClient.__init__ [] (VStr "https://example.service-now.com/")
           "scheduler" "secret" "/api/x_helper/create/" [])
    = Returned self
    /\ ServiceNowIntegrationClient.base self = example_client
    /\ "/api/x_helper/create/"%string
       = (ServiceNowIntegrationClient.integration_base_path self ++ slashes n)%string
    /\ ends_with_slash (ServiceNowIntegrationClient.integration_base_path self) = false
    /\ (forall r, "/api/x_helper/create/"%string = String "/" r ->
        ServiceNowClient.rstrip_slash r <> EmptyString ->
        ServiceNowIntegrationClient.integration_base_path self
        = String "/" (ServiceNowClient.rstrip_slash r)).
Proof.
  apply (proj2 (integration_init_contract [] (VStr "https://example.service-now.com/")
                  "scheduler" "secret" "/api/x_helper/create/" []) example_client).
  reflexivity.
Defined.

(** ** Loading and validating a template *)

(** X11: [load] never raises and sends nothing.  It returns [True] exactly
    when the file is readable TOML whose [ticket] is a table with a table
    (or nothing) under [attachments]; then nothing is recorded.  Otherwise
    it returns [False], appends exactly one message to [validation_errors],
    logs exactly one error and leaves [attachments] as it was.  Whenever
    [ticket] is a table, the five fields read from it are assigned, even if
    the call then fails on [attachments]. *)
Theorem load_contract src self h :
  exists self' evs,
    TicketTemplate.load src self h = (Returned (loadable src, self'), evs)
    /\ TicketTemplate.template_path self' = TicketTemplate.template_path self
    /\ (if loadable src then
          TicketTemplate.validation_errors self' = TicketTemplate.validation_errors self
          /\ exists msg, evs = [EvLog DEBUG msg]
        else
          TicketTemplate.attachments self' = TicketTemplate.attachments self
          /\ exists err msg,
               TicketTemplate.validation_errors self'
               = TicketTemplate.validation_errors self ++ [err]
               /\ evs = [EvLog ERROR msg])
    /\ (forall doc ticket_data,
          src = TomlDocument doc ->
          lookup "ticket" doc = Some (VDict ticket_data) ->
          TicketTemplate.assignment_group self'
          = dict_get ticket_data "assignment_group" VNone
          /\ TicketTemplate.short_description self'
             = dict_get ticket_data "short_description" VNone
          /\ TicketTemplate.description self' = dict_get ticket_data "description" VNone
          /\ TicketTemplate.integration_helper self'
             = dict_get ticket_data "integration_helper" VNone
          /\ TicketTemplate.schedule self' = dict_get ticket_data "schedule" (VDict [])).
Proof.
  unfold TicketTemplate.load, TicketTemplate.load_unexpected, loadable.
  destruct src as [|detail|detail|doc].
  - eexists. eexists. split; [reflexivity|]. split; [reflexivity|].
    split; [split; [reflexivity|eexists; eexists; split; reflexivity]|].
    intros doc t E. discriminate E.
  - eexists. eexists. split; [reflexivity|]. split; [reflexivity|].
    split; [split; [reflexivity|eexists; eexists; split; reflexivity]|].
    intros doc t E. discriminate E.
  - eexists. eexists. split; [reflexivity|]. split; [reflexivity|].
    split; [split; [reflexivity|eexists; eexists; split; reflexivity]|].
    intros doc t E. discriminate E.
  - destruct (lookup "ticket" doc) as [ticket|] eqn:Ht.
    + destruct ticket as [| | | | | | |ticket_data];
        try (eexists; eexists; split; [reflexivity|]; split; [reflexivity|];
             split; [split; [reflexivity|eexists; eexists; split; reflexivity]|];
             intros doc' t E1 E2; injection E1 as <-; rewrite Ht in E2; discriminate E2).
      destruct (dict_get ticket_data "attachments" (VDict [])) eqn:Ha;
        (eexists; eexists; split; [reflexivity|]; split; [reflexivity|];
         split;
         [ cbn [isinstance_dict];
           first [ split; [reflexivity|eexists; reflexivity]
                 | split; [reflexivity|eexists; eexists; split; reflexivity] ]
         | intros doc' t E1 E2; injection E1 as <-; rewrite Ht in E2;
           injection E2 as <-; repeat split ]).
    + eexists. eexists. split; [reflexivity|]. split; [reflexivity|].
      split; [split; [reflexivity|eexists; eexists; split; reflexivity]|].
      intros doc' t E1 E2. injection E1 as <-. rewrite Ht in E2. discriminate E2.
Qed.

Lemma validate_schedule_falsy schedule :
  py_truthy schedule = false ->
  TicketTemplate.validate_schedule schedule [] = Returned [schedule_missing_error].
Proof.
  intro H. unfold TicketTemplate.validate_schedule. rewrite H. reflexivity.
Qed.

(** X12: a template without a schedule is never valid.  When [schedule] is
    missing or empty, [validate_structure] records the error about it and
    returns [False], whatever else the template holds; the only other
    outcome is the [TypeError] of an [attachments] value that cannot be
    iterated. *)
Theorem validate_structure_needs_schedule e self h :
  py_truthy (TicketTemplate.schedule self) = false ->
  match fst (TicketTemplate.validate_structure e self h) with
  | Returned (valid, self') =>
      valid = false
      /\ In schedule_missing_error (TicketTemplate.validation_errors self')
  | Raised x =>
      x = TypeError /\ py_iter (TicketTemplate.attachments self) = Raised TypeError
  end.
Proof.
  intro Hs. pose proof (validate_schedule_falsy _ Hs) as Hv.
  destruct (py_iter (TicketTemplate.attachments self)) as [items|x] eqn:Hi.
  - rewrite (validate_structure_run e self _ items h Hv Hi). cbv zeta.
    destruct (is_empty _) eqn:He.
    + exfalso. destruct (field_errors self); [|discriminate He].
      destruct (helper_errors self); discriminate He.
    + cbn [fst]. split; [reflexivity|].
      cbn [TicketTemplate.validation_errors TicketTemplate.extend_errors].
      apply in_or_app. right. apply in_or_app. right. apply in_or_app. right.
      left. reflexivity.
  - assert (Hx : x = TypeError).
    { destruct (TicketTemplate.attachments self); simpl in Hi; congruence. }
    subst x. unfold TicketTemplate.validate_structure.
    rewrite (validate_schedule_acc _ _ _ Hv), Hi. split; reflexivity.
Qed.

Lemma validate_structure_needs_schedule_witness :
  match fst (TicketTemplate.validate_structure (env_with server_ok)
               (make_template VNone (VDict []) (VList [])) []) with
  | Returned (valid, self') =>
      valid = false
      /\ In schedule_missing_error (TicketTemplate.validation_errors self')
  | Raised x =>
      x = TypeError
      /\ py_iter (TicketTemplate.attachments (make_template VNone (VDict []) (VList [])))
         = Raised TypeError
  end.
Proof.
  apply (validate_structure_needs_schedule (env_with server_ok)
           (make_template VNone (VDict []) (VList [])) []).
  reflexivity.
Defined.

Lemma validate_structure_bad_schedule e self h :
  py_truthy (TicketTemplate.schedule self)
  && negb (isinstance_dict (TicketTemplate.schedule self)) = true ->
  TicketTemplate.validate_structure e self h = (Raised AttributeError, []).
Proof.
  intro Hb. unfold TicketTemplate.validate_structure, TicketTemplate.validate_schedule.
  destruct (TicketTemplate.schedule self) as [|b|z|f|s|d|l|sched];
    try discriminate Hb; simpl in Hb.
  - rewrite andb_true_r in Hb. rewrite Hb. reflexivity.
  - rewrite andb_true_r in Hb. cbn [py_truthy]. rewrite Hb. reflexivity.
  - rewrite andb_true_r in Hb. cbn [py_truthy]. rewrite Hb. reflexivity.
  - rewrite andb_true_r in Hb. cbn [py_truthy]. rewrite Hb. reflexivity.
  - reflexivity.
  - rewrite andb_true_r in Hb. cbn [py_truthy]. rewrite Hb. reflexivity.
  - rewrite andb_false_r in Hb. discriminate Hb.
Qed.

(** X13: when [validate_structure] raises.  A [schedule] that is truthy and
    not a mapping makes it raise [AttributeError]; otherwise an
    [attachments] value that cannot be iterated makes it raise [TypeError].
    These are the only ways it raises, and in both nothing has been logged
    yet. *)
Theorem validate_structure_raises e self h :
  let run := TicketTemplate.validate_structure e self h in
  let bad_schedule :=
    py_truthy (TicketTemplate.schedule self)
    && negb (isinstance_dict (TicketTemplate.schedule self)) in
  (bad_schedule = true -> run = (Raised AttributeError, []))
  /\ (bad_schedule = false ->
      py_iter (TicketTemplate.attachments self) = Raised TypeError ->
      run = (Raised TypeError, []))
  /\ (forall x, fst run = Raised x ->
      snd run = []
      /\ (bad_schedule = true
          \/ py_iter (TicketTemplate.attachments self) = Raised TypeError)).
Proof.
  intros run bad_schedule. subst run bad_schedule.
  pose proof (validate_structure_bad_schedule e self h) as Hbad.
  assert (Hgood : py_truthy (TicketTemplate.schedule self)
                  && negb (isinstance_dict (TicketTemplate.schedule self)) = false ->
                  exists errs,
                    TicketTemplate.validate_schedule (TicketTemplate.schedule self) []
                    = Returned errs).
  { intro Hb. destruct (py_truthy (TicketTemplate.schedule self)) eqn:Ht.
    - destruct (TicketTemplate.schedule self) as [|b|z|f|s|d|l|sched] eqn:Hs;
        try discriminate Hb.
      apply validate_schedule_dict.
    - eexists. apply validate_schedule_falsy. exact Ht. }
  split; [exact Hbad|]. split.
  - intros Hb Hi. destruct (Hgood Hb) as [errs Hv].
    unfold TicketTemplate.validate_structure.
    rewrite (validate_schedule_acc _ _ _ Hv), Hi. reflexivity.
  - intros x Hx.
    destruct (py_truthy (TicketTemplate.schedule self)
              && negb (isinstance_dict (TicketTemplate.schedule self))) eqn:Hb.
    + rewrite (Hbad eq_refl). split; [reflexivity|left; reflexivity].
    + destruct (Hgood eq_refl) as [errs Hv].
      destruct (py_iter (TicketTemplate.attachments self)) as [items|y] eqn:Hi.
      * rewrite (validate_structure_run e self errs items h Hv Hi) in Hx.
        cbv zeta in Hx. destruct (is_empty _); discriminate Hx.
      * assert (Hy : y = TypeError).
        { destruct (TicketTemplate.attachments self); simpl in Hi; congruence. }
        subst y. unfold TicketTemplate.validate_structure.
        rewrite (validate_schedule_acc _ _ _ Hv), Hi.
        split; [reflexivity|right; reflexivity].
Qed.

Lemma validate_structure_raises_witness :
  TicketTemplate.validate_structure (env_with server_ok)
    (make_template VNone (VStr "daily") (VList [])) []
  = (Raised AttributeError, [])
  /\ TicketTemplate.validate_structure (env_with server_ok)
       (make_template VNone daily (VInt 3)) []
     = (Raised TypeError, []).
Proof.
  split.
  - apply (validate_structure_raises (env_with server_ok)
             (make_template VNone (VStr "daily") (VList [])) []).
    reflexivity.
  - apply (validate_structure_raises (env_with server_ok)
             (make_template VNone daily (VInt 3)) []); reflexivity.
Defined.

Lemma retained_clean e file_item :
  retained e file_item = true ->
  structurally_valid file_item = true /\ required_and_missing e file_item = false.
Proof.
  unfold retained, structurally_valid, required_and_missing.
  destruct file_item as [| | | | | |l|item]; try discriminate.
  destruct (dict_get item "path" VNone) as [| | | |path| | |]; try discriminate.
  destruct (dict_get item "required" VNone) as [|required| | | | | |]; try discriminate.
  intro H. apply andb_true_iff in H. destruct H as [Hn Hf]. rewrite Hn, Hf.
  split; [reflexivity|]. destruct required; reflexivity.
Qed.

Lemma filter_retained_twice e items :
  filter (retained e) (filter (retained e) items) = filter (retained e) items.
Proof.
  induction items as [|x rest IH]; simpl; [reflexivity|].
  destruct (retained e x) eqn:E; simpl; [rewrite E, IH; reflexivity|exact IH].
Qed.

(** X14: validating twice.  For a template whose [schedule] is a mapping
    and whose [attachments] is a list, a second [validate_structure] finds
    the attachment list already pruned and reports no attachment error: it
    returns [True] exactly when the fields, [integration_helper] and the
    schedule are in order, and appends their errors once more.  So a
    template rejected only because a required file is missing is accepted
    by the second call, without that attachment. *)
Theorem validate_structure_twice e self sched items h h' :
  TicketTemplate.schedule self = VDict sched ->
  TicketTemplate.attachments self = VList items ->
  exists b1 self1 errs_schedule b2 self2,
    let errs := field_errors self ++ helper_errors self ++ errs_schedule in
    fst (TicketTemplate.validate_structure e self h) = Returned (b1, self1)
    /\ TicketTemplate.validate_schedule (VDict sched) [] = Returned errs_schedule
    /\ fst (TicketTemplate.validate_structure e self1 h') = Returned (b2, self2)
    /\ b1 = is_empty (errs ++ attachments_errors e self 0 items)
    /\ b2 = is_empty errs
    /\ TicketTemplate.attachments self1 = VList (filter (retained e) items)
    /\ TicketTemplate.attachments self2 = TicketTemplate.attachments self1
    /\ TicketTemplate.validation_errors self2
       = TicketTemplate.validation_errors self1 ++ errs.
Proof.
  intros Hs Ha.
  destruct (validate_schedule_dict sched) as [errs_schedule Hsched].
  assert (Hiter : py_iter (TicketTemplate.attachments self) = Returned items)
    by (rewrite Ha; reflexivity).
  pose proof Hsched as Hsched'. rewrite <- Hs in Hsched'.
  pose proof (validate_structure_run e self errs_schedule items h Hsched' Hiter) as Hrun.
  cbv zeta in Hrun.
  set (errs1 := field_errors self ++ helper_errors self ++ errs_schedule
                ++ attachments_errors e self 0 items) in *.
  assert (Hsecond : forall self1,
             TicketTemplate.schedule self1 = TicketTemplate.schedule self ->
             TicketTemplate.attachments self1 = VList (filter (retained e) items) ->
             field_errors self1 = field_errors self ->
             helper_errors self1 = helper_errors self ->
             exists self2,
               fst (TicketTemplate.validate_structure e self1 h')
               = Returned (is_empty (field_errors self ++ helper_errors self
                                     ++ errs_schedule), self2)
               /\ TicketTemplate.attachments self2 = TicketTemplate.attachments self1
               /\ TicketTemplate.validation_errors self2
                  = TicketTemplate.validation_errors self1
                    ++ field_errors self ++ helper_errors self ++ errs_schedule).
  { intros self1 H1 H2 H3 H4.
    assert (Hv1 : TicketTemplate.validate_schedule (TicketTemplate.schedule self1) []
                  = Returned errs_schedule) by (rewrite H1; exact Hsched').
    assert (Hi1 : py_iter (TicketTemplate.attachments self1)
                  = Returned (filter (retained e) items)) by (rewrite H2; reflexivity).
    rewrite (validate_structure_run e self1 errs_schedule _ h' Hv1 Hi1). cbv zeta.
    rewrite attachments_errors_clean
      by (intros x Hx; apply filter_In in Hx; apply (retained_clean e), Hx).
    rewrite filter_retained_twice, H3, H4, app_nil_r.
    destruct (is_empty (field_errors self ++ helper_errors self ++ errs_schedule))
      eqn:He; eexists; (split; [reflexivity|]);
      cbn [TicketTemplate.attachments TicketTemplate.set_attachments
           TicketTemplate.extend_errors TicketTemplate.validation_errors];
      (split; [symmetry; exact H2|]); [|reflexivity].
    destruct (field_errors self); [|discriminate He].
    destruct (helper_errors self); [|discriminate He].
    destruct errs_schedule; [|discriminate He].
    symmetry. apply app_nil_r. }
  assert (Hassoc : (field_errors self ++ helper_errors self ++ errs_schedule)
                   ++ attachments_errors e self 0 items = errs1).
  { unfold errs1. rewrite <- !app_assoc. reflexivity. }
  destruct (is_empty errs1) eqn:He.
  - destruct (Hsecond (TicketTemplate.set_attachments self
                         (VList (filter (retained e) items))))
      as (self2 & Hr2 & Ha2 & He2); try reflexivity.
    exists true. eexists. exists errs_schedule. eexists. exists self2. cbv zeta.
    rewrite Hrun. split; [reflexivity|]. split; [exact Hsched|].
    split; [exact Hr2|]. rewrite Hassoc, He. split; [reflexivity|].
    split; [reflexivity|]. split; [reflexivity|]. split; [exact Ha2|].
    exact He2.
  - destruct (Hsecond (TicketTemplate.extend_errors
                         (TicketTemplate.set_attachments self
                            (VList (filter (retained e) items))) errs1))
      as (self2 & Hr2 & Ha2 & He2); try reflexivity.
    exists false. eexists. exists errs_schedule. eexists. exists self2. cbv zeta.
    rewrite Hrun. split; [reflexivity|]. split; [exact Hsched|].
    split; [exact Hr2|]. rewrite Hassoc, He. split; [reflexivity|].
    split; [reflexivity|]. split; [reflexivity|]. split; [exact Ha2|].
    exact He2.
Qed.

Lemma validate_structure_twice_witness :
  exists self1 self2,
    fst (TicketTemplate.validate_structure (env_with server_ok)
           template_missing_required [])
    = Returned (false, self1)
    /\ fst (TicketTemplate.validate_structure (env_with server_ok) self1 [])
       = Returned (true, self2)
    /\ TicketTemplate.attachments self2 = VList [].
Proof.
  destruct (validate_structure_twice (env_with server_ok) template_missing_required
              [("frequency", VStr "daily")] [attachment "missing.txt" true] [] []
              eq_refl eq_refl)
    as (b1 & self1 & errs_schedule & b2 & self2 & H1 & Hv & H2 & Hb1 & Hb2 & Ha1 & Ha2 & _).
  injection Hv as <-.
  exists self1, self2. rewrite H1, H2, Ha2, Ha1, Hb1, Hb2.
  repeat split.
Defined.

(** ** Schedules *)

(** X15: a weekly schedule that validation accepts and that never fires.
    [validate_structure] asks only that [day_of_week] is present; [is_due]
    asks for an integer equal to the weekday index, which lies between 0
    and 6.  So with a [day_of_week] that is not an integer (a string, a
    float) or an integer outside 0..6, the schedule section reports no error
    and [is_due] returns [False] on every date. *)
Theorem weekly_schedule_never_due self sched day_of_week :
  TicketTemplate.schedule self = VDict sched ->
  dict_get sched "frequency" VNone = VStr "weekly" ->
  dict_get sched "day_of_week" VNone = day_of_week ->
  is_none day_of_week = false ->
  (isinstance_int day_of_week = false
   \/ exists n, day_of_week = VInt n /\ (n < 0 \/ 6 < n)) ->
  TicketTemplate.validate_schedule (TicketTemplate.schedule self) [] = Returned []
  /\ forall today, TicketTemplate.is_due self today = Returned false.
Proof.
  intros Hs Hf Hd Hn Hbad. split.
  - rewrite Hs. unfold TicketTemplate.validate_schedule.
    destruct sched as [|kv sched']; [discriminate Hf|].
    cbn [py_truthy negb]. cbv zeta. rewrite Hf, Hd. cbn [is_none]. rewrite Hn.
    reflexivity.
  - intro today. unfold TicketTemplate.is_due. rewrite Hs. cbv zeta.
    rewrite Hf, Hd. cbn [py_eq_str String.eqb Ascii.eqb Bool.eqb]. cbv iota.
    destruct Hbad as [Hi|(n & -> & Hr)].
    + rewrite Hi. reflexivity.
    + pose proof (weekday_range today) as Hw. cbn [isinstance_int py_eq_int andb].
      assert (E : (datetime.weekday today =? n) = false) by (apply Z.eqb_neq; lia).
      rewrite E. reflexivity.
Qed.

Lemma weekly_schedule_never_due_witness :
  TicketTemplate.validate_schedule
    (TicketTemplate.schedule
       (make_template VNone
          (VDict [("frequency", VStr "weekly"); ("day_of_week", VInt 7)]) (VList [])))
    []
  = Returned []
  /\ forall today,
       TicketTemplate.is_due
         (make_template VNone
            (VDict [("frequency", VStr "weekly"); ("day_of_week", VInt 7)]) (VList []))
         today
       = Returned false.
Proof.
  apply (weekly_schedule_never_due
           (make_template VNone
              (VDict [("frequency", VStr "weekly"); ("day_of_week", VInt 7)]) (VList []))
           [("frequency", VStr "weekly"); ("day_of_week", VInt 7)] (VInt 7)
           eq_refl eq_refl eq_refl eq_refl).
  right. exists 7. split; [reflexivity|]. right. reflexivity.
Defined.

(** ** The loop of main *)

Lemma only_log_quiet (evs : list event) :
  forallb only_log evs = true -> http_requests evs = [] /\ client_calls evs = [].
Proof.
  induction evs as [|ev evs IH]; simpl; [split; reflexivity|].
  destruct ev; simpl; intro H; try discriminate. apply IH. exact H.
Qed.

Lemma load_only_log src self : emits only_log (TicketTemplate.load src self).
Proof.
  unfold TicketTemplate.load, TicketTemplate.load_unexpected. cbv zeta.
  repeat emits_step.
Qed.

Lemma validate_attachments_only_log e self items :
  forall index current_errors processed,
    emits only_log
      (TicketTemplate.validate_attachments e self index items current_errors processed).
Proof.
  induction items as [|file_item rest IH]; intros index ce pa; simpl.
  - apply emits_ret.
  - apply emits_bind.
    + unfold TicketTemplate.validate_attachment. cbv zeta. repeat emits_step.
    + intros [ce' pa']. apply IH.
Qed.

Lemma log_errors_only_log self errs : emits only_log (TicketTemplate.log_errors self errs).
Proof.
  induction errs as [|err rest IH]; simpl; [apply emits_ret|].
  apply emits_bind; [apply emits_emit; reflexivity|intro; exact IH].
Qed.

Lemma validate_structure_only_log e self :
  emits only_log (TicketTemplate.validate_structure e self).
Proof.
  unfold TicketTemplate.validate_structure. cbv zeta.
  apply emits_bind; [apply emits_lift|intro current_errors].
  apply emits_bind; [apply emits_lift|intro items].
  apply emits_bind; [apply validate_attachments_only_log|intros [errs processed]].
  destruct errs as [|err errs].
  - repeat emits_step.
  - apply emits_bind; [apply log_errors_only_log|intro; apply emits_ret].
Qed.

(** X16: the loop body of [main] reaches ServiceNow only for a template
    that is loaded, valid and due.  If processing a template file sends any
    request or calls any client method, then [load] returned [True],
    [validate_structure] returned [True] on the loaded template, and
    [is_due] returned [True] for the pruned template and today's date. *)
Theorem process_template_reaches_servicenow_only_when_due
  src e today sn_client sn_integration_client file h :
  let started := h ++ [EvLog DEBUG [Lit "Processing template: "; Lit file]] in
  let run := Main.process_template src e today sn_client sn_integration_client file h in
  http_requests (snd run) <> [] \/ client_calls (snd run) <> [] ->
  exists loaded ev1 validated ev2,
    TicketTemplate.load src (TicketTemplate.new file) started
    = (Returned (true, loaded), ev1)
    /\ TicketTemplate.validate_structure e loaded (started ++ ev1)
       = (Returned (true, validated), ev2)
    /\ TicketTemplate.is_due validated today = Returned true.
Proof.
  intros started run Hreach. subst run.
  assert (Hquiet : forall evs,
             forallb only_log evs = true ->
             ~ (http_requests evs <> [] \/ client_calls evs <> [])).
  { intros evs Hq [H|H]; apply H; apply (only_log_quiet evs Hq). }
  unfold Main.process_template in Hreach. cbv zeta in Hreach.
  rewrite (bind_returned _ _ h tt [EvLog DEBUG [Lit "Processing template: "; Lit file]]
             eq_refl) in Hreach.
  fold started in Hreach. cbn [snd] in Hreach.
  pose proof (load_only_log src (TicketTemplate.new file) started) as Hl1.
  destruct (TicketTemplate.load src (TicketTemplate.new file) started)
    as [[[loaded template]|x] ev1] eqn:Hl; cbn [snd] in Hl1.
  - rewrite (bind_returned _ _ _ _ _ Hl) in Hreach. cbn [snd] in Hreach.
    destruct loaded; cbn [negb] in Hreach.
    + pose proof (validate_structure_only_log e template (started ++ ev1)) as Hv1.
      destruct (TicketTemplate.validate_structure e template (started ++ ev1))
        as [[[valid template']|x] ev2] eqn:Hv; cbn [snd] in Hv1.
      * rewrite (bind_returned _ _ _ _ _ Hv) in Hreach. cbn [snd] in Hreach.
        destruct valid.
        -- destruct (TicketTemplate.is_due template' today) as [due|x] eqn:Hd.
           ++ destruct due.
              ** exists template, ev1, template', ev2. repeat split; assumption.
              ** exfalso. revert Hreach. apply Hquiet. cbn.
                 rewrite !forallb_app, Hl1, Hv1. reflexivity.
           ++ exfalso. revert Hreach. apply Hquiet. cbn.
              rewrite !forallb_app, Hl1, Hv1. reflexivity.
        -- exfalso. revert Hreach. apply Hquiet. cbn.
           rewrite !forallb_app, Hl1, Hv1. reflexivity.
      * rewrite (bind_raised _ _ _ _ _ Hv) in Hreach.
        exfalso. revert Hreach. apply Hquiet. cbn.
        rewrite !forallb_app, Hl1, Hv1. reflexivity.
    + exfalso. revert Hreach. apply Hquiet. cbn.
      rewrite !forallb_app, Hl1. reflexivity.
  - rewrite (bind_raised _ _ _ _ _ Hl) in Hreach.
    exfalso. revert Hreach. apply Hquiet. cbn. exact Hl1.
Qed.

Lemma process_template_reaches_servicenow_only_when_due_witness :
  exists loaded ev1 validated ev2,
    TicketTemplate.load example_document (TicketTemplate.new "templates/backup.toml")
      ([] ++ [EvLog DEBUG [Lit "Processing template: "; Lit "templates/backup.toml"]])
    = (Returned (true, loaded), ev1)
    /\ TicketTemplate.validate_structure (env_with server_ok) loaded
         (([] ++ [EvLog DEBUG [Lit "Processing template: "; Lit "templates/backup.toml"]])
          ++ ev1)
       = (Returned (true, validated), ev2)
    /\ TicketTemplate.is_due validated tuesday = Returned true.
Proof.
  apply (process_template_reaches_servicenow_only_when_due example_document
           (env_with server_ok) tuesday example_client None "templates/backup.toml" []).
  left. vm_compute. discriminate.
Defined.

Lemma process_templates_app files e today sn_client sn_integration_client before :
  forall after h,
    Main.process_templates files e today sn_client sn_integration_client
      (before ++ after) h
    = (Main.process_templates files e today sn_client sn_integration_client before ;;
       Main.process_templates files e today sn_client sn_integration_client after) h.
Proof.
  induction before as [|file rest IH]; intros after h.
  - simpl. unfold bind, ret. rewrite app_nil_r.
    destruct (Main.process_templates _ _ _ _ _ after h). reflexivity.
  - simpl. unfold bind at 1 2 3.
    destruct (Main.process_template _ _ _ _ _ _ h) as [[[]|x] ev1]; [|reflexivity].
    rewrite IH. unfold bind.
    destruct (Main.process_templates _ _ _ _ _ rest (h ++ ev1)) as [[[]|x] ev2];
      [|reflexivity].
    rewrite <- app_assoc.
    destruct (Main.process_templates _ _ _ _ _ after (h ++ ev1 ++ ev2)) as [r ev3].
    rewrite app_assoc. reflexivity.
Qed.

Lemma process_template_bad_schedule
  files e today sn_client sn_integration_client file doc ticket_data attachments_data h :
  files file = TomlDocument doc ->
  lookup "ticket" doc = Some (VDict ticket_data) ->
  dict_get ticket_data "attachments" (VDict []) = VDict attachments_data ->
  py_truthy (dict_get ticket_data "schedule" (VDict []))
  && negb (isinstance_dict (dict_get ticket_data "schedule" (VDict []))) = true ->
  Main.process_template (files file) e today sn_client sn_integration_client file h
  = (Raised AttributeError,
     [EvLog DEBUG [Lit "Processing template: "; Lit file];
      EvLog DEBUG [Opaque "self.__dict__"]]).
Proof.
  intros Hf Ht Ha Hs. unfold Main.process_template. cbv zeta.
  rewrite (bind_returned _ _ h tt [EvLog DEBUG [Lit "Processing template: "; Lit file]]
             eq_refl).
  assert (Hl : TicketTemplate.load (files file) (TicketTemplate.new file)
                 (h ++ [EvLog DEBUG [Lit "Processing template: "; Lit file]])
               = (Returned
                    (true,
                     TicketTemplate.set_attachments
                       (TicketTemplate.set_ticket_fields (TicketTemplate.new file)
                          ticket_data)
                       (dict_get attachments_data "files" (VList []))),
                  [EvLog DEBUG [Opaque "self.__dict__"]])).
  { rewrite Hf. unfold TicketTemplate.load. rewrite Ht. cbv zeta. rewrite Ha.
    reflexivity. }
  rewrite (bind_returned _ _ _ _ _ Hl). cbn [negb fst snd].
  rewrite (bind_raised _ _ _ AttributeError []
             (validate_structure_bad_schedule e
                (TicketTemplate.set_attachments
                   (TicketTemplate.set_ticket_fields (TicketTemplate.new file)
                      ticket_data)
                   (dict_get attachments_data "files" (VList []))) _ Hs)).
  reflexivity.
Qed.

(** X17: one malformed template stops the whole run.  Nothing in the loop
    of [main] catches an exception: when a template file is loadable but
    its [schedule] is a truthy value that is not a table, processing it
    raises [AttributeError], and the templates listed after it are not
    processed at all: the run is the run of the list cut after that
    file. *)
Theorem malformed_schedule_stops_the_run
  files e today sn_client sn_integration_client before file after
  doc ticket_data attachments_data h evs :
  files file = TomlDocument doc ->
  lookup "ticket" doc = Some (VDict ticket_data) ->
  dict_get ticket_data "attachments" (VDict []) = VDict attachments_data ->
  py_truthy (dict_get ticket_data "schedule" (VDict []))
  && negb (isinstance_dict (dict_get ticket_data "schedule" (VDict []))) = true ->
  Main.process_templates files e today sn_client sn_integration_client before h
  = (Returned tt, evs) ->
  Main.process_templates files e today sn_client sn_integration_client
    (before ++ file :: after) h
  = (Raised AttributeError,
     evs ++ [EvLog DEBUG [Lit "Processing template: "; Lit file];
             EvLog DEBUG [Opaque "self.__dict__"]]).
Proof.
  intros Hf Ht Ha Hs Hbefore.
  rewrite process_templates_app, (bind_returned _ _ _ _ _ Hbefore).
  cbn [Main.process_templates].
  rewrite (bind_raised _ _ _ _ _
             (process_template_bad_schedule files e today sn_client
                sn_integration_client file doc ticket_data attachments_data
                (h ++ evs) Hf Ht Ha Hs)).
  reflexivity.
Qed.

Lemma malformed_schedule_stops_the_run_witness :
  Main.process_templates example_files (env_with server_ok) tuesday example_client None
    ([] ++ "templates/a_broken.toml"%string :: ["templates/backup.toml"%string]) []
  = (Raised AttributeError,
     [] ++ [EvLog DEBUG [Lit "Processing template: "; Lit "templates/a_broken.toml"];
            EvLog DEBUG [Opaque "self.__dict__"]]).
Proof.
  apply (malformed_schedule_stops_the_run example_files (env_with server_ok) tuesday
           example_client None [] "templates/a_broken.toml" ["templates/backup.toml"%string]
           [("ticket",
             VDict [("assignment_group", VStr "Operations");
                    ("short_description", VStr "Check the backups");
                    ("description", VStr "Verify that last night's backups completed.");
                    ("schedule", VStr "daily")])]
           [("assignment_group", VStr "Operations");
            ("short_description", VStr "Check the backups");
            ("description", VStr "Verify that last night's backups completed.");
            ("schedule", VStr "daily")] [] [] []); reflexivity.
Defined.

(** ** Start-up of main *)

Lemma unset_false v : Main.unset v = false -> v = Some (Main.value_of v) /\ Main.value_of v <> EmptyString.
Proof.
  destruct v as [s|]; simpl; [|discriminate].
  intro H. split; [reflexivity|]. apply String.eqb_neq. exact H.
Qed.

(** X18: the credentials [main] works with.  It exits with status 1
    exactly when [SN_API_USER] or [SN_API_PASSWORD] is unset or empty.
    Otherwise the four credentials are non-empty, the primary pair is the
    one of the environment, and the integration pair is never mixed: it is
    the pair of the two integration variables when both are set, and the
    primary pair (after a warning) as soon as one of them is unset or
    empty. *)
Theorem main_credentials_contract environ :
  let primary_missing :=
    Main.unset (environ "SN_API_USER") || Main.unset (environ "SN_API_PASSWORD") in
  let integration_missing :=
    Main.unset (environ "SN_INTEGRATION_USER")
    || Main.unset (environ "SN_INTEGRATION_PASSWORD") in
  match snd (Main.main_credentials environ) with
  | Main.Exit code =>
      code = 1 /\ primary_missing = true
      /\ exists line, fst (Main.main_credentials environ) = [line]
                      /\ is_error_line line = true
  | Main.Continue c =>
      primary_missing = false
      /\ environ "SN_API_USER" = Some (Main.sn_api_user c)
      /\ environ "SN_API_PASSWORD" = Some (Main.sn_api_pass c)
      /\ Main.sn_api_user c <> EmptyString
      /\ Main.sn_api_pass c <> EmptyString
      /\ Main.sn_integration_user c <> EmptyString
      /\ Main.sn_integration_pass c <> EmptyString
      /\ if integration_missing then
           Main.sn_integration_user c = Main.sn_api_user c
           /\ Main.sn_integration_pass c = Main.sn_api_pass c
           /\ exists line, fst (Main.main_credentials environ) = [line]
                           /\ is_warning_line line = true
         else
           environ "SN_INTEGRATION_USER" = Some (Main.sn_integration_user c)
           /\ environ "SN_INTEGRATION_PASSWORD" = Some (Main.sn_integration_pass c)
           /\ fst (Main.main_credentials environ) = []
  end.
Proof.
  intros primary_missing integration_missing. subst primary_missing integration_missing.
  unfold Main.main_credentials. cbv zeta.
  destruct (Main.unset (environ "SN_API_USER")) eqn:Hu; cbn [orb].
  { split; [reflexivity|]. split; [reflexivity|]. eexists. split; reflexivity. }
  destruct (Main.unset (environ "SN_API_PASSWORD")) eqn:Hp; cbn [orb].
  { split; [reflexivity|]. split; [reflexivity|]. eexists. split; reflexivity. }
  destruct (unset_false _ Hu) as [Hu1 Hu2]. destruct (unset_false _ Hp) as [Hp1 Hp2].
  destruct (Main.unset (environ "SN_INTEGRATION_USER")) eqn:Hiu; cbn [orb].
  { cbn [snd fst Main.sn_api_user Main.sn_api_pass Main.sn_integration_user
         Main.sn_integration_pass].
    repeat (split; [first [reflexivity|assumption]|]).
    eexists. split; reflexivity. }
  destruct (Main.unset (environ "SN_INTEGRATION_PASSWORD")) eqn:Hip; cbn [orb].
  { cbn [snd fst Main.sn_api_user Main.sn_api_pass Main.sn_integration_user
         Main.sn_integration_pass].
    repeat (split; [first [reflexivity|assumption]|]).
    eexists. split; reflexivity. }
  destruct (unset_false _ Hiu) as [Hiu1 Hiu2].
  destruct (unset_false _ Hip) as [Hip1 Hip2].
  cbn [snd fst Main.sn_api_user Main.sn_api_pass Main.sn_integration_user
       Main.sn_integration_pass].
  repeat (split; [first [reflexivity|assumption]|]).
  reflexivity.
Qed.

(** With only [SN_INTEGRATION_USER] set, the integration client gets the
    primary credentials, not the integration user name. *)
Example main_credentials_half_integration :
  snd (Main.main_credentials environ_with_half_integration)
  = Main.Continue {| Main.sn_api_user := "scheduler"; Main.sn_api_pass := "secret";
                     Main.sn_integration_user := "scheduler";
                     Main.sn_integration_pass := "secret" |}.
Proof. reflexivity. Qed.

(** X19: [load_app_config] stops the program with status 1 unless the file
    can be read, parses, and holds both a [templates] and a [servicenow]
    section; the line printed last then reports the error.  A missing [log]
    section never stops it: it costs one warning.  When the call returns,
    it returns the parsed document as it is and has printed no error. *)
Theorem load_app_config_contract config_path src :
  let printed := fst (Main.load_app_config config_path src) in
  (length printed <= 2)%nat
  /\ match snd (Main.load_app_config config_path src) with
     | Main.Exit code =>
         code = 1 /\ usable_config src = false
         /\ exists warnings line,
              printed = warnings ++ [line]
              /\ is_error_line line = true
              /\ forallb is_warning_line warnings = true
     | Main.Continue app_config =>
         src = TomlDocument app_config
         /\ usable_config src = true
         /\ forallb is_warning_line printed = true
         /\ (printed = [] <-> Main.has_key "log" app_config = true)
     end.
Proof.
  intro printed. subst printed. unfold Main.load_app_config, usable_config.
  destruct src as [|detail|detail|app_config]; cbn [fst snd length].
  - split; [lia|]. split; [reflexivity|]. split; [reflexivity|].
    exists []. eexists. repeat split.
  - split; [lia|]. split; [reflexivity|]. split; [reflexivity|].
    exists []. eexists. repeat split.
  - split; [lia|]. split; [reflexivity|]. split; [reflexivity|].
    exists []. eexists. repeat split.
  - cbv zeta.
    destruct (Main.has_key "log" app_config) eqn:Hl,
      (Main.has_key "templates" app_config) eqn:Ht,
      (Main.has_key "servicenow" app_config) eqn:Hs;
      cbn [negb andb fst snd app length]; rewrite ?Hl, ?Ht, ?Hs.
    + split; [lia|]. repeat split; intros; first [reflexivity|discriminate].
    + split; [lia|]. split; [reflexivity|]. split; [reflexivity|].
      exists []. eexists. repeat split.
    + split; [lia|]. split; [reflexivity|]. split; [reflexivity|].
      exists []. eexists. repeat split.
    + split; [lia|]. split; [reflexivity|]. split; [reflexivity|].
      exists []. eexists. repeat split.
    + split; [lia|]. repeat split; intros; first [reflexivity|discriminate].
    + split; [lia|]. split; [reflexivity|]. split; [reflexivity|].
      eexists [_]. eexists. repeat split.
    + split; [lia|]. split; [reflexivity|]. split; [reflexivity|].
      eexists [_]. eexists. repeat split.
    + split; [lia|]. split; [reflexivity|]. split; [reflexivity|].
      eexists [_]. eexists. repeat split.
Qed.

(** ** The lookup by sys_id *)

Lemma _get_record_by_sys_id self e table_name sys_id fields h :
  (table_name =? "")%string = false ->
  py_truthy sys_id = true ->
  let o := respond e h (lookup_by_sys_id self table_name sys_id fields) in
  let r := fst (ServiceNowClient._get_record self e table_name sys_id None fields None h) in
  (forall d record,
      json_response o (VDict d) -> lookup "result" d = Some record -> r = Returned record)
  /\ (forall d,
      json_response o (VDict d) -> d <> [] -> lookup "result" d = None ->
      r = Returned (VDict d))
  /\ (failed_outcome o = true -> (forall x, o <> Fault x) -> r = Returned VNone).
Proof.
  intros Ht Hs o r. subst o r.
  unfold ServiceNowClient._get_record. rewrite Ht, Hs. cbv zeta.
  rewrite fst_bind. cbn [ret fst snd]. rewrite app_nil_r.
  unfold lookup_by_sys_id, api_request, ServiceNowClient._make_request.
  destruct fields as [[|f fs']|]; cbn [fields_param app];
    (split; [|split];
     [ intros d record Hj Hres; rewrite fst_bind; unfold fstring in *;
       rewrite (_execute_http_request_json e _ _ _ _ _ _ h (VDict d) Hj);
       cbn [fst snd];
       (destruct d as [|kv d']; [discriminate Hres|]);
       cbn [py_truthy]; rewrite fst_bind; unfold lift at 1;
       cbn [fst snd py_contains_str];
       rewrite Hres; cbn [negb andb]; cbv iota;
       rewrite fst_bind; unfold lift at 1; cbn [fst snd py_getitem_str];
       rewrite Hres; reflexivity
     | intros d Hj Hne Hres; rewrite fst_bind; unfold fstring in *;
       rewrite (_execute_http_request_json e _ _ _ _ _ _ h (VDict d) Hj);
       cbn [fst snd];
       (destruct d as [|kv d']; [contradiction|]);
       cbn [py_truthy]; rewrite fst_bind; unfold lift at 1;
       cbn [fst snd py_contains_str];
       rewrite Hres; cbn [negb andb]; cbv iota;
       rewrite fst_bind; reflexivity
     | intros Hf Hnf; rewrite fst_bind; unfold fstring in *;
       match goal with
       | |- context [ServiceNowClient._execute_http_request ?e' ?m ?u ?p ?pl ?d ?hd ?h'] =>
           pose proof (_execute_http_request_run e' m u p pl d hd h') as Hc;
           cbv zeta in Hc; destruct Hc as [_ Hc];
           destruct (fst (ServiceNowClient._execute_http_request e' m u p pl d hd h'))
             as [v|x];
           [destruct Hc as [Hv _]; unfold fstring in *; rewrite Hf in Hv; simpl in Hv;
            rewrite Hv; rewrite fst_bind; reflexivity
           |exfalso; apply (Hnf x Hc)]
       end ]).
Qed.

(** X20: the lookup by [sys_id].  When the server answers with a JSON
    object that has a ['result'], [_find_record] returns what is under it;
    when the object has no ['result'], it returns the object itself, taken
    as the record; when the request fails (error status, transport error,
    unusable body) it returns [None].  [number] plays no part. *)
Theorem _find_record_by_sys_id self e table_name sys_id number fields h :
  (table_name =? "")%string = false ->
  py_truthy sys_id = true ->
  let o := respond e
             (h ++ [EvLog DEBUG [Lit "Fetching record from '"; Lit table_name;
                                 Lit "' by sys_id: '"; Val sys_id; Lit "'"]])
             (lookup_by_sys_id self table_name sys_id fields) in
  let r := fst (ServiceNowClient._find_record self e table_name sys_id number fields h) in
  (forall d record,
      json_response o (VDict d) -> lookup "result" d = Some record -> r = Returned record)
  /\ (forall d,
      json_response o (VDict d) -> d <> [] -> lookup "result" d = None ->
      r = Returned (VDict d))
  /\ (failed_outcome o = true -> (forall x, o <> Fault x) -> r = Returned VNone).
Proof.
  intros Ht Hs o r. subst o r.
  unfold ServiceNowClient._find_record. rewrite Hs. cbn [negb andb].
  rewrite fst_bind, fst_bind. cbn [logging emit fst snd].
  destruct (_get_record_by_sys_id self e table_name sys_id fields
              (h ++ [EvLog DEBUG [Lit "Fetching record from '"; Lit table_name;
                                  Lit "' by sys_id: '"; Val sys_id; Lit "'"]])
              Ht Hs) as (Hres & Hdirect & Hfail).
  split; [|split].
  - intros d record Hj Hr. rewrite (Hres d record Hj Hr). rewrite fst_bind.
    destruct (py_truthy record); reflexivity.
  - intros d Hj Hne Hr. rewrite (Hdirect d Hj Hne Hr). rewrite fst_bind.
    destruct (py_truthy (VDict d)); reflexivity.
  - intros Hf Hnf. rewrite (Hfail Hf Hnf). reflexivity.
Qed.

Lemma _find_record_by_sys_id_witness :
  fst (ServiceNowClient.get_requested_item example_client
         (env_with server_without_result) VNone (VStr "46d44a5dc0a8010e") None [])
  = Returned (VDict [("error", VStr "rejected")])
  /\ fst (ServiceNowClient.get_incident example_client (env_with server_down)
            (VStr "INC0010001") (VStr "46d44a5dc0a8010e") None [])
     = Returned VNone.
Proof.
  split.
  - apply (proj1 (proj2 (_find_record_by_sys_id example_client
                           (env_with server_without_result) "sc_req_item"
                           (VStr "46d44a5dc0a8010e") VNone None [] eq_refl eq_refl))
             [("error", VStr "rejected")]).
    + exists 200. repeat split.
    + discriminate.
    + reflexivity.
  - apply (proj2 (proj2 (_find_record_by_sys_id example_client (env_with server_down)
                           "incident" (VStr "46d44a5dc0a8010e") (VStr "INC0010001")
                           None [] eq_refl eq_refl))).
    + reflexivity.
    + intros x. discriminate.
Defined.


(** A [file_path] that is a number: a descriptor that is not open is
    reported as a missing file, an open one makes [os.path.basename] raise,
    a number that is no C [int] makes [os.stat] raise. *)
Example add_attachment_descriptor_examples :
  ServiceNowClient.add_attachment example_client (env_with server_ok) "sc_req_item"
    (VStr "46d44a5dc0a8010e") (VInt 7) []
  = (Raised (FileNotFoundError "7"),
     [EvCall (CallAttach "sc_req_item" (VStr "46d44a5dc0a8010e") (VInt 7));
      EvLog ERROR [Lit "File not found at path for attachment: "; Val (VInt 7)]])
  /\ fst (ServiceNowClient.add_attachment example_client (env_with server_ok)
            "sc_req_item" (VStr "46d44a5dc0a8010e") (VBool true) [])
     = Raised TypeError
  /\ fst (ServiceNowClient.add_attachment example_client (env_with server_ok)
            "sc_req_item" (VStr "46d44a5dc0a8010e") (VInt 4294967296) [])
     = Raised (OtherException "OverflowError")
  /\ fst (ServiceNowClient.add_attachment example_client (env_with server_ok)
            "sc_req_item" (VStr "46d44a5dc0a8010e") VNone [])
     = Raised TypeError.
Proof. repeat split. Qed.
